(** * Gyarados Browser: profile and persistent state store

    A shallow embedding of the persistence code of [Demo3v4.py] (class
    [Config], [ProfileDialog.delete_profile], and the bookmark, history
    and session methods of [MainWindow]), with the places where
    [Demo2i3.py] differs noted next to the definition concerned.

    Python values are an inductive type [pyval]; the profile directories
    and the [QSettings] store form a [world] that the code threads through
    a small state-and-exception monad; [ErrorHandler.handle] appends to an
    event log kept in the world.  The libraries the code calls ([json],
    [Fernet], [PBKDF2HMAC], Qt) are modelled by their contract only. *)

From Stdlib Require Import ZArith List String Ascii Bool Lia Sorted.
From stdpp Require Import gmap strings pretty list fin_maps.

Local Open Scope string_scope.
Local Open Scope list_scope.
Local Open Scope Z_scope.
Local Set Warnings "-register-all".

(** ** Python values *)

(** The values a [Config] attribute, a JSON document or a collection
    entry can hold.  [PFloat] carries the [repr] of the float, [PDict]
    keeps insertion order as Python dicts do, and [PQSize] is the one
    value of the program that is not a JSON type ([QSize w h]). *)
Inductive pyval : Type :=
| PNone
| PBool (b : bool)
| PInt (z : Z)
| PFloat (repr : string)
| PStr (s : string)
| PList (l : list pyval)
| PDict (d : list (string * pyval))
| PQSize (w h : Z).

(** The exceptions the modelled code can meet. *)
Inductive exn : Type :=
| InvalidToken
| ValueError (msg : string)
| FileNotFoundError (path : string)
| TypeError
| KeyError (key : string)
| AttributeError
| JSONDecodeError
| NameError (name : string)
| Exception (msg : string).

(** [json.dumps] accepts [None], booleans, numbers, strings, lists and
    string-keyed dicts, and raises [TypeError] on any other object. *)
Fixpoint json_serializable (v : pyval) : bool :=
  match v with
  | PList l => forallb json_serializable l
  | PDict d => forallb (fun kv => json_serializable (snd kv)) d
  | PQSize _ _ => false
  | _ => true
  end.

(** Truth value of an object, as [if x:] takes it. *)
Definition truthy (v : pyval) : bool :=
  match v with
  | PNone => false
  | PBool b => b
  | PInt z => negb (z =? 0)
  | PFloat r => negb (String.eqb r "0.0" || String.eqb r "-0.0")
  | PStr s => negb (String.eqb s "")
  | PList l => match l with [] => false | _ => true end
  | PDict d => match d with [] => false | _ => true end
  | PQSize _ _ => true
  end.

(** [v == s] for a [str] [s]: only an equal [str] compares equal. *)
Definition eq_str (v : pyval) (s : string) : bool :=
  match v with
  | PStr t => String.eqb t s
  | _ => false
  end.

(** *** Dicts *)

Fixpoint dict_get (d : list (string * pyval)) (k : string) : option pyval :=
  match d with
  | [] => None
  | (k', v) :: d' => if String.eqb k' k then Some v else dict_get d' k
  end.

(** [d[k] = v]: an existing key keeps its position, a new one goes last. *)
Fixpoint dict_set (d : list (string * pyval)) (k : string) (v : pyval)
  : list (string * pyval) :=
  match d with
  | [] => [(k, v)]
  | (k', v') :: d' =>
      if String.eqb k' k then (k, v) :: d' else (k', v') :: dict_set d' k v
  end.

(** Results of a computation that may raise. *)
Inductive res (A : Type) : Type :=
| Ok (a : A)
| Raise (e : exn).
Arguments Ok {A} a.
Arguments Raise {A} e.

(** [r] and then [f], as two statements in a row. *)
Definition and_then {A B} (r : res A) (f : A -> res B) : res B :=
  match r with
  | Ok a => f a
  | Raise e => Raise e
  end.

(** [x[k]] for a string key [k]. *)
Definition getitem (x : pyval) (k : string) : res pyval :=
  match x with
  | PDict d => match dict_get d k with
               | Some v => Ok v
               | None => Raise (KeyError k)
               end
  | _ => Raise TypeError
  end.

(** [x.get(k, default)]. *)
Definition dict_get_default (x : pyval) (k : string) (default : pyval)
  : res pyval :=
  match x with
  | PDict d => Ok (match dict_get d k with Some v => v | None => default end)
  | _ => Raise AttributeError
  end.

(** [str(x)] as an f-string formats it; the program only ever formats
    profile names, which are [str]. The container cases give the fixed
    text of an empty container and are not relied upon. *)
Definition py_str (x : pyval) : string :=
  match x with
  | PNone => "None"
  | PBool true => "True"
  | PBool false => "False"
  | PInt z => pretty z
  | PFloat r => r
  | PStr s => s
  | PList _ => "[]"
  | PDict _ => "{}"
  | PQSize _ _ => "PyQt5.QtCore.QSize()"
  end.

(** ** The world: profile directories, settings store, event log *)

(** What a file under [profiles/<name>/] holds.  [FJson v] is the text
    [json.dump] writes for [v]; [FBytes] is a byte string that is not a
    JSON document (the code writes [profile.meta] this way); [FToken k pt]
    is the Fernet token of plaintext [pt] under key [k]; [FTruncated] is a
    JSON text cut short by an exception inside [json.dump]. *)
Inductive fdata : Type :=
| FJson (v : pyval)
| FBytes (b : string)
| FToken (k : string) (pt : fdata)
| FTruncated.

(** A value kept by [QSettings]: an object, or the [str] that
    [json.dumps] returned for an object. *)
Inductive qvalue : Type :=
| QObj (v : pyval)
| QJsonStr (v : pyval).

(** What [ErrorHandler.handle] does: one line in the log and, when
    [show_user] is set, one warning box. *)
Inductive event : Type :=
| LogError (line_prefix : string) (error : exn)
| MsgWarning (title msg : string).

(** [profiles] maps a profile name to its directory [profiles/<name>/],
    itself a map from file name to contents; [qsettings] maps the
    application string ["Browser/<name>"] to its keys. *)
Record world : Type := World {
  profiles : gmap string (gmap string fdata);
  qsettings : gmap string (gmap string qvalue);
  events : list event
}.

Definition set_profiles (f : gmap string (gmap string fdata)) (w : world)
  : world :=
  World f (qsettings w) (events w).

Definition set_qsettings (q : gmap string (gmap string qvalue)) (w : world)
  : world :=
  World (profiles w) q (events w).

Definition emit (evs : list event) (w : world) : world :=
  World (profiles w) (qsettings w) (events w ++ evs).

(** *** A state-and-exception monad over the world

    An exception leaves the world as the statements before it made it. *)
Definition M (A : Type) : Type := world -> res A * world.

Definition ret {A} (a : A) : M A := fun w => (Ok a, w).

Definition raise {A} (e : exn) : M A := fun w => (Raise e, w).

Definition bind {A B} (m : M A) (f : A -> M B) : M B :=
  fun w => match m w with
           | (Ok a, w') => f a w'
           | (Raise e, w') => (Raise e, w')
           end.

(** [try: m  except Exception as e: h e]. *)
Definition try_except {A} (m : M A) (h : exn -> M A) : M A :=
  fun w => match m w with
           | (Ok a, w') => (Ok a, w')
           | (Raise e, w') => h e w'
           end.

Definition lift {A} (r : res A) : M A := fun w => (r, w).

Definition modify (f : world -> world) : M unit := fun w => (Ok tt, f w).

Definition gets {A} (f : world -> A) : M A := fun w => (Ok (f w), w).

Declare Scope py_scope.
Delimit Scope py_scope with py.
Notation "x <- m ;; k" := (bind m (fun x => k))
  (at level 100, m at next level, right associativity) : py_scope.
Notation "m ;;; k" := (bind m (fun _ => k))
  (at level 100, right associativity) : py_scope.
Local Open Scope py_scope.

(** ** ErrorHandler *)

Definition ERROR_TYPES : list (string * (string * string)) :=
  [ ("ui", ("UI Error", "An error occurred in the interface. Please try again."));
    ("file", ("File Error", "An error occurred during file operation."));
    ("network", ("Network Error", "Could not establish network connection."));
    ("general", ("Error", "An unexpected error occurred. Please restart the application."));
    ("plugin", ("Plugin Error", "An error occurred in a plugin."));
    ("profile", ("Profile Error", "An error occurred with profile operations."));
    ("ai", ("AI Error", "An error occurred with AI services."));
    ("translation", ("Translation Error", "Could not translate the content.")) ].

Fixpoint error_types_get (tbl : list (string * (string * string)))
  (k : string) : option (string * string) :=
  match tbl with
  | [] => None
  | (k', v) :: tbl' => if String.eqb k' k then Some v else error_types_get tbl' k
  end.

Definition upper_ascii (c : ascii) : ascii :=
  let n := nat_of_ascii c in
  if ((97 <=? n) && (n <=? 122))%nat then ascii_of_nat (n - 32) else c.

Fixpoint upper (s : string) : string :=
  match s with
  | EmptyString => EmptyString
  | String c s' => String (upper_ascii c) (upper s')
  end.

(** [ErrorHandler.handle(error_type, error, show_user)]. *)
Definition handle (error_type : string) (error : exn) (show_user : bool)
  : M unit :=
  let '(error_title, error_msg) :=
    match error_types_get ERROR_TYPES error_type with
    | Some tm => tm
    | None => ("Error", "An unexpected error occurred. Please restart the application.")
    end in
  modify (emit (LogError (upper error_type) error
                :: if show_user then [MsgWarning error_title error_msg] else [])).

(** ** File operations on a profile directory *)

(** [Path("profiles/<name>").mkdir(parents=True, exist_ok=True)].  The
    map of directories is flat: it shows what the code does for a name
    that is one path component.  A name with a separator in it makes
    nested directories, of which [iterdir] lists the outermost only. *)
Definition mkdir (name : string) : M unit :=
  modify (fun w =>
    match profiles w !! name with
    | Some _ => w
    | None => set_profiles (<[name := ∅]> (profiles w)) w
    end).

(** [(profile_dir / file).exists()]. *)
Definition file_exists (name file : string) (w : world) : bool :=
  match profiles w !! name with
  | Some dir => match dir !! file with Some _ => true | None => false end
  | None => false
  end.

Definition path_of (name file : string) : string :=
  "profiles/" +:+ name +:+ "/" +:+ file.

(** Reading a whole file; a missing file or directory raises. *)
Definition read_file (name file : string) : M fdata :=
  fun w => match profiles w !! name with
           | Some dir => match dir !! file with
                         | Some c => (Ok c, w)
                         | None => (Raise (FileNotFoundError (path_of name file)), w)
                         end
           | None => (Raise (FileNotFoundError (path_of name file)), w)
           end.

(** Leaving a file with contents [c] (the directory must exist). *)
Definition write_file (name file : string) (c : fdata) : M unit :=
  fun w => match profiles w !! name with
           | Some dir => (Ok tt, set_profiles (<[name := <[file := c]> dir]> (profiles w)) w)
           | None => (Raise (FileNotFoundError (path_of name file)), w)
           end.

(** [path.unlink()]. *)
Definition unlink (name file : string) : M unit :=
  fun w => match profiles w !! name with
           | Some dir => match dir !! file with
                         | Some _ => (Ok tt, set_profiles (<[name := delete file dir]> (profiles w)) w)
                         | None => (Raise (FileNotFoundError (path_of name file)), w)
                         end
           | None => (Raise (FileNotFoundError (path_of name file)), w)
           end.

(** [src.rename(dst)] inside one directory: the source disappears and
    the destination holds its contents. *)
Definition rename (name src dst : string) : M unit :=
  fun w => match profiles w !! name with
           | Some dir => match dir !! src with
                         | Some c => (Ok tt, set_profiles (<[name := <[dst := c]> (delete src dir)]> (profiles w)) w)
                         | None => (Raise (FileNotFoundError (path_of name src)), w)
                         end
           | None => (Raise (FileNotFoundError (path_of name src)), w)
           end.

(** ** json *)

(** [json.load(f)] / [json.loads(text)] on the contents of a file. *)
Definition json_load (c : fdata) : res pyval :=
  match c with
  | FJson v => Ok v
  | _ => Raise JSONDecodeError
  end.

(** [with open(path, 'w') as f: json.dump(value, f, ...)]: the file is
    created empty by [open]; [json.dump] then either writes the whole
    document or raises [TypeError] part-way. *)
Definition open_w (name file : string) : M unit :=
  write_file name file (FBytes "").

Definition json_dump (value : pyval) (name file : string) : M unit :=
  if json_serializable value
  then write_file name file (FJson value)
  else (write_file name file FTruncated ;;; raise TypeError).

(** ** Config *)

Definition APP_NAME : string := "Gyarados Browser".

(** [DEFAULT_WINDOW_SIZE = QSize(1280, 720)]. *)
Definition DEFAULT_WINDOW_SIZE : pyval := PQSize 1280 720.

Definition default_SEARCH_ENGINES : pyval := PDict [
    ("DuckDuckGo", PDict [("url", PStr "https://duckduckgo.com/?q={}&kl={lang}"); ("lang_param", PBool true)]);
    ("Google", PDict [("url", PStr "https://www.google.com/search?q={}&hl={lang}"); ("lang_param", PBool true)]);
    ("Bing", PDict [("url", PStr "https://www.bing.com/search?q={}&setlang={lang}"); ("lang_param", PBool true)]);
    ("Yandex", PDict [("url", PStr "https://yandex.com/search/?text={}&lang={lang}"); ("lang_param", PBool true)]);
    ("Baidu", PDict [("url", PStr "https://www.baidu.com/s?wd={}"); ("lang_param", PBool false)]);
    ("Naver", PDict [("url", PStr "https://search.naver.com/search.naver?query={}"); ("lang_param", PBool false)]);
    ("Ecosia", PDict [("url", PStr "https://www.ecosia.org/search?q={}"); ("lang_param", PBool false)]);
    ("Brave", PDict [("url", PStr "https://search.brave.com/search?q={}"); ("lang_param", PBool false)]);
    ("Firefox", PDict [("url", PStr "https://www.mozilla.org/en-US/firefox/new/?q={}"); ("lang_param", PBool false)]);
    ("Yahoo", PDict [("url", PStr "https://search.yahoo.com/search?p={}"); ("lang_param", PBool false)]) ].

Definition default_SUPPORTED_LANGUAGES : pyval := PDict [
    ("en", PStr "English");
    ("es", PStr "Español");
    ("fr", PStr "Français");
    ("de", PStr "Deutsch");
    ("it", PStr "Italiano");
    ("pt", PStr "Português");
    ("ru", PStr "Русский");
    ("zh", PStr "中文");
    ("ja", PStr "日本語");
    ("ko", PStr "한국어");
    ("ar", PStr "العربية");
    ("hi", PStr "हिन्दी");
    ("tr", PStr "Türkçe");
    ("fa", PStr "فارسی");
    ("ur", PStr "اردو");
    ("vi", PStr "Tiếng Việt");
    ("th", PStr "ไทย");
    ("nl", PStr "Nederlands");
    ("pl", PStr "Polski");
    ("uk", PStr "Українська");
    ("el", PStr "Ελληνικά");
    ("he", PStr "עברית");
    ("sv", PStr "Svenska");
    ("fi", PStr "Suomi");
    ("da", PStr "Dansk");
    ("no", PStr "Norsk");
    ("hu", PStr "Magyar");
    ("cs", PStr "Čeština");
    ("ro", PStr "Română");
    ("id", PStr "Bahasa Indonesia");
    ("ms", PStr "Bahasa Melayu");
    ("bn", PStr "বাংলা");
    ("ta", PStr "தமிழ்");
    ("te", PStr "తెలుగు");
    ("mr", PStr "मराठी");
    ("gu", PStr "ગુજરાતી");
    ("kn", PStr "ಕನ್ನಡ");
    ("ml", PStr "മലയാളം");
    ("pa", PStr "ਪੰਜਾਬੀ") ].

Definition default_APPS : pyval := PList [
    PDict [("name", PStr "Gmail"); ("url", PStr "https://mail.google.com"); ("icon", PStr "mail")];
    PDict [("name", PStr "YouTube"); ("url", PStr "https://youtube.com"); ("icon", PStr "video")];
    PDict [("name", PStr "GitHub"); ("url", PStr "https://github.com"); ("icon", PStr "code")] ].

(** The dataclass fields of [Config] with their defaults, in
    declaration order. *)
Definition default_fields : list (string * pyval) := [
    ("HOME_PAGE", PStr "https://duckduckgo.com");
    ("SEARCH_ENGINES", default_SEARCH_ENGINES);
    ("DEFAULT_SEARCH_ENGINE", PStr "DuckDuckGo");
    ("SUPPORTED_LANGUAGES", default_SUPPORTED_LANGUAGES);
    ("CURRENT_LANGUAGE", PStr "en");
    ("USER_AGENT", PStr "Mozilla/5.0 (Windows NT 10.0; Win64; x64) AppleWebKit/537.36 (KHTML, like Gecko) Chrome/91.0.4472.124 Safari/537.36");
    ("WINDOW_SIZE", DEFAULT_WINDOW_SIZE);
    ("PRIVATE_MODE", PBool false);
    ("ADBLOCK_ENABLED", PBool true);
    ("ADBLOCK_LISTS", PList [
        PStr "https://easylist.to/easylist/easylist.txt";
        PStr "https://easylist.to/easylist/easyprivacy.txt";
        PStr "https://pgl.yoyo.org/adservers/serverlist.php?hostformat=hosts&showintro=0&mimetype=plaintext" ]);
    ("COOKIES_ENABLED", PBool true);
    ("JAVASCRIPT_ENABLED", PBool true);
    ("WEBGL_ENABLED", PBool false);
    ("SAVE_SESSION", PBool true);
    ("DARK_THEME", PBool false);
    ("BOOKMARKS", PList []);
    ("CURRENT_PROFILE", PStr "default");
    ("PROFILES", PList [PStr "default"]);
    ("PROFILE_ENCRYPTED", PBool false);
    ("AUTO_SWITCH_PROFILES", PDict []);
    ("OPENAI_API_KEY", PNone);
    ("BACKGROUND_IMAGE", PNone);
    ("BACKGROUND_OPACITY", PFloat "0.5");
    ("CUSTOM_CSS", PStr "");
    ("TRANSLATE_TARGET_LANG", PStr "en");
    ("PINNED_TABS", PList []);
    ("APPS", default_APPS) ].

(** [cls.__dataclass_fields__]. *)
Definition dataclass_fields : list string := map fst default_fields.

(** A [Config] object is its attribute dictionary. *)
Definition config_new : gmap string pyval := list_to_map default_fields.

Definition getattr (self : gmap string pyval) (field : string) : res pyval :=
  match self !! field with
  | Some v => Ok v
  | None => Raise AttributeError
  end.

Definition setattr (self : gmap string pyval) (field : string) (v : pyval)
  : gmap string pyval :=
  <[field := v]> self.

(** An attribute read where the attribute is known to exist on every
    object built by [config_new]; [None] stands in otherwise. *)
Definition attr (self : gmap string pyval) (field : string) : pyval :=
  match self !! field with
  | Some v => v
  | None => PNone
  end.

(** The profile directory name that [f"profiles/{self.CURRENT_PROFILE}"]
    denotes. *)
Definition current_profile (self : gmap string pyval) : string :=
  py_str (attr self "CURRENT_PROFILE").

(** *** Collections written with a temporary file and a rename *)

(** [if dest.exists(): dest.unlink()]. *)
Definition unlink_if_exists (name dest : string) : M unit :=
  fun w => if file_exists name dest w then unlink name dest w else (Ok tt, w).

(** The statements every [save_*] method runs inside its [try], one list
    element per statement that touches the disk. *)
Definition save_json_steps (name temp dest : string) (value : pyval)
  : list (M unit) :=
  [ mkdir name;
    open_w name temp;
    json_dump value name temp;
    unlink_if_exists name dest;
    rename name temp dest ].

Fixpoint run_steps (steps : list (M unit)) : M unit :=
  match steps with
  | [] => ret tt
  | s :: rest => s ;;; run_steps rest
  end.

(** [load_bookmarks], [load_pinned_tabs] and [load_apps] share one shape:
    the attribute is replaced by the document when the file exists, and by
    [fallback] when reading fails. *)
Definition load_collection (field file : string) (fallback : pyval)
  (self : gmap string pyval) (profile_name : string) : M (gmap string pyval) :=
  try_except
    (fun w => if file_exists profile_name file w
              then (c <- read_file profile_name file ;;
                    v <- lift (json_load c) ;;
                    ret (setattr self field v)) w
              else (Ok self, w))
    (fun e => handle "file" e false ;;; ret (setattr self field fallback)).

Definition load_bookmarks := load_collection "BOOKMARKS" "bookmarks.json" (PList []).
Definition load_pinned_tabs := load_collection "PINNED_TABS" "pinned_tabs.json" (PList []).
Definition load_apps := load_collection "APPS" "apps.json" default_APPS.

Definition save_collection (field temp dest : string)
  (self : gmap string pyval) (profile_name : string) : M unit :=
  try_except
    (run_steps (save_json_steps profile_name temp dest (attr self field)))
    (fun e => handle "file" e false).

Definition save_bookmarks := save_collection "BOOKMARKS" "bookmarks_temp.json" "bookmarks.json".
Definition save_pinned_tabs := save_collection "PINNED_TABS" "pinned_tabs_temp.json" "pinned_tabs.json".
Definition save_apps := save_collection "APPS" "apps_temp.json" "apps.json".

(** *** Plaintext save *)

(** [settings.setValue(key, v)] on [QSettings(APP_NAME, app)]. *)
Definition setValue (app key : string) (v : qvalue) : M unit :=
  modify (fun w =>
    let store := match qsettings w !! app with Some s => s | None => ∅ end in
    set_qsettings (<[app := <[key := v]> store]> (qsettings w)) w).

(** [settings.value(key)]; [None] when the key is absent. *)
Definition value (app key : string) (w : world) : option qvalue :=
  match qsettings w !! app with
  | Some s => s !! key
  | None => None
  end.

Definition settings_app (profile_name : string) : string :=
  "Browser/" +:+ profile_name.

(** [[value.width(), value.height()]] for a [QSize], the value itself
    otherwise. *)
Definition qsize_as_list (v : pyval) : pyval :=
  match v with
  | PQSize w h => PList [PInt w; PInt h]
  | _ => v
  end.

(** [Config.save]. *)
Definition save (self : gmap string pyval) : M unit :=
  if truthy (attr self "PROFILE_ENCRYPTED") then ret tt
  else
    let p := current_profile self in
    mkdir p ;;;
    run_steps (map (fun field =>
                      setValue (settings_app p) field
                        (QObj (qsize_as_list (attr self field))))
                   dataclass_fields) ;;;
    save_bookmarks self p ;;;
    save_pinned_tabs self p ;;;
    save_apps self p.

(** *** Encrypted profiles *)

(** [json.dumps(x).encode()]. *)
Definition json_dumps (x : pyval) : res fdata :=
  if json_serializable x then Ok (FJson x) else Raise TypeError.

(** [Fernet(key).encrypt(plaintext)]. *)
Definition fernet_encrypt (key : string) (plaintext : fdata) : fdata :=
  FToken key plaintext.

(** [Fernet(key).decrypt(token)]: the plaintext when [token] was made
    under [key], [InvalidToken] for anything else. *)
Definition fernet_decrypt (key : string) (token : fdata) : res fdata :=
  match token with
  | FToken k pt => if String.eqb k key then Ok pt else Raise InvalidToken
  | _ => Raise InvalidToken
  end.

Fixpoint drop_string (n : nat) (s : string) : string :=
  match n, s with
  | O, _ => s
  | S n', String _ s' => drop_string n' s'
  | S _, EmptyString => EmptyString
  end.

(** [{f: getattr(cls(), f) for f in cls.__dataclass_fields__}] followed by
    [config_data["CURRENT_PROFILE"] = profile_name]. *)
Definition default_config_data (profile_name : string) : pyval :=
  PDict (dict_set (map (fun f => (f, attr config_new f)) dataclass_fields)
                  "CURRENT_PROFILE" (PStr profile_name)).

(** [Config.create_encrypted_profile].  [kdf password salt] is
    [base64.urlsafe_b64encode(PBKDF2HMAC(SHA256, 32, salt, 100000)
    .derive(password.encode()))] and [salt] the 16 bytes that
    [os.urandom] returned.  Nothing is caught: an exception reaches the
    caller. *)
Definition create_encrypted_profile (kdf : string -> string -> string)
  (salt : string) (profile_name password : string)
  (config_data : option pyval) : M unit :=
  let key := kdf password salt in
  let config_data := match config_data with
                     | None => default_config_data profile_name
                     | Some d => d
                     end in
  plaintext <- lift (json_dumps config_data) ;;
  let encrypted := fernet_encrypt key plaintext in
  mkdir profile_name ;;;
  write_file profile_name "profile.meta" (FBytes ("ENCRYPTED:" +:+ salt)) ;;;
  write_file profile_name "config.enc" encrypted.

(** [data.startswith(b"ENCRYPTED:")] on the contents of [profile.meta].
    Only a byte string can start with the marker: a JSON text or a
    token never does. *)
Definition starts_with_marker (data : fdata) : bool :=
  match data with
  | FBytes b => String.prefix "ENCRYPTED:" b
  | _ => false
  end.

Definition meta_salt (data : fdata) : string :=
  match data with
  | FBytes b => drop_string 10 b
  | _ => ""
  end.

(** The attribute names [setattr] does not store in the attribute
    dictionary of the object. *)
Definition ordinary_attribute (name : string) : bool :=
  negb (String.eqb name "__class__")
  && negb (String.eqb name "__dict__")
  && negb (String.eqb name "__weakref__").

(** [setattr(config, name, value)] with a name and a value that come out
    of a JSON document.  [__class__] takes a class only, [__dict__] takes
    a dict only and replaces the attribute dictionary, [__weakref__]
    cannot be written; every other name is stored. *)
Definition setattr_named (self : gmap string pyval) (name : string)
  (v : pyval) : res (gmap string pyval) :=
  if String.eqb name "__class__" then Raise TypeError
  else if String.eqb name "__dict__" then
    match v with
    | PDict d => Ok (list_to_map d)
    | _ => Raise TypeError
    end
  else if String.eqb name "__weakref__" then Raise AttributeError
  else Ok (setattr self name v).

Fixpoint setattr_loop (config : gmap string pyval)
  (items : list (string * pyval)) : res (gmap string pyval) :=
  match items with
  | [] => Ok config
  | (k, v) :: rest =>
      and_then (setattr_named config k v) (fun config' =>
      setattr_loop config' rest)
  end.

(** [for k, v in config_data.items(): setattr(config, k, v)]. *)
Definition setattr_items (config : gmap string pyval) (x : pyval)
  : res (gmap string pyval) :=
  match x with
  | PDict d => setattr_loop config d
  | _ => Raise AttributeError
  end.

(** [Config.load_encrypted_profile]; the result is the [Config], or
    [None] after an error was reported.  ([Demo2i3.py] has no branch of
    its own for [InvalidToken]: there the generic handler takes it.) *)
Definition load_encrypted_profile (kdf : string -> string -> string)
  (profile_name password : string) : M (option (gmap string pyval)) :=
  try_except
    (data <- read_file profile_name "profile.meta" ;;
     (if starts_with_marker data then ret tt
      else raise (ValueError "Not an encrypted profile")) ;;;
     let salt := meta_salt data in
     let key := kdf password salt in
     token <- read_file profile_name "config.enc" ;;
     decrypted <- lift (fernet_decrypt key token) ;;
     config_data <- lift (json_load decrypted) ;;
     config <- lift (setattr_items config_new config_data) ;;
     ret (Some config))
    (fun e =>
       match e with
       | InvalidToken =>
           handle "profile" (Exception "Invalid password") true ;;; ret None
       | _ => handle "profile" e true ;;; ret None
       end).

(** The test [Config.load] and [ProfileDialog.load_profiles] make to
    tell an encrypted profile: the metadata marker is present. *)
Definition is_encrypted (profile_name : string) (w : world) : bool :=
  match profiles w !! profile_name with
  | Some dir => match dir !! "profile.meta" with
                | Some data => starts_with_marker data
                | None => false
                end
  | None => false
  end.

(** *** Deleting by indices *)

(** [sorted(indices, reverse=True)] on integers. *)
Fixpoint insert_desc (x : Z) (l : list Z) : list Z :=
  match l with
  | [] => [x]
  | y :: l' => if y <=? x then x :: l else y :: insert_desc x l'
  end.

Definition sorted_reverse (indices : list Z) : list Z :=
  fold_right insert_desc [] indices.

(** One round of the loop body:
    [if 0 <= index < len(xs): xs.pop(index)]. *)
Definition pop_if_in_range {A} (xs : list A) (index : Z) : list A :=
  if (0 <=? index) && (index <? Z.of_nat (length xs))
  then delete (Z.to_nat index) xs
  else xs.

(** [for index in sorted(indices, reverse=True): ...] on a list. *)
Definition delete_by_indices {A} (xs : list A) (indices : list Z) : list A :=
  fold_left pop_if_in_range (sorted_reverse indices) xs.

Definition in_range (n : nat) (index : Z) : bool :=
  (0 <=? index) && (index <? Z.of_nat n).

(** The same loop on whatever object the attribute or the file holds:
    [len] and [pop] exist on a list; a dict has [len] but its [pop] looks
    the integer up as a key; a [str] has no [pop]; the other values have
    no [len]. *)
Definition pop_loop (x : pyval) (indices : list Z) : res pyval :=
  match x with
  | PList l => Ok (PList (delete_by_indices l indices))
  | PDict d =>
      match find (in_range (length d)) (sorted_reverse indices) with
      | Some i => Raise (KeyError (pretty i))
      | None => Ok x
      end
  | PStr s =>
      if existsb (in_range (String.length s)) indices
      then Raise AttributeError else Ok x
  | _ => match indices with [] => Ok x | _ => Raise TypeError end
  end.

(** [Config.delete_bookmarks]: the result is the returned flag together
    with the object as the call leaves it. *)
Definition delete_bookmarks (self : gmap string pyval) (indices : list Z)
  : M (bool * gmap string pyval) :=
  try_except
    (bookmarks <- lift (pop_loop (attr self "BOOKMARKS") indices) ;;
     let self' := setattr self "BOOKMARKS" bookmarks in
     save_bookmarks self' (current_profile self') ;;;
     ret (true, self'))
    (fun e => handle "file" e false ;;; ret (false, self)).

(** [Config.clear_bookmarks]. *)
Definition clear_bookmarks (self : gmap string pyval)
  : M (bool * gmap string pyval) :=
  try_except
    (let self' := setattr self "BOOKMARKS" (PList []) in
     save_bookmarks self' (current_profile self') ;;;
     ret (true, self'))
    (fun e => handle "file" e false ;;; ret (false, self)).

(** *** History *)

(** [Config.load_history]. *)
Definition load_history (profile_name : string) : M pyval :=
  try_except
    (fun w => if file_exists profile_name "history.json" w
              then (c <- read_file profile_name "history.json" ;;
                    lift (json_load c)) w
              else (Ok (PList []), w))
    (fun e => handle "file" e false ;;; ret (PList [])).

(** [history_data if history_data else self.load_history(profile_name)];
    the default argument is [None]. *)
Definition history_to_write (profile_name : string)
  (history_data : option pyval) : M pyval :=
  match history_data with
  | Some h => if truthy h then ret h else load_history profile_name
  | None => load_history profile_name
  end.

(** [Config.save_history]. *)
Definition save_history (profile_name : string) (history_data : option pyval)
  : M unit :=
  try_except
    (mkdir profile_name ;;;
     history <- history_to_write profile_name history_data ;;
     open_w profile_name "history_temp.json" ;;;
     json_dump history profile_name "history_temp.json" ;;;
     unlink_if_exists profile_name "history.json" ;;;
     rename profile_name "history_temp.json" "history.json")
    (fun e => handle "file" e false).

(** [Config.clear_history]. *)
Definition clear_history (profile_name : string) : M bool :=
  try_except
    (save_history profile_name (Some (PList [])) ;;; ret true)
    (fun e => handle "file" e false ;;; ret false).

(** [Config.delete_history_items]. *)
Definition delete_history_items (profile_name : string) (indices : list Z)
  : M bool :=
  try_except
    (history <- load_history profile_name ;;
     history' <- lift (pop_loop history indices) ;;
     save_history profile_name (Some history') ;;;
     ret true)
    (fun e => handle "file" e false ;;; ret false).

(** ** MainWindow: bookmarks and history *)

(** The elements a [for] loop over an object visits. *)
Definition iterate (x : pyval) : res (list pyval) :=
  match x with
  | PList l => Ok l
  | PDict d => Ok (map (fun kv => PStr (fst kv)) d)
  | PStr s => Ok (map (fun c => PStr (String c EmptyString)) (list_ascii_of_string s))
  | _ => Raise TypeError
  end.

(** [next((i for i, b in enumerate(xs) if b["url"] == url), None)],
    counting from [i]. *)
Fixpoint find_url_index (xs : list pyval) (url : string) (i : nat)
  : res (option nat) :=
  match xs with
  | [] => Ok None
  | b :: xs' =>
      match getitem b "url" with
      | Raise e => Raise e
      | Ok u => if eq_str u url then Ok (Some i)
                else find_url_index xs' url (S i)
      end
  end.

(** A list method ([append], [insert], [pop]) needs a list. *)
Definition as_list (x : pyval) : res (list pyval) :=
  match x with
  | PList l => Ok l
  | _ => Raise AttributeError
  end.

Definition new_bookmark (title url now : string) : pyval :=
  PDict [("title", PStr title); ("url", PStr url); ("date", PStr now)].

(** The loop both bookmark menus run: [menu.addAction(bookmark["title"])],
    which takes a [str] only, then [action.setData(bookmark["url"])]. *)
Fixpoint menu_actions (bookmarks : list pyval) : res unit :=
  match bookmarks with
  | [] => Ok tt
  | bookmark :: rest =>
      match getitem bookmark "title" with
      | Raise e => Raise e
      | Ok (PStr _) =>
          match getitem bookmark "url" with
          | Raise e => Raise e
          | Ok _ => menu_actions rest
          end
      | Ok _ => Raise TypeError
      end
  end.

(** [NavigationBar.update_bookmarks_menu]. *)
Definition NavigationBar_update_bookmarks_menu (config : gmap string pyval)
  : res unit :=
  if negb (truthy (attr config "BOOKMARKS")) then Ok tt
  else and_then (iterate (attr config "BOOKMARKS")) menu_actions.

(** [MainWindow.update_bookmarks_menu]: the menu of the navigation bar
    first, then the submenu of the window. *)
Definition update_bookmarks_menu (config : gmap string pyval) : res unit :=
  and_then (NavigationBar_update_bookmarks_menu config) (fun _ =>
  if negb (truthy (attr config "BOOKMARKS")) then Ok tt
  else and_then (iterate (attr config "BOOKMARKS")) menu_actions).

(** [MainWindow.toggle_bookmark] on the window's [Config]; [now] is
    [datetime.now().strftime("%Y-%m-%d %H:%M:%S")].  The result is the
    [Config] as the call leaves it: the list is changed in place before
    it is saved and the menus are rebuilt, so an exception from there on
    is reported with the changed list in the [Config]. *)
Definition toggle_bookmark (config : gmap string pyval)
  (title url now : string) : M (gmap string pyval) :=
  let changed :=
    and_then (iterate (attr config "BOOKMARKS")) (fun elems =>
    and_then (find_url_index elems url 0) (fun existing_index =>
    and_then (as_list (attr config "BOOKMARKS")) (fun bookmarks =>
    Ok match existing_index with
       | Some i => setattr config "BOOKMARKS" (PList (delete i bookmarks))
       | None => setattr config "BOOKMARKS"
                   (PList (bookmarks ++ [new_bookmark title url now]))
       end))) in
  match changed with
  | Raise e => handle "file" e true ;;; ret config
  | Ok config' =>
      try_except
        (save_bookmarks config' (current_profile config') ;;;
         lift (update_bookmarks_menu config') ;;;
         ret config')
        (fun e => handle "file" e true ;;; ret config')
  end.

Definition new_history_entry (url title now : string) : pyval :=
  PDict [("time", PStr now); ("url", PStr url); ("title", PStr title)].

(** [existing_entry["time"] = now; existing_entry["title"] = title]. *)
Definition touch_entry (entry : pyval) (title now : string) : pyval :=
  match entry with
  | PDict d => PDict (dict_set (dict_set d "time" (PStr now)) "title" (PStr title))
  | _ => entry
  end.

(** The list part of [add_to_history]: find the entry by url, update it
    where it stands or insert a new one in front, and keep
    [history[:100]]. *)
Definition record_visit (history : pyval) (url title now : string)
  : res pyval :=
  match iterate history with
  | Raise e => Raise e
  | Ok elems =>
      match find_url_index elems url 0 with
      | Raise e => Raise e
      | Ok found =>
          match as_list history with
          | Raise e => Raise e
          | Ok l =>
              let existing_entry :=
                match found with
                | Some i => match l !! i with Some h => h | None => PNone end
                | None => PNone
                end in
              let l' :=
                match found with
                | Some i =>
                    if truthy existing_entry
                    then <[i := touch_entry existing_entry title now]> l
                    else new_history_entry url title now :: l
                | None => new_history_entry url title now :: l
                end in
              Ok (PList (take 100 l'))
          end
      end
  end.

(** [MainWindow.add_to_history]; no exception is caught here. *)
Definition add_to_history (config : gmap string pyval)
  (url title now : string) : M unit :=
  history <- load_history (current_profile config) ;;
  history' <- lift (record_visit history url title now) ;;
  save_history (current_profile config) (Some history').

(** ** MainWindow: tabs and the session *)

(** A [WebTab] in the tab widget: the url its browser shows and the
    three attributes [save_session] reads back. *)
Record tab : Type := Tab {
  tab_url : string;
  private_mode : pyval;
  custom_title : pyval;
  pinned : pyval
}.

(** The window as far as the session code sees it: its [Config] and the
    [QTabWidget] ([currentIndex] is [-1] while there is no tab). *)
Record window : Type := Window {
  config : gmap string pyval;
  tabs : list tab;
  currentIndex : Z
}.

(** [QTabWidget.setCurrentIndex]: an index that names no tab is ignored. *)
Definition setCurrentIndex (index : Z) (self : window) : window :=
  if (0 <=? index) && (index <? Z.of_nat (length (tabs self)))
  then Window (config self) (tabs self) index
  else self.

(** [index = self.tabs.addTab(tab, title)] followed by
    [self.tabs.setCurrentIndex(index)]. *)
Definition addTab_and_select (t : tab) (self : window) : window :=
  setCurrentIndex (Z.of_nat (length (tabs self)))
    (Window (config self) (tabs self ++ [t]) (currentIndex self)).

Definition set_tab_url (index : nat) (url : string) (self : window) : window :=
  match tabs self !! index with
  | Some t =>
      Window (config self)
        (<[index := Tab url (private_mode t) (custom_title t) (pinned t)]> (tabs self))
        (currentIndex self)
  | None => self
  end.

(** *** The names the module binds

    The first program of [Demo3v4.py] takes its Qt classes from the
    import statements of lines 21 to 34 and from nowhere else. *)
Definition PyQt5_imports : list string :=
  [ "QUrl"; "QSize"; "Qt"; "QSettings"; "QFile"; "QTextStream";
    "QStandardPaths"; "QTimer"; "QObject"; "pyqtSignal";
    "QApplication"; "QMainWindow"; "QWidget"; "QVBoxLayout";
    "QHBoxLayout"; "QLineEdit"; "QToolButton"; "QTabWidget";
    "QMenu"; "QAction"; "QMessageBox"; "QInputDialog";
    "QFileDialog"; "QLabel"; "QDialog"; "QListWidget";
    "QListWidgetItem"; "QPushButton"; "QDialogButtonBox";
    "QTableWidget"; "QTableWidgetItem"; "QCheckBox";
    "QComboBox"; "QGroupBox"; "QSlider"; "QTextEdit"; "QScrollArea";
    "QGridLayout"; "QTabBar";
    "QWebEngineView"; "QWebEngineProfile";
    "QWebEngineUrlRequestInterceptor"; "QWebEngineUrlRequestInfo";
    "QIcon"; "QKeySequence"; "QPalette"; "QColor"; "QCursor";
    "QPrinter"; "QPrintDialog" ].

(** Evaluating the name of a Qt class: a name that no import binds
    raises [NameError]. *)
Definition qt_name (name : string) : res unit :=
  if existsb (String.eqb name) PyQt5_imports then Ok tt
  else Raise (NameError name).

(** [WebTab.__init__]: after the attributes are set, line 879 builds the
    [QWebEngineView] and line 880 sets its size policy from
    [QSizePolicy].  What follows is kept as far as the tab widget shows
    it: the Qt classes that [setup_web_engine], [setup_actions] and the
    layout name, in the order they are reached, and the page a tab
    without a title of its own that is not pinned loads first. *)
Definition WebTab_init (config : gmap string pyval)
  (private custom pinned_flag : pyval) : res tab :=
  and_then (qt_name "QWebEngineView") (fun _ =>
  and_then (qt_name "QSizePolicy") (fun _ =>
  and_then (qt_name "QWebEngineSettings") (fun _ =>
  and_then (if truthy private
            then and_then (qt_name "QWebEngineProfile")
                          (fun _ => qt_name "QWebEnginePage")
            else qt_name "QWebEngineProfile") (fun _ =>
  and_then (qt_name "QAction") (fun _ =>
  and_then (qt_name "QVBoxLayout") (fun _ =>
  let plain := negb (truthy custom) && negb (truthy pinned_flag) in
  and_then (if plain
            then match attr config "HOME_PAGE" with
                 | PStr h => Ok h
                 | _ => Raise TypeError
                 end
            else Ok "") (fun u0 =>
  Ok (Tab u0 private custom pinned_flag)))))))).

Section Tabs.

(** [setTabEnabled(index, False)] on the current tab makes Qt select
    another tab; which one depends on the Qt version, so the index Qt
    then passes to [setCurrentIndex] is left open. *)
Variable reselect : list tab -> Z -> Z.

(** [MainWindow.new_tab]: the [WebTab] is built inside the [try], so a
    failure of the constructor is reported as a UI error and no tab is
    added. *)
Definition new_tab (self : window) (url private custom pinned_flag : pyval)
  : M window :=
  match WebTab_init (config self) private custom pinned_flag with
  | Raise e => handle "ui" e true ;;; ret self
  | Ok t =>
      let index := length (tabs self) in
      let self1 := addTab_and_select t self in
      let self2 :=
        if truthy pinned_flag
        then setCurrentIndex (reselect (tabs self1) (Z.of_nat index)) self1
        else self1 in
      if truthy url
      then match url with
           | PStr s => ret (set_tab_url index s self2)
           | _ => handle "ui" TypeError true ;;; ret self2
           end
      else ret self2
  end.

(** The loop of [load_session] over [session["tabs"]]; the exception, if
    one ends the loop, comes back with the window as the tabs opened so
    far left it. *)
Fixpoint open_tabs (self : window) (tab_datas : list pyval)
  : M (window * option exn) :=
  match tab_datas with
  | [] => ret (self, None)
  | tab_data :: rest =>
      match getitem tab_data "url",
            dict_get_default tab_data "private" (PBool false),
            dict_get_default tab_data "custom_title" PNone,
            dict_get_default tab_data "pinned" (PBool false) with
      | Ok u, Ok p, Ok c, Ok pin =>
          self' <- new_tab self u p c pin ;;
          open_tabs self' rest
      | Raise e, _, _, _ => ret (self, Some e)
      | _, Raise e, _, _ => ret (self, Some e)
      | _, _, Raise e, _ => ret (self, Some e)
      | _, _, _, Raise e => ret (self, Some e)
      end
  end.

(** [json.loads(session_data)] on what [QSettings] returned. *)
Definition json_loads_qvalue (q : qvalue) : res pyval :=
  match q with
  | QJsonStr v => Ok v
  | QObj (PStr _) => Raise JSONDecodeError
  | QObj _ => Raise TypeError
  end.

Definition qvalue_truthy (q : qvalue) : bool :=
  match q with
  | QJsonStr _ => true
  | QObj v => truthy v
  end.

(** The tail of [load_session]: current index and theme. *)
Definition restore_selection (self : window) (session : pyval) : M window :=
  let failed (e : exn) (s : window) := handle "file" e false ;;; ret s in
  match session with
  | PDict d =>
      let after_index :=
        match dict_get d "current_index" with
        | Some (PInt i) => Ok (setCurrentIndex i self)
        | Some _ => Raise TypeError
        | None => Ok self
        end in
      match after_index with
      | Raise e => failed e self
      | Ok self1 =>
          match dict_get d "dark_theme" with
          | Some v =>
              if truthy v
              then ret (Window (setattr (config self1) "DARK_THEME" (PBool true))
                               (tabs self1) (currentIndex self1))
              else ret self1
          | None => ret self1
          end
      end
  | _ => failed TypeError self
  end.

(** [MainWindow.load_session]. *)
Definition load_session (self : window) : M window :=
  let failed (e : exn) (s : window) := handle "file" e false ;;; ret s in
  session_data <- gets (value (settings_app (current_profile (config self))) "session") ;;
  match session_data with
  | None => ret self
  | Some q =>
      if qvalue_truthy q
      then
        match json_loads_qvalue q with
        | Raise e => failed e self
        | Ok session =>
            match getitem session "tabs" with
            | Raise e => failed e self
            | Ok tabs_value =>
                match iterate tabs_value with
                | Raise e => failed e self
                | Ok tab_datas =>
                    r <- open_tabs self tab_datas ;;
                    match r with
                    | (self1, Some e) => failed e self1
                    | (self1, None) => restore_selection self1 session
                    end
                end
            end
        end
      else ret self
  end.

End Tabs.

(** One element of [session["tabs"]]. *)
Definition tab_entry (t : tab) : pyval :=
  PDict [("url", PStr (tab_url t));
         ("private", private_mode t);
         ("custom_title", custom_title t);
         ("pinned", pinned t)].

(** The [session] dict that [save_session] builds. *)
Definition capture (self : window) : pyval :=
  PDict [("tabs", PList (map tab_entry (tabs self)));
         ("current_index", PInt (currentIndex self));
         ("dark_theme", attr (config self) "DARK_THEME")].

(** [MainWindow.save_session]. *)
Definition save_session (self : window) : M unit :=
  if negb (truthy (attr (config self) "SAVE_SESSION")) then ret tt
  else
    match json_serializable (capture self) with
    | true => setValue (settings_app (current_profile (config self))) "session"
                (QJsonStr (capture self))
    | false => handle "file" TypeError false
    end.

(** ** ProfileDialog.delete_profile *)

(** [shutil.rmtree(f"profiles/{name}")]. *)
Definition rmtree (name : string) : M unit :=
  fun w => match profiles w !! name with
           | Some _ => (Ok tt, set_profiles (delete name (profiles w)) w)
           | None => (Raise (FileNotFoundError ("profiles/" +:+ name)), w)
           end.

(** [ProfileDialog.delete_profile]: [current] is the text of the selected
    list item ([None] without a selection) and [confirm] tells whether
    the user answers Yes to the question box, which is only shown for a
    profile other than ["default"]. *)
Definition delete_profile (current : option string) (confirm : bool) : M unit :=
  match current with
  | Some name =>
      if negb (String.eqb name "default")
      then
        if confirm
        then try_except (rmtree name) (fun e => handle "file" e true)
        else ret tt
      else ret tt
  | None => ret tt
  end.

(** ** Config.get_available_profiles *)

(** [sorted(names)] on strings: Python orders [str] by code point, which
    on UTF-8 text is the order of the bytes. *)
Fixpoint insert_sorted (x : string) (l : list string) : list string :=
  match l with
  | [] => [x]
  | y :: l' => if String.leb x y then x :: l else y :: insert_sorted x l'
  end.

Definition sorted (l : list string) : list string :=
  fold_right insert_sorted [] l.

(** [Config.get_available_profiles]: ["default"] followed by every other
    directory under [profiles/] in the order [iterdir] yields them, then
    sorted. *)
Definition get_available_profiles (w : world) : list string :=
  sorted ("default"
          :: List.filter (fun name => negb (String.eqb name "default"))
               (map fst (map_to_list (profiles w)))).

(** ** NavigationBar and the bookmark manager *)

(** [any(url == bookmark["url"] for bookmark in xs)]. *)
Fixpoint any_has_url (xs : list pyval) (url : string) : res bool :=
  match xs with
  | [] => Ok false
  | b :: xs' =>
      match getitem b "url" with
      | Raise e => Raise e
      | Ok u => if eq_str u url then Ok true else any_has_url xs' url
      end
  end.

(** [NavigationBar.update_bookmark_state]: the value handed to
    [bookmark_btn.setChecked]. *)
Definition update_bookmark_state (config : gmap string pyval) (url : string)
  : res bool :=
  match iterate (attr config "BOOKMARKS") with
  | Raise e => Raise e
  | Ok elems => any_has_url elems url
  end.

Section BookmarkManager.

(** [QTableWidgetItem(x)] builds an item from a [str].  The constructor
    also has an overload that takes the item type, an [int], so what it
    does with a number is left open. *)
Variable item_of_number : pyval -> res unit.

Definition QTableWidgetItem (x : pyval) : res unit :=
  match x with
  | PStr _ => Ok tt
  | PBool _ | PInt _ | PFloat _ => item_of_number x
  | _ => Raise TypeError
  end.

(** One round of the loop of [load_bookmarks_to_table]. *)
Definition table_row (bookmark : pyval) : res unit :=
  and_then (getitem bookmark "title") (fun title =>
  and_then (QTableWidgetItem title) (fun _ =>
  and_then (getitem bookmark "url") (fun url =>
  and_then (QTableWidgetItem url) (fun _ =>
  and_then (dict_get_default bookmark "date" (PStr "")) (fun date =>
  QTableWidgetItem date))))).

Fixpoint table_rows (bookmarks : list pyval) : res unit :=
  match bookmarks with
  | [] => Ok tt
  | bookmark :: rest => and_then (table_row bookmark) (fun _ => table_rows rest)
  end.

(** [MainWindow.load_bookmarks_to_table]: [len] and [enumerate] need what
    [for] needs. *)
Definition load_bookmarks_to_table (config : gmap string pyval) : res unit :=
  and_then (iterate (attr config "BOOKMARKS")) table_rows.

(** [MainWindow.add_bookmark_from_manager]: [ok1] and [ok2] tell whether
    the two input dialogs were accepted.  The new entry goes into the
    [Config] only; nothing is saved here.  No exception is caught: the
    result is the [Config] as the call leaves it and the exception that
    reaches the caller, if any. *)
Definition add_bookmark_from_manager (config : gmap string pyval)
  (title : string) (ok1 : bool) (url : string) (ok2 : bool) (now : string)
  : gmap string pyval * option exn :=
  if ok1 && truthy (PStr title)
  then
    if ok2 && truthy (PStr url)
    then match as_list (attr config "BOOKMARKS") with
         | Raise e => (config, Some e)
         | Ok bookmarks =>
             let config' :=
               setattr config "BOOKMARKS"
                 (PList (bookmarks ++ [new_bookmark title url now])) in
             match load_bookmarks_to_table config' with
             | Raise e => (config', Some e)
             | Ok _ => (config', None)
             end
         end
    else (config, None)
  else (config, None).

(** [MainWindow.remove_selected_bookmarks]: [selected_rows] is what
    [get_selected_bookmark_rows] returned and [confirm] the answer to the
    question box.  No exception is caught here either. *)
Definition remove_selected_bookmarks (config : gmap string pyval)
  (selected_rows : list Z) (confirm : bool)
  : M (gmap string pyval * option exn) :=
  match selected_rows with
  | [] => ret (config, None)
  | _ =>
      if confirm
      then
        r <- delete_bookmarks config selected_rows ;;
        if fst r
        then match and_then (load_bookmarks_to_table (snd r))
                     (fun _ => update_bookmarks_menu (snd r)) with
             | Raise e => ret (snd r, Some e)
             | Ok _ => ret (snd r, None)
             end
        else ret (snd r, None)
      else ret (config, None)
  end.

End BookmarkManager.

(** One row of the bookmark table: the texts of the title, url and date
    columns. *)
Definition bookmark_of_row (now : string) (row : string * string * string)
  : pyval :=
  let date := snd row in
  PDict [("title", PStr (fst (fst row)));
         ("url", PStr (snd (fst row)));
         ("date", PStr (if truthy (PStr date) then date else now))].

(** [MainWindow.save_bookmarks_from_table]: rows without a title or
    without a url are left out. *)
Definition save_bookmarks_from_table (config : gmap string pyval)
  (rows : list (string * string * string)) (now : string)
  : M (gmap string pyval) :=
  let bookmarks :=
    map (bookmark_of_row now)
      (List.filter (fun row => truthy (PStr (fst (fst row)))
                               && truthy (PStr (snd (fst row)))) rows) in
  let config' := setattr config "BOOKMARKS" (PList bookmarks) in
  save_bookmarks config' (current_profile config') ;;;
  ret config'.


(** ** Demo2i3.py: bookmarks as (title, url) tuples

    In the older file [Config.BOOKMARKS] is a list of tuples; a tuple is
    modelled by the list of its elements. *)
Module Demo2i3.

(** [[tuple(item) for item in value]]. *)
Fixpoint tuples_of (items : list pyval) : res (list (list pyval)) :=
  match items with
  | [] => Ok []
  | item :: rest =>
      match iterate item, tuples_of rest with
      | Ok t, Ok ts => Ok (t :: ts)
      | Raise e, _ => Raise e
      | _, Raise e => Raise e
      end
  end.

(** [json.dump] writes a tuple as an array. *)
Definition json_of_tuples (bookmarks : list (list pyval)) : pyval :=
  PList (map PList bookmarks).

(** [Config.load_bookmarks] of [Demo2i3.py]. *)
Definition load_bookmarks (bookmarks : list (list pyval))
  (profile_name : string) : M (list (list pyval)) :=
  try_except
    (fun w => if file_exists profile_name "bookmarks.json" w
              then (c <- read_file profile_name "bookmarks.json" ;;
                    v <- lift (json_load c) ;;
                    items <- lift (iterate v) ;;
                    lift (tuples_of items)) w
              else (Ok bookmarks, w))
    (fun e => handle "file" e false ;;; ret []).

(** [Config.save_bookmarks] of [Demo2i3.py]. *)
Definition save_bookmarks (bookmarks : list (list pyval))
  (profile_name : string) : M unit :=
  try_except
    (run_steps (save_json_steps profile_name "bookmarks_temp.json"
                  "bookmarks.json" (json_of_tuples bookmarks)))
    (fun e => handle "file" e false).

(** [t == (title, url)] for a tuple [t]. *)
Definition tuple_eq (title url : string) (t : list pyval) : bool :=
  match t with
  | [a; b] => eq_str a title && eq_str b url
  | _ => false
  end.

(** [xs.remove(bookmark)] when [bookmark in xs]: the first equal element
    goes. *)
Fixpoint remove_first (title url : string) (xs : list (list pyval))
  : list (list pyval) :=
  match xs with
  | [] => []
  | t :: xs' => if tuple_eq title url t then xs'
                else t :: remove_first title url xs'
  end.

(** The loop both bookmark menus of [Demo2i3.py] run:
    [for title, url in bookmarks: menu.addAction(title)], which unpacks
    two values and takes a [str] only. *)
Fixpoint menu_actions (bookmarks : list (list pyval)) : res unit :=
  match bookmarks with
  | [] => Ok tt
  | [] :: _ => Raise (ValueError "not enough values to unpack (expected 2, got 0)")
  | [_] :: _ => Raise (ValueError "not enough values to unpack (expected 2, got 1)")
  | [PStr _; _] :: rest => menu_actions rest
  | [_; _] :: _ => Raise TypeError
  | _ :: _ => Raise (ValueError "too many values to unpack (expected 2)")
  end.

(** [MainWindow.update_bookmarks_menu] of [Demo2i3.py]: the menu of the
    navigation bar first, then the submenu of the window. *)
Definition update_bookmarks_menu (bookmarks : list (list pyval)) : res unit :=
  and_then (menu_actions bookmarks) (fun _ => menu_actions bookmarks).

(** [MainWindow.toggle_bookmark] of [Demo2i3.py]; the result is the list
    as the call leaves it. *)
Definition toggle_bookmark (bookmarks : list (list pyval))
  (profile_name title url : string) : M (list (list pyval)) :=
  let bookmarks' :=
    if existsb (tuple_eq title url) bookmarks
    then remove_first title url bookmarks
    else bookmarks ++ [[PStr title; PStr url]] in
  try_except
    (save_bookmarks bookmarks' profile_name ;;;
     lift (update_bookmarks_menu bookmarks') ;;;
     ret bookmarks')
    (fun e => handle "file" e true ;;; ret bookmarks').

End Demo2i3.

(** * Vocabulary of the properties and example inputs *)

(** The directory of a profile; empty when it does not exist yet. *)
Definition dir_of (name : string) (w : world) : gmap string fdata :=
  default ∅ (profiles w !! name).

(** The world with directory [name] replaced by [d]. *)
Definition with_dir (name : string) (d : gmap string fdata) (w : world)
  : world :=
  set_profiles (<[name := d]> (profiles w)) w.

(** What [load_history] returns for a world: the document in
    [history.json], or the empty list when the file is missing or is not
    a JSON document. *)
Definition stored_history (name : string) (w : world) : pyval :=
  match dir_of name w !! "history.json" with
  | Some (FJson v) => v
  | _ => PList []
  end.

Definition example_entry (url title time : string) : pyval :=
  PDict [("time", PStr time); ("url", PStr url); ("title", PStr title)].

(** A world whose default profile has one history entry on disk. *)
Definition world_with_history : world :=
  World {[ "default" :=
             {[ "history.json" :=
                  FJson (PList [example_entry "https://a.example" "A"
                                  "2024-01-01 10:00:00"]) ]} ]}
        ∅ [].

(** The world a write that stops after its first [k] statements leaves
    behind: nothing runs after the stop, not even the handler. *)
Definition interrupted (k : nat) (steps : list (M unit)) (w : world) : world :=
  snd (run_steps (take k steps) w).

Definition example_bookmark (title url date : string) : pyval :=
  PDict [("title", PStr title); ("url", PStr url); ("date", PStr date)].

(** A world whose default profile has one bookmark on disk. *)
Definition world_with_bookmarks : world :=
  World {[ "default" :=
             {[ "bookmarks.json" :=
                  FJson (PList [example_bookmark "A" "https://a.example"
                                  "2024-01-01 10:00:00"]) ]} ]}
        ∅ [].

(** The [Config] of that profile after one more bookmark was added in
    memory. *)
Definition config_two_bookmarks : gmap string pyval :=
  setattr config_new "BOOKMARKS"
    (PList [example_bookmark "A" "https://a.example" "2024-01-01 10:00:00";
            example_bookmark "B" "https://b.example" "2024-01-02 10:00:00"]).

(** The elements of [xs] whose position, counted from [n], is not among
    [indices]: what deleting a set of positions is meant to leave. *)
Fixpoint not_selected {A} (indices : list Z) (n : Z) (xs : list A) : list A :=
  match xs with
  | [] => []
  | x :: xs' =>
      if bool_decide (n ∈ indices)
      then not_selected indices (n + 1) xs'
      else x :: not_selected indices (n + 1) xs'
  end.

(** Strictly descending lists of integers. *)
Fixpoint strict_desc (l : list Z) : Prop :=
  match l with
  | [] => True
  | x :: l' => Forall (fun y => y < x) l' /\ strict_desc l'
  end.

(** An element that can be looked up by url: a dict with a ["url"] key. *)
Definition is_entry (b : pyval) : bool :=
  match getitem b "url" with Ok _ => true | Raise _ => false end.

(** [b["url"] == url]. *)
Definition has_url (url : string) (b : pyval) : bool :=
  match getitem b "url" with Ok u => eq_str u url | Raise _ => false end.

(** What toggling is meant to do to the list: drop the first entry with
    the url, or append a new entry when there is none. *)
Definition toggled (l : list pyval) (title url now : string) : list pyval :=
  match list_find (fun b => has_url url b = true) l with
  | Some (i, _) => delete i l
  | None => l ++ [new_bookmark title url now]
  end.

(** Two toggles of the same url in a row. *)
Definition toggle_twice (config : gmap string pyval)
  (title url now1 now2 : string) : M (gmap string pyval) :=
  config1 <- toggle_bookmark config title url now1 ;;
  toggle_bookmark config1 title url now2.

Definition bookmarks_length (config : gmap string pyval) : nat :=
  match attr config "BOOKMARKS" with
  | PList l => length l
  | _ => 0%nat
  end.

(** The last clause of C6 as the claim states it, for one input. *)
Definition toggle_twice_restores_length (config : gmap string pyval)
  (title url now1 now2 : string) (w : world) : Prop :=
  exists config2,
    fst (toggle_twice config title url now1 now2 w) = Ok config2
    /\ bookmarks_length config2 = bookmarks_length config.

(** A [Config] with one bookmark. *)
Definition config_one_bookmark : gmap string pyval :=
  setattr config_new "BOOKMARKS"
    (PList [example_bookmark "A" "https://a.example" "2024-01-01 10:00:00"]).

Definition empty_world : world := World ∅ ∅ [].

(** A [Config] whose bookmark list holds the same url twice, as
    [add_bookmark_from_manager] or a hand-edited table can leave it. *)
Definition config_duplicate_url : gmap string pyval :=
  setattr config_new "BOOKMARKS"
    (PList [example_bookmark "A" "https://a.example" "2024-01-01 10:00:00";
            example_bookmark "A again" "https://a.example" "2024-01-03 10:00:00"]).

(** What recording a visit is meant to do to the list: update the first
    entry with the url where it stands, or put a new entry in front, and
    keep the first 100. *)
Definition visited (l : list pyval) (url title now : string) : list pyval :=
  take 100
    match list_find (fun h => has_url url h = true) l with
    | Some (i, h) => <[i := touch_entry h title now]> l
    | None => new_history_entry url title now :: l
    end.

(** A history the code can search and write back. *)
Definition history_ok (l : list pyval) : bool :=
  forallb is_entry l && forallb json_serializable l.

(** A visit: url, title and the timestamp [datetime.now()] gave. *)
Definition visit_url (v : string * string * string) : string := fst (fst v).

Definition entry_of_visit (v : string * string * string) : pyval :=
  new_history_entry (fst (fst v)) (snd (fst v)) (snd v).

(** [add_to_history] called once per visit, oldest first. *)
Fixpoint add_all_to_history (config : gmap string pyval)
  (visits : list (string * string * string)) : M unit :=
  match visits with
  | [] => ret tt
  | v :: rest =>
      add_to_history config (fst (fst v)) (snd (fst v)) (snd v) ;;;
      add_all_to_history config rest
  end.

Definition visited_all (l : list pyval)
  (visits : list (string * string * string)) : list pyval :=
  fold_left (fun acc v => visited acc (fst (fst v)) (snd (fst v)) (snd v)) visits l.

(** 101 visits to distinct urls, oldest first. *)
Definition visits_101 : list (string * string * string) :=
  map (fun n : nat => ("https://site.example/" +:+ pretty n,
                       "Page " +:+ pretty n,
                       "2024-03-01 12:00:00"))
      (seq 0 101).

(** A call reports an error when it raises or when [ErrorHandler.handle]
    ran during it. *)
Definition reports_error {A} (m : M A) (w : world) : Prop :=
  (exists e, fst (m w) = Raise e) \/ events (snd (m w)) <> events w.

(** A world with a default profile and a second profile ["work"]. *)
Definition world_two_profiles : world :=
  World {[ "default" :=
             {[ "bookmarks.json" :=
                  FJson (PList [example_bookmark "A" "https://a.example"
                                  "2024-01-01 10:00:00"]) ]};
           "work" :=
             {[ "history.json" :=
                  FJson (PList [example_entry "https://w.example" "W"
                                  "2024-01-05 08:00:00"]) ]} ]}
        ∅ [].

Definition profile_error_box : event :=
  MsgWarning "Profile Error" "An error occurred with profile operations.".




(** A stand-in for the key derivation in examples: distinct passwords
    give distinct keys. *)
Definition example_kdf (password salt : string) : string :=
  salt +:+ ":" +:+ password.

(** A [config_data] that [json.dumps] accepts: the defaults with the
    window size as a list. *)
Definition json_config_data (profile_name : string) : pyval :=
  match default_config_data profile_name with
  | PDict d => PDict (dict_set d "WINDOW_SIZE" (PList [PInt 1280; PInt 720]))
  | v => v
  end.

(** The world after ["work"] was created encrypted under password
    ["correct horse"] from that [config_data]. *)
Definition world_encrypted : world :=
  snd (create_encrypted_profile example_kdf "0123456789abcdef" "work"
         "correct horse" (Some (json_config_data "work")) empty_world).

(** The same profile with [profile.meta] overwritten by something that
    is not the marker. *)
Definition world_bad_meta : world :=
  with_dir "work"
    (<["profile.meta" := FBytes "garbage"]> (dir_of "work" world_encrypted))
    world_encrypted.

(** The [Config] that loading the encrypted profile ["work"] returns. *)
Definition loaded_config : gmap string pyval :=
  match fst (load_encrypted_profile example_kdf "work" "correct horse"
               world_encrypted) with
  | Ok (Some c) => c
  | _ => config_new
  end.

(** What [ErrorHandler.handle("ui", e, show_user=True)] reports when the
    [WebTab] cannot be built. *)
Definition ui_error_report : list event :=
  [ LogError "UI" (NameError "QSizePolicy");
    MsgWarning "UI Error" "An error occurred in the interface. Please try again." ].

(** One report per entry of a session. *)
Definition ui_error_reports {A} (entries : list A) : list event :=
  concat (map (fun _ => ui_error_report) entries).

(** Qt 5's choice when the current tab is disabled and no later tab
    exists. *)
Definition reselect_first (open : list tab) (index : Z) : Z := 0.

(** A window with three tabs, the third one current. *)
Definition window_three_tabs : window :=
  Window config_new
    [ Tab "https://a.example" (PBool false) (PStr "Mail") (PBool false);
      Tab "https://b.example" (PBool false) (PStr "News") (PBool false);
      Tab "https://c.example" (PBool false) PNone (PBool false) ]
    2.

(** A fresh window of the default profile, as it is before
    [setup_window] opens the first tab. *)
Definition window_empty : window := Window config_new [] (-1).

(** The last clause of C5 as the claim states it, for one run of visits:
    what is stored afterwards is the 100 most recent visits, newest
    first. *)
Definition keeps_most_recent_100 (config : gmap string pyval)
  (visits : list (string * string * string)) (w : world) : Prop :=
  exists l,
    stored_history (current_profile config)
      (snd (add_all_to_history config visits w)) = PList l
    /\ map (fun h => getitem h "url") l
       = map (fun v => Ok (PStr (visit_url v)))
             (rev (drop (length visits - 100) visits)).

(** 101 visits to distinct urls, the 100th of which is to the page
    already in the history of [world_with_history]. *)
Definition visits_with_revisit : list (string * string * string) :=
  map (fun n : nat => ("https://site.example/" +:+ pretty n,
                       "Page " +:+ pretty n,
                       "2024-03-01 12:00:00"))
      (seq 1 99)
  ++ [("https://a.example", "A", "2024-03-01 12:30:00");
      ("https://d.example", "D", "2024-03-01 12:31:00")].




(** A profile name that is one component of a path: not empty, not a
    dot entry, and without a separator or a null character. *)
Definition path_component (name : string) : bool :=
  negb (String.eqb name "")
  && negb (String.eqb name ".")
  && negb (String.eqb name "..")
  && forallb (fun c => negb (Ascii.eqb c "/"%char)
                       && negb (Ascii.eqb c "\"%char)
                       && negb (Ascii.eqb c Ascii.zero))
       (list_ascii_of_string name).

(** A bookmark the table and the menus can show: a dict whose title and
    url are strings and whose date, if it has one, is a string. *)
Definition is_bookmark (b : pyval) : bool :=
  match b with
  | PDict d =>
      match dict_get d "title", dict_get d "url", dict_get d "date" with
      | Some (PStr _), Some (PStr _), Some (PStr _) => true
      | Some (PStr _), Some (PStr _), None => true
      | _, _, _ => false
      end
  | _ => false
  end.

(** A table item constructor that takes no number. *)
Definition item_rejects_number (x : pyval) : res unit := Raise TypeError.

(** A world whose default profile has an [apps.json] cut short. *)
Definition world_broken_apps : world :=
  World {[ "default" := {[ "apps.json" := FTruncated ]} ]} ∅ [].

(** A world whose default profile has a [history.json] cut short. *)
Definition world_broken_history : world :=
  World {[ "default" := {[ "history.json" := FTruncated ]} ]} ∅ [].

(** A world whose default profile has a [history.json] that holds a JSON
    object instead of a list. *)
Definition world_history_object : world :=
  World {[ "default" := {[ "history.json" := FJson (PDict []) ]} ]} ∅ [].

(** A saved session whose second entry has lost its url. *)
Definition session_without_url : pyval :=
  PDict [("tabs",
          PList [tab_entry (Tab "https://a.example" (PBool false) (PStr "Mail")
                              (PBool false));
                 PDict [("private", PBool false)];
                 tab_entry (Tab "https://b.example" (PBool false) (PStr "News")
                              (PBool false))]);
         ("current_index", PInt 1);
         ("dark_theme", PBool true)].

Definition world_session_without_url : world :=
  World ∅ {[ "Browser/default" := {[ "session" := QJsonStr session_without_url ]} ]}
        [].

(** * Properties *)

(** ** The monad and the file operations *)

Lemma set_profiles_id w : set_profiles (profiles w) w = w.
Proof. by destruct w. Qed.

Lemma with_dir_lookup name d w : profiles (with_dir name d w) !! name = Some d.
Proof. unfold with_dir; simpl. apply lookup_insert_eq. Qed.

Lemma with_dir_with_dir name d d' w :
  with_dir name d' (with_dir name d w) = with_dir name d' w.
Proof. unfold with_dir, set_profiles; simpl. by rewrite insert_insert_eq. Qed.

Lemma with_dir_id name d w : profiles w !! name = Some d -> with_dir name d w = w.
Proof.
  intros H. unfold with_dir. rewrite insert_id by done. apply set_profiles_id.
Qed.

Lemma dir_of_with_dir name d w : dir_of name (with_dir name d w) = d.
Proof. unfold dir_of. by rewrite with_dir_lookup. Qed.

Lemma mkdir_spec name w :
  mkdir name w = (Ok tt, with_dir name (dir_of name w) w).
Proof.
  unfold mkdir, modify, dir_of. destruct (profiles w !! name) as [d|] eqn:E; simpl.
  - by rewrite with_dir_id.
  - done.
Qed.

Lemma write_file_spec name file c d w :
  write_file name file c (with_dir name d w)
  = (Ok tt, with_dir name (<[file := c]> d) w).
Proof.
  unfold write_file. rewrite with_dir_lookup.
  f_equal. apply with_dir_with_dir.
Qed.

Lemma unlink_if_exists_spec name file d w :
  unlink_if_exists name file (with_dir name d w)
  = (Ok tt, with_dir name (delete file d) w).
Proof.
  unfold unlink_if_exists, file_exists, unlink. rewrite with_dir_lookup.
  destruct (d !! file) as [c|] eqn:E.
  - f_equal. apply with_dir_with_dir.
  - by rewrite delete_id.
Qed.

Lemma rename_spec name src dst c d w :
  d !! src = Some c ->
  rename name src dst (with_dir name d w)
  = (Ok tt, with_dir name (<[dst := c]> (delete src d)) w).
Proof.
  intros H. unfold rename. rewrite with_dir_lookup, H.
  f_equal. apply with_dir_with_dir.
Qed.

Lemma file_exists_with_dir name file d w :
  file_exists name file (with_dir name d w)
  = match d !! file with Some _ => true | None => false end.
Proof. unfold file_exists. by rewrite with_dir_lookup. Qed.

Lemma read_file_with_dir name file d c w :
  d !! file = Some c ->
  read_file name file (with_dir name d w) = (Ok c, with_dir name d w).
Proof. intros H. unfold read_file. by rewrite with_dir_lookup, H. Qed.

(** The directory a complete write leaves. *)
Lemma written_dir (temp dest : string) (c : fdata) (d : gmap string fdata) :
  temp ≠ dest ->
  <[dest := c]> (delete temp (delete dest (<[temp := c]> d)))
  = <[dest := c]> (delete temp d).
Proof.
  intros Hne. apply map_eq. intros f.
  destruct (decide (f = dest)) as [->|Hf]; [by rewrite !lookup_insert_eq|].
  rewrite !lookup_insert_ne by done.
  destruct (decide (f = temp)) as [->|Hf2]; [by rewrite !lookup_delete_eq|].
  rewrite !lookup_delete_ne by done. by rewrite lookup_insert_ne.
Qed.

Lemma bind_ret_tt (m : M unit) w : (m ;;; ret tt) w = m w.
Proof. unfold bind, ret. by destruct (m w) as [[[]|e] w']. Qed.

Lemma bind_ok {A B} (m : M A) (f : A -> M B) w a w' :
  m w = (Ok a, w') -> bind m f w = f a w'.
Proof. intros H. unfold bind. by rewrite H. Qed.

Lemma bind_raise {A B} (m : M A) (f : A -> M B) w e w' :
  m w = (Raise e, w') -> bind m f w = (Raise e, w').
Proof. intros H. unfold bind. by rewrite H. Qed.

Lemma try_ok {A} (m : M A) (h : exn -> M A) w a w' :
  m w = (Ok a, w') -> try_except m h w = (Ok a, w').
Proof. intros H. unfold try_except. by rewrite H. Qed.

Lemma try_raise {A} (m : M A) (h : exn -> M A) w e w' :
  m w = (Raise e, w') -> try_except m h w = h e w'.
Proof. intros H. unfold try_except. by rewrite H. Qed.

Lemma json_dump_ok v name file d w :
  json_serializable v = true ->
  json_dump v name file (with_dir name d w)
  = (Ok tt, with_dir name (<[file := FJson v]> d) w).
Proof. intros H. unfold json_dump. rewrite H. apply write_file_spec. Qed.

Lemma json_dump_fail v name file d w :
  json_serializable v = false ->
  json_dump v name file (with_dir name d w)
  = (Raise TypeError, with_dir name (<[file := FTruncated]> d) w).
Proof.
  intros H. unfold json_dump. rewrite H.
  by rewrite (bind_ok _ _ _ _ _ (write_file_spec _ _ _ _ _)).
Qed.

(** The last four statements of every [save_*] method, run on a
    serializable value in an existing directory. *)
Lemma write_and_rename name temp dest v d w :
  temp ≠ dest -> json_serializable v = true ->
  (open_w name temp ;;;
   json_dump v name temp ;;;
   unlink_if_exists name dest ;;;
   rename name temp dest) (with_dir name d w)
  = (Ok tt, with_dir name (<[dest := FJson v]> (delete temp d)) w).
Proof.
  intros Hne Hser. unfold open_w.
  rewrite (bind_ok _ _ _ _ _ (write_file_spec _ _ _ _ _)).
  rewrite (bind_ok _ _ _ _ _ (json_dump_ok _ _ _ _ _ Hser)).
  rewrite (bind_ok _ _ _ _ _ (unlink_if_exists_spec _ _ _ _)).
  rewrite insert_insert_eq.
  rewrite (rename_spec _ _ _ (FJson v)).
  - by rewrite written_dir.
  - rewrite lookup_delete_ne by done. apply lookup_insert_eq.
Qed.

(** The same statements when [json.dump] raises: the destination keeps
    what it held and the temporary file stays behind, cut short. *)
Lemma write_and_rename_fail name temp dest v d w :
  json_serializable v = false ->
  (open_w name temp ;;;
   json_dump v name temp ;;;
   unlink_if_exists name dest ;;;
   rename name temp dest) (with_dir name d w)
  = (Raise TypeError, with_dir name (<[temp := FTruncated]> d) w).
Proof.
  intros Hser. unfold open_w.
  rewrite (bind_ok _ _ _ _ _ (write_file_spec _ _ _ _ _)).
  rewrite (bind_raise _ _ _ _ _ (json_dump_fail _ _ _ _ _ Hser)).
  by rewrite insert_insert_eq.
Qed.

(** A successful write through [save_json_steps] leaves the document in
    [dest], removes the temporary file and touches nothing else. *)
Lemma run_save_json_steps name temp dest v w :
  temp ≠ dest -> json_serializable v = true ->
  run_steps (save_json_steps name temp dest v) w
  = (Ok tt, with_dir name (<[dest := FJson v]> (delete temp (dir_of name w))) w).
Proof.
  intros Hne Hser. unfold save_json_steps, run_steps, open_w.
  rewrite (bind_ok _ _ _ _ _ (mkdir_spec _ _)).
  rewrite (bind_ok _ _ _ _ _ (write_file_spec _ _ _ _ _)).
  rewrite (bind_ok _ _ _ _ _ (json_dump_ok _ _ _ _ _ Hser)).
  rewrite (bind_ok _ _ _ _ _ (unlink_if_exists_spec _ _ _ _)).
  rewrite insert_insert_eq, bind_ret_tt.
  rewrite (rename_spec _ _ _ (FJson v)).
  - by rewrite written_dir.
  - rewrite lookup_delete_ne by done. apply lookup_insert_eq.
Qed.

Lemma run_save_json_steps_fail name temp dest v w :
  json_serializable v = false ->
  run_steps (save_json_steps name temp dest v) w
  = (Raise TypeError, with_dir name (<[temp := FTruncated]> (dir_of name w)) w).
Proof.
  intros Hser. unfold save_json_steps, run_steps, open_w.
  rewrite (bind_ok _ _ _ _ _ (mkdir_spec _ _)).
  rewrite (bind_ok _ _ _ _ _ (write_file_spec _ _ _ _ _)).
  rewrite (bind_raise _ _ _ _ _ (json_dump_fail _ _ _ _ _ Hser)).
  by rewrite insert_insert_eq.
Qed.

Lemma emit_nil w : emit [] w = w.
Proof. destruct w. unfold emit; simpl. by rewrite app_nil_r. Qed.

Lemma handle_spec error_type e show_user w :
  exists evs, handle error_type e show_user w = (Ok tt, emit evs w).
Proof.
  unfold handle. destruct (match error_types_get _ _ with Some tm => tm | None => _ end).
  eexists. reflexivity.
Qed.

Lemma handle_file e w :
  handle "file" e false w = (Ok tt, emit [LogError "FILE" e] w).
Proof. reflexivity. Qed.

(** ** Collections *)

Lemma load_history_spec name w :
  exists evs, load_history name w = (Ok (stored_history name w), emit evs w).
Proof.
  unfold load_history, stored_history, try_except, file_exists, dir_of.
  destruct (profiles w !! name) as [d|] eqn:Ed; simpl.
  - destruct (d !! "history.json") as [c|] eqn:Ec.
    + unfold bind, read_file, lift. rewrite Ed, Ec.
      destruct c; simpl; [exists []; by rewrite emit_nil | eexists; reflexivity ..].
    + exists []. by rewrite emit_nil.
  - exists []. by rewrite emit_nil.
Qed.

Lemma save_collection_ok field temp dest self name w :
  temp ≠ dest -> json_serializable (attr self field) = true ->
  save_collection field temp dest self name w
  = (Ok tt, with_dir name (<[dest := FJson (attr self field)]>
                             (delete temp (dir_of name w))) w).
Proof.
  intros Hne Hser. unfold save_collection.
  apply try_ok. by apply run_save_json_steps.
Qed.

Lemma save_collection_fail field temp dest self name w :
  json_serializable (attr self field) = false ->
  save_collection field temp dest self name w
  = (Ok tt, emit [LogError "FILE" TypeError]
              (with_dir name (<[temp := FTruncated]> (dir_of name w)) w)).
Proof.
  intros Hser. unfold save_collection.
  erewrite try_raise by (by apply run_save_json_steps_fail).
  apply handle_file.
Qed.

(** No [save_*] method lets an exception out. *)
Lemma save_collection_total field temp dest self name w :
  temp ≠ dest -> fst (save_collection field temp dest self name w) = Ok tt.
Proof.
  intros Hne. destruct (json_serializable (attr self field)) eqn:E.
  - by rewrite save_collection_ok.
  - by rewrite save_collection_fail.
Qed.

(** [save_history] with a list that is given and not empty. *)
Lemma save_history_given name h w :
  truthy h = true -> json_serializable h = true ->
  save_history name (Some h) w
  = (Ok tt, with_dir name (<["history.json" := FJson h]>
                             (delete "history_temp.json" (dir_of name w))) w).
Proof.
  intros Ht Hser. unfold save_history. apply try_ok.
  rewrite (bind_ok _ _ _ _ _ (mkdir_spec _ _)).
  unfold history_to_write. rewrite Ht.
  erewrite bind_ok by reflexivity.
  by apply write_and_rename.
Qed.

(** [save_history] when the argument is missing or falsy: the stored
    history is read and written back. *)
Lemma save_history_reload name history_data w :
  match history_data with Some h => truthy h = false | None => True end ->
  exists evs,
    save_history name history_data w
    = (Ok tt,
       if json_serializable (stored_history name w)
       then with_dir name (<["history.json" := FJson (stored_history name w)]>
                             (delete "history_temp.json" (dir_of name w)))
                     (emit evs w)
       else with_dir name (<["history_temp.json" := FTruncated]> (dir_of name w))
                     (emit evs w)).
Proof.
  intros Hd. unfold save_history.
  assert (history_to_write name history_data = load_history name) as ->.
  { unfold history_to_write. destruct history_data as [h|]; [by rewrite Hd|done]. }
  destruct (load_history_spec name (with_dir name (dir_of name w) w)) as [evs Hl].
  assert (stored_history name (with_dir name (dir_of name w) w) = stored_history name w) as Hs.
  { unfold stored_history. by rewrite dir_of_with_dir. }
  rewrite Hs in Hl.
  destruct (json_serializable (stored_history name w)) eqn:Hser.
  - exists evs. apply try_ok.
    rewrite (bind_ok _ _ _ _ _ (mkdir_spec _ _)).
    rewrite (bind_ok _ _ _ _ _ Hl).
    change (emit evs (with_dir name (dir_of name w) w))
      with (with_dir name (dir_of name w) (emit evs w)).
    by apply write_and_rename.
  - exists (evs ++ [LogError "FILE" TypeError]).
    erewrite try_raise; cycle 1.
    { rewrite (bind_ok _ _ _ _ _ (mkdir_spec _ _)).
      rewrite (bind_ok _ _ _ _ _ Hl).
      change (emit evs (with_dir name (dir_of name w) w))
        with (with_dir name (dir_of name w) (emit evs w)).
      by apply write_and_rename_fail. }
    rewrite handle_file. f_equal.
    unfold emit, with_dir, set_profiles; simpl. by rewrite app_assoc.
Qed.

Lemma stored_history_written name v d w :
  stored_history name (with_dir name (<["history.json" := FJson v]> d) w) = v.
Proof. unfold stored_history. by rewrite dir_of_with_dir, lookup_insert_eq. Qed.

Lemma stored_history_emit name evs w :
  stored_history name (emit evs w) = stored_history name w.
Proof. reflexivity. Qed.

Lemma stored_history_reload name history_data w :
  match history_data with Some h => truthy h = false | None => True end ->
  stored_history name (snd (save_history name history_data w))
  = stored_history name w.
Proof.
  intros Hd. destruct (save_history_reload name history_data w Hd) as [evs ->].
  simpl. destruct (json_serializable (stored_history name w)).
  - apply stored_history_written.
  - unfold stored_history at 1. rewrite dir_of_with_dir.
    by rewrite lookup_insert_ne.
Qed.

Lemma fst_load_history name w :
  fst (load_history name w) = Ok (stored_history name w).
Proof. by destruct (load_history_spec name w) as [evs ->]. Qed.

Lemma save_history_total name history_data w :
  fst (save_history name history_data w) = Ok tt.
Proof.
  destruct history_data as [h|].
  - destruct (truthy h) eqn:Ht.
    + unfold save_history, try_except.
      match goal with
      | |- fst (match ?x with _ => _ end) = _ => destruct x as [[[]|e] w']
      end; [done|].
      by destruct (handle_spec "file" e false w') as [evs ->].
    + by destruct (save_history_reload name (Some h) w Ht) as [evs ->].
  - by destruct (save_history_reload name None w I) as [evs ->].
Qed.

Lemma clear_history_spec name w :
  clear_history name w = (Ok true, snd (save_history name (Some (PList [])) w)).
Proof.
  unfold clear_history. apply try_ok.
  pose proof (save_history_total name (Some (PList [])) w) as H.
  unfold bind. destruct (save_history _ _ w) as [r w']. simpl in *. by subst.
Qed.

(** C10. [save_history] called with an empty list does not persist the
    empty list: the call is the call without the argument, the stored
    history is read and written back, and [load_history] returns after it
    what it returned before; hence [clear_history] reports success and
    leaves the stored history as it was.  A list that is not empty (and
    that [json.dump] accepts) is persisted as given. *)
Theorem save_history_empty_list_reloads (name : string) (w : world)
    (l : list pyval) :
  l <> [] -> json_serializable (PList l) = true ->
  save_history name (Some (PList [])) w = save_history name None w
  /\ fst (load_history name (snd (save_history name (Some (PList [])) w)))
     = fst (load_history name w)
  /\ fst (clear_history name w) = Ok true
  /\ fst (load_history name (snd (clear_history name w)))
     = fst (load_history name w)
  /\ fst (load_history name (snd (save_history name (Some (PList l)) w)))
     = Ok (PList l).
Proof.
  intros Hl Hser.
  assert (fst (load_history name (snd (save_history name (Some (PList [])) w)))
          = fst (load_history name w)) as Hempty.
  { rewrite !fst_load_history. f_equal. by apply stored_history_reload. }
  split; [reflexivity|].
  split; [exact Hempty|].
  split; [by rewrite clear_history_spec|].
  split; [by rewrite clear_history_spec|].
  rewrite save_history_given; [|by destruct l|done].
  rewrite fst_load_history. simpl. by rewrite stored_history_written.
Qed.

Lemma save_history_empty_list_reloads_witness :
  fst (load_history "default"
         (snd (clear_history "default" world_with_history)))
  = Ok (PList [example_entry "https://a.example" "A" "2024-01-01 10:00:00"])
  /\ fst (load_history "default"
            (snd (save_history "default"
                    (Some (PList [example_entry "https://b.example" "B"
                                    "2024-01-02 10:00:00"]))
                    world_with_history)))
     = Ok (PList [example_entry "https://b.example" "B" "2024-01-02 10:00:00"]).
Proof.
  pose proof (save_history_empty_list_reloads "default" world_with_history
                [example_entry "https://b.example" "B" "2024-01-02 10:00:00"])
    as H.
  destruct H as (_ & _ & _ & Hc & Hl); [discriminate | reflexivity |].
  split; [rewrite Hc; reflexivity | exact Hl].
Defined.

(** ** Interrupted writes *)

(** Up to and including [json.dump] the destination holds what it held. *)
Lemma interrupted_before_unlink name temp dest v w k :
  temp ≠ dest -> (k <= 3)%nat ->
  dir_of name (interrupted k (save_json_steps name temp dest v) w) !! dest
  = dir_of name w !! dest.
Proof.
  intros Hne Hk. unfold interrupted, save_json_steps.
  destruct k as [|[|[|[|k]]]]; [| | | |lia]; cbn [take run_steps].
  - reflexivity.
  - rewrite bind_ret_tt, mkdir_spec. cbn [snd]. by rewrite dir_of_with_dir.
  - rewrite (bind_ok _ _ _ _ _ (mkdir_spec _ _)).
    unfold open_w. rewrite bind_ret_tt, write_file_spec. cbn [snd].
    by rewrite dir_of_with_dir, lookup_insert_ne.
  - rewrite (bind_ok _ _ _ _ _ (mkdir_spec _ _)).
    unfold open_w. rewrite (bind_ok _ _ _ _ _ (write_file_spec _ _ _ _ _)).
    rewrite bind_ret_tt. destruct (json_serializable v) eqn:Hser.
    + rewrite json_dump_ok by done. cbn [snd].
      by rewrite dir_of_with_dir, !lookup_insert_ne.
    + rewrite json_dump_fail by done. cbn [snd].
      by rewrite dir_of_with_dir, !lookup_insert_ne.
Qed.

(** Between [unlink] and [rename] the destination does not exist. *)
Lemma interrupted_after_unlink name temp dest v w :
  temp ≠ dest -> json_serializable v = true ->
  dir_of name (interrupted 4 (save_json_steps name temp dest v) w) !! dest = None
  /\ dir_of name (interrupted 4 (save_json_steps name temp dest v) w) !! temp
     = Some (FJson v).
Proof.
  intros Hne Hser. unfold interrupted, save_json_steps. cbn [take run_steps].
  rewrite (bind_ok _ _ _ _ _ (mkdir_spec _ _)).
  unfold open_w. rewrite (bind_ok _ _ _ _ _ (write_file_spec _ _ _ _ _)).
  rewrite (bind_ok _ _ _ _ _ (json_dump_ok _ _ _ _ _ Hser)).
  rewrite bind_ret_tt, unlink_if_exists_spec. cbn [snd].
  rewrite dir_of_with_dir. split.
  - apply lookup_delete_eq.
  - rewrite lookup_delete_ne by done. apply lookup_insert_eq.
Qed.

(** C4. The statements of [save_bookmarks] on a profile that already has
    [bookmarks.json]: stopped after the temporary file is complete the
    destination still holds the old document, but stopped after the
    [unlink] that precedes the [rename] there is no [bookmarks.json] at
    all, only the temporary file. *)
Theorem save_bookmarks_interrupted_loses_destination :
  let steps := save_json_steps "default" "bookmarks_temp.json" "bookmarks.json"
                 (attr config_two_bookmarks "BOOKMARKS") in
  dir_of "default" world_with_bookmarks !! "bookmarks.json"
  = Some (FJson (PList [example_bookmark "A" "https://a.example"
                          "2024-01-01 10:00:00"]))
  /\ dir_of "default" (interrupted 3 steps world_with_bookmarks) !! "bookmarks.json"
     = dir_of "default" world_with_bookmarks !! "bookmarks.json"
  /\ dir_of "default" (interrupted 4 steps world_with_bookmarks) !! "bookmarks.json"
     = None
  /\ file_exists "default" "bookmarks.json"
       (interrupted 4 steps world_with_bookmarks) = false
  /\ file_exists "default" "bookmarks_temp.json"
       (interrupted 4 steps world_with_bookmarks) = true.
Proof. vm_compute. repeat split; reflexivity. Qed.

(** ** Deleting by indices *)

Lemma elem_of_insert_desc x y l : y ∈ insert_desc x l <-> y = x \/ y ∈ l.
Proof.
  induction l as [|z l IH]; simpl.
  - rewrite list_elem_of_singleton, elem_of_nil. tauto.
  - destruct (z <=? x); [rewrite !elem_of_cons; tauto|].
    rewrite !elem_of_cons, IH. tauto.
Qed.

Lemma elem_of_sorted_reverse y l : y ∈ sorted_reverse l <-> y ∈ l.
Proof.
  induction l as [|x l IH]; simpl; [done|].
  rewrite elem_of_insert_desc, IH, elem_of_cons. tauto.
Qed.

Lemma strict_desc_insert x l :
  x ∉ l -> strict_desc l -> strict_desc (insert_desc x l).
Proof.
  induction l as [|z l IH]; simpl; intros Hx Hs; [by split|].
  destruct Hs as [Hz Hs].
  assert (x ≠ z) by set_solver. assert (x ∉ l) by set_solver.
  destruct (Z.leb_spec z x).
  - simpl. split; [|by split].
    constructor; [lia|]. eapply Forall_impl; [exact Hz|]. simpl. lia.
  - simpl. split; [|by apply IH].
    apply Forall_forall. intros y Hy. apply elem_of_insert_desc in Hy as [->|Hy]; [lia|].
    by eapply Forall_forall in Hz.
Qed.

Lemma strict_desc_sorted_reverse l : NoDup l -> strict_desc (sorted_reverse l).
Proof.
  induction 1 as [|x l Hx Hnd IH]; simpl; [done|].
  apply strict_desc_insert; [|done]. by rewrite elem_of_sorted_reverse.
Qed.

Section DeleteByIndices.
Context {A : Type}.
Implicit Types (xs pre rest : list A) (s : list Z).

Lemma not_selected_ext s s' n xs :
  (forall i, i ∈ s <-> i ∈ s') -> not_selected s n xs = not_selected s' n xs.
Proof.
  intros H. revert n. induction xs as [|x xs IH]; intros n; simpl; [done|].
  rewrite IH. by rewrite (bool_decide_ext _ _ (H n)).
Qed.

(** Positions from [n] on are kept when every index lies below [n]. *)
Lemma not_selected_below s n xs :
  Forall (fun i => i < n) s -> not_selected s n xs = xs.
Proof.
  revert n. induction xs as [|x xs IH]; intros n Hs; simpl; [done|].
  rewrite bool_decide_eq_false_2.
  - rewrite IH; [done|]. eapply Forall_impl; [exact Hs|]. simpl. lia.
  - intros Hin. eapply Forall_forall in Hs; [|exact Hin]. simpl in Hs. lia.
Qed.

Lemma not_selected_app s n xs ys :
  not_selected s n (xs ++ ys)
  = not_selected s n xs ++ not_selected s (n + Z.of_nat (length xs)) ys.
Proof.
  revert n. induction xs as [|x xs IH]; intros n; simpl.
  - by rewrite Z.add_0_r.
  - rewrite IH. replace (n + 1 + Z.of_nat (length xs)) with (n + Z.pos (Pos.of_succ_nat (length xs))) by lia.
    by destruct (bool_decide (n ∈ s)).
Qed.

(** An index that names no position of [xs] changes nothing. *)
Lemma not_selected_cons_outside i s n xs :
  i < n \/ n + Z.of_nat (length xs) <= i ->
  not_selected (i :: s) n xs = not_selected s n xs.
Proof.
  revert n. induction xs as [|x xs IH]; intros n Hi; simpl; [done|].
  simpl in Hi. rewrite IH by lia.
  assert (n ≠ i) by lia.
  rewrite (bool_decide_ext (n ∈ i :: s) (n ∈ s)); [done|].
  rewrite elem_of_cons. tauto.
Qed.

(** Pops below the length of a prefix stay inside the prefix. *)
Lemma pops_prefix s pre rest :
  strict_desc s -> Forall (fun i => i < Z.of_nat (length pre)) s ->
  fold_left pop_if_in_range s (pre ++ rest)
  = fold_left pop_if_in_range s pre ++ rest.
Proof.
  revert pre. induction s as [|i s IH]; intros pre Hs Hb; simpl; [done|].
  destruct Hs as [Hlt Hs]. apply Forall_cons in Hb as [Hi Hb].
  unfold pop_if_in_range at 2 4. rewrite length_app.
  destruct (Z.leb_spec 0 i); simpl.
  - rewrite (proj2 (Z.ltb_lt i (Z.of_nat (length pre)))) by lia.
    rewrite (proj2 (Z.ltb_lt i _)) by lia.
    assert (Z.to_nat i < length pre)%nat as Hn by lia.
    replace (delete (Z.to_nat i) (pre ++ rest)) with (delete (Z.to_nat i) pre ++ rest).
    + apply IH; [done|].
      eapply Forall_impl; [exact Hlt|]. simpl. intros j Hj.
      rewrite length_delete by (by apply lookup_lt_is_Some). lia.
    + rewrite !delete_take_drop. rewrite take_app_le, drop_app_le by lia.
      by rewrite app_assoc.
  - apply IH; [done|]. eapply Forall_impl; [exact Hlt|]. simpl. lia.
Qed.

(** Popping a strictly descending run of indices removes exactly the
    elements at those positions of the original list. *)
Lemma pops_not_selected s xs :
  strict_desc s -> fold_left pop_if_in_range s xs = not_selected s 0 xs.
Proof.
  revert xs. induction s as [|i s IH]; intros xs Hs; simpl.
  - by rewrite not_selected_below.
  - destruct Hs as [Hlt Hs]. unfold pop_if_in_range at 2.
    destruct ((0 <=? i) && (i <? Z.of_nat (length xs))) eqn:Hr.
    + apply andb_true_iff in Hr as [H0 H1].
      apply Z.leb_le in H0. apply Z.ltb_lt in H1.
      assert (Z.to_nat i < length xs)%nat as Hn by lia.
      destruct (lookup_lt_is_Some_2 xs _ Hn) as [x Hx].
      rewrite delete_take_drop.
      rewrite <- (take_drop_middle xs (Z.to_nat i) x Hx) at 3.
      assert (length (take (Z.to_nat i) xs) = Z.to_nat i) as Hlen
        by (rewrite length_take; lia).
      rewrite pops_prefix; [|done|].
      2:{ eapply Forall_impl; [exact Hlt|]. simpl. intros j Hj. rewrite Hlen. lia. }
      rewrite IH by done.
      rewrite not_selected_app, Hlen. simpl.
      rewrite not_selected_cons_outside by (rewrite Hlen; lia).
      f_equal. replace (0 + Z.of_nat (Z.to_nat i)) with i by lia.
      rewrite bool_decide_eq_true_2 by set_solver.
      symmetry. apply not_selected_below.
      constructor; [lia|]. eapply Forall_impl; [exact Hlt|]. simpl. lia.
    + rewrite IH by done. symmetry. apply not_selected_cons_outside.
      apply andb_false_iff in Hr as [Hr|Hr].
      * apply Z.leb_gt in Hr. lia.
      * apply Z.ltb_ge in Hr. lia.
Qed.

End DeleteByIndices.

(** ** Bookmarks *)

Lemma find_url_index_spec l url i :
  forallb is_entry l = true ->
  find_url_index l url i
  = Ok ((fun ib => (i + fst ib)%nat) <$> list_find (fun b => has_url url b = true) l).
Proof.
  revert i. induction l as [|b l IH]; intros i Hl; simpl; [done|].
  apply andb_true_iff in Hl as [Hb Hl].
  unfold is_entry in Hb.
  destruct (getitem b "url") as [u|e] eqn:Hg; [|done].
  assert (has_url url b = eq_str u url) as Hh by (unfold has_url; by rewrite Hg).
  destruct (eq_str u url) eqn:Hu.
  - rewrite decide_True by done. simpl. do 2 f_equal. lia.
  - rewrite decide_False by (by rewrite Hh). rewrite IH by done.
    destruct (list_find _ l) as [[j c]|]; simpl; [|done]. do 2 f_equal. lia.
Qed.

Lemma save_bookmarks_total self name w :
  fst (save_bookmarks self name w) = Ok tt.
Proof. by apply save_collection_total. Qed.

(** [toggle_bookmark] on a list of entries returns the [Config] with the
    toggled list. *)
Lemma toggle_bookmark_spec config l title url now w :
  attr config "BOOKMARKS" = PList l -> forallb is_entry l = true ->
  fst (toggle_bookmark config title url now w)
  = Ok (setattr config "BOOKMARKS" (PList (toggled l title url now))).
Proof.
  intros Hb Hl. unfold toggle_bookmark.
  rewrite Hb. cbn [iterate as_list and_then].
  rewrite find_url_index_spec by done. unfold toggled.
  assert (forall config' : gmap string pyval,
            fst (try_except
                   (save_bookmarks config' (current_profile config') ;;;
                    lift (update_bookmarks_menu config') ;;;
                    ret config')
                   (fun e => handle "file" e true ;;; ret config') w)
            = Ok config') as Htry.
  { intros config'. unfold try_except, bind, lift, ret.
    pose proof (save_bookmarks_total config' (current_profile config') w) as Hs.
    destruct (save_bookmarks config' (current_profile config') w)
      as [[[]|e] w']; [|done].
    destruct (update_bookmarks_menu config') as [[]|e]; [done|].
    destruct (handle_spec "file" e true w') as [evs ->]. done. }
  destruct (list_find _ l) as [[i b]|]; cbn [fmap option_fmap option_map and_then];
    apply Htry.
Qed.

Lemma attr_setattr self field v : attr (setattr self field v) field = v.
Proof. unfold attr, setattr. by rewrite lookup_insert_eq. Qed.

(** Appending keeps the existing entries findable. *)
Lemma is_entry_new_bookmark title url now :
  is_entry (new_bookmark title url now) = true.
Proof. reflexivity. Qed.

Lemma has_url_new_bookmark title url now :
  has_url url (new_bookmark title url now) = true.
Proof. unfold has_url. simpl. apply String.eqb_refl. Qed.

Lemma forallb_is_entry_toggled l title url now :
  forallb is_entry l = true -> forallb is_entry (toggled l title url now) = true.
Proof.
  intros Hl. unfold toggled. destruct (list_find _ l) as [[i b]|].
  - rewrite forallb_forall in *. intros x Hx. apply Hl.
    apply list_elem_of_In. apply list_elem_of_In in Hx.
    rewrite delete_take_drop in Hx. apply elem_of_app in Hx as [Hx|Hx].
    + rewrite <- (take_drop i l). apply elem_of_app. by left.
    + rewrite <- (take_drop (S i) l). apply elem_of_app. by right.
  - rewrite forallb_app, Hl. reflexivity.
Qed.

(** The length of the list after one toggle. *)
Lemma length_toggled l title url now :
  length (toggled l title url now)
  = match list_find (fun b => has_url url b = true) l with
    | Some _ => (length l - 1)%nat
    | None => S (length l)
    end.
Proof.
  unfold toggled. destruct (list_find _ l) as [[i b]|] eqn:E.
  - apply list_find_Some in E as (Hi & _).
    rewrite length_delete; [lia|by eexists].
  - rewrite length_app. simpl. lia.
Qed.

(** After the first entry with the url is dropped, another one is found
    only if the list held at least two. *)
Lemma list_find_after_delete l url i b :
  list_find (fun b => has_url url b = true) l = Some (i, b) ->
  (length (filter (fun b => has_url url b = true) l) <= 1)%nat ->
  list_find (fun b => has_url url b = true) (delete i l) = None.
Proof.
  intros Hf Hc. apply list_find_Some in Hf as (Hi & Hb & Hbefore).
  apply list_find_None. apply Forall_forall. intros x Hx Hux.
  rewrite <- (take_drop_middle l i b Hi) in Hc.
  rewrite filter_app, filter_cons_True in Hc by done.
  rewrite length_app in Hc. simpl in Hc.
  rewrite delete_take_drop in Hx. apply elem_of_app in Hx as [Hx|Hx].
  - apply list_elem_of_lookup in Hx as [j Hj].
    pose proof (lookup_lt_Some _ _ _ Hj) as Hlt. rewrite length_take in Hlt.
    rewrite lookup_take_lt in Hj by lia.
    by eapply (Hbefore j x); [|lia|].
  - assert (x ∈ filter (fun b => has_url url b = true) (drop (S i) l)) as Hin
      by (by apply list_elem_of_filter).
    destruct (filter _ (drop (S i) l)); [by apply elem_of_nil in Hin|].
    simpl in Hc. lia.
Qed.

Lemma toggle_twice_spec config l title url now1 now2 w :
  attr config "BOOKMARKS" = PList l -> forallb is_entry l = true ->
  exists config2,
    fst (toggle_twice config title url now1 now2 w) = Ok config2
    /\ attr config2 "BOOKMARKS"
       = PList (toggled (toggled l title url now1) title url now2).
Proof.
  intros Hb Hl. unfold toggle_twice, bind.
  pose proof (toggle_bookmark_spec config l title url now1 w Hb Hl) as H1.
  destruct (toggle_bookmark config title url now1 w) as [[c1|e] w1];
    simpl in H1; [|done].
  injection H1 as ->.
  eexists. split.
  - apply toggle_bookmark_spec; [apply attr_setattr|].
    by apply forallb_is_entry_toggled.
  - by rewrite attr_setattr.
Qed.

Lemma Demo2i3_save_bookmarks_total bookmarks name w :
  Demo2i3.save_bookmarks bookmarks name w
  = (Ok tt, snd (Demo2i3.save_bookmarks bookmarks name w)).
Proof.
  unfold Demo2i3.save_bookmarks.
  destruct (json_serializable (Demo2i3.json_of_tuples bookmarks)) eqn:Hser.
  - erewrite try_ok; [done|]. by apply run_save_json_steps.
  - erewrite try_raise; [|by apply run_save_json_steps_fail].
    by rewrite handle_file.
Qed.

Lemma Demo2i3_toggle_bookmark_result bookmarks name title url w :
  fst (Demo2i3.toggle_bookmark bookmarks name title url w)
  = Ok (if existsb (Demo2i3.tuple_eq title url) bookmarks
        then Demo2i3.remove_first title url bookmarks
        else bookmarks ++ [[PStr title; PStr url]]).
Proof.
  unfold Demo2i3.toggle_bookmark, try_except.
  rewrite (bind_ok _ _ _ _ _ (Demo2i3_save_bookmarks_total _ _ _)).
  unfold bind, lift, ret.
  destruct (Demo2i3.update_bookmarks_menu _) as [[]|e]; [done|].
  match goal with
  | |- context [handle "file" e true ?w1] =>
      destruct (handle_spec "file" e true w1) as [evs ->]
  end.
  done.
Qed.

Lemma tuple_eq_refl title url :
  Demo2i3.tuple_eq title url [PStr title; PStr url] = true.
Proof. simpl. by rewrite !String.eqb_refl. Qed.

Lemma remove_first_appended bookmarks title url :
  existsb (Demo2i3.tuple_eq title url) bookmarks = false ->
  Demo2i3.remove_first title url (bookmarks ++ [[PStr title; PStr url]])
  = bookmarks.
Proof.
  induction bookmarks as [|t bookmarks IH]; cbn [existsb app Demo2i3.remove_first].
  - intros _. by rewrite tuple_eq_refl.
  - intros [Ht Hrest]%orb_false_iff. rewrite Ht. f_equal. by apply IH.
Qed.

(** C6 (amended). In [Demo3v4.py] toggling is keyed by url alone: on a
    list of entries none of which has the url, one new entry with the
    given title, url and timestamp is appended; when some entry has the
    url, whatever its title, the first such entry is removed; and two
    toggles of the same url bring the list back to its original length
    whenever it held at most one entry with that url.  In [Demo2i3.py]
    toggling is keyed by the pair of title and url and stores no
    timestamp: a pair that is not in the list is appended, also when the
    url is bookmarked under another title, and a pair that is in the list
    has its first occurrence removed. *)
Theorem toggle_bookmark_keyed_by_url (config : gmap string pyval)
    (l : list pyval) (title url now1 now2 : string) (w : world) :
  attr config "BOOKMARKS" = PList l ->
  forallb is_entry l = true ->
  (forallb (fun b => negb (has_url url b)) l = true ->
   fst (toggle_bookmark config title url now1 w)
   = Ok (setattr config "BOOKMARKS"
           (PList (l ++ [new_bookmark title url now1]))))
  /\ (forall i b,
        l !! i = Some b -> has_url url b = true ->
        (forall j b', l !! j = Some b' -> has_url url b' = true -> (i <= j)%nat) ->
        fst (toggle_bookmark config title url now1 w)
        = Ok (setattr config "BOOKMARKS" (PList (delete i l))))
  /\ ((length (filter (fun b => has_url url b = true) l) <= 1)%nat ->
      exists config2,
        fst (toggle_twice config title url now1 now2 w) = Ok config2
        /\ bookmarks_length config2 = length l)
  /\ (forall (pairs : list (list pyval)) (name : string),
        (existsb (Demo2i3.tuple_eq title url) pairs = false ->
         fst (Demo2i3.toggle_bookmark pairs name title url w)
         = Ok (pairs ++ [[PStr title; PStr url]]))
        /\ (existsb (Demo2i3.tuple_eq title url) pairs = true ->
            fst (Demo2i3.toggle_bookmark pairs name title url w)
            = Ok (Demo2i3.remove_first title url pairs))).
Proof.
  intros Hb Hl. split; [|split; [|split]].
  - intros Hnone. rewrite (toggle_bookmark_spec _ l) by done.
    unfold toggled.
    assert (list_find (fun b => has_url url b = true) l = None) as ->; [|done].
    apply list_find_None, Forall_forall. intros x Hx.
    rewrite forallb_forall in Hnone.
    specialize (Hnone x (proj1 (list_elem_of_In _ _) Hx)).
    by destruct (has_url url x).
  - intros i b Hi Hu Hfirst. rewrite (toggle_bookmark_spec _ l) by done.
    unfold toggled.
    assert (list_find (fun b => has_url url b = true) l = Some (i, b)) as ->; [|done].
    apply list_find_Some. split; [done|]. split; [done|].
    intros j y Hj Hlt Hy. specialize (Hfirst j y Hj Hy). lia.
  - intros Hone.
    destruct (toggle_twice_spec config l title url now1 now2 w Hb Hl)
      as (c2 & Hc2 & Hattr).
    exists c2. split; [done|]. unfold bookmarks_length. rewrite Hattr.
    rewrite length_toggled, length_toggled.
    destruct (list_find _ l) as [[i b]|] eqn:Hf.
    + unfold toggled at 1. rewrite Hf.
      rewrite (list_find_after_delete l url i b Hf Hone).
      apply list_find_Some in Hf as (Hi & _).
      apply lookup_lt_Some in Hi. lia.
    + unfold toggled at 1. rewrite Hf.
      destruct (list_find _ (l ++ _)) as [[i b]|] eqn:Hf2; [lia|].
      exfalso. apply list_find_None in Hf2. rewrite Forall_forall in Hf2.
      apply (Hf2 (new_bookmark title url now1)); [|apply has_url_new_bookmark].
      apply elem_of_app. right. left.
  - intros pairs name. rewrite Demo2i3_toggle_bookmark_result.
    split; intros ->; reflexivity.
Qed.

Lemma toggle_bookmark_keyed_by_url_witness :
  exists config2,
    fst (toggle_twice config_one_bookmark "Renamed" "https://a.example"
           "2024-02-01 09:00:00" "2024-02-01 09:00:05" empty_world)
    = Ok config2
    /\ bookmarks_length config2 = 1%nat.
Proof.
  destruct (toggle_bookmark_keyed_by_url config_one_bookmark
              [example_bookmark "A" "https://a.example" "2024-01-01 10:00:00"]
              "Renamed" "https://a.example"
              "2024-02-01 09:00:00" "2024-02-01 09:00:05" empty_world)
    as (_ & _ & H & _).
  - reflexivity.
  - reflexivity.
  - apply H. vm_compute. lia.
Defined.

(** Two toggles of a url bookmarked twice remove both entries. *)
Lemma toggle_twice_duplicate_url_shrinks :
  ~ toggle_twice_restores_length config_duplicate_url "A" "https://a.example"
      "2024-02-01 09:00:00" "2024-02-01 09:00:05" empty_world.
Proof.
  intros (c2 & Hc2 & Hlen).
  destruct (toggle_twice_spec config_duplicate_url
              [example_bookmark "A" "https://a.example" "2024-01-01 10:00:00";
               example_bookmark "A again" "https://a.example" "2024-01-03 10:00:00"]
              "A" "https://a.example" "2024-02-01 09:00:00" "2024-02-01 09:00:05"
              empty_world eq_refl eq_refl) as (c2' & Hc2' & Hattr).
  rewrite Hc2 in Hc2'. injection Hc2' as <-.
  unfold bookmarks_length in Hlen. rewrite Hattr in Hlen.
  vm_compute in Hlen. discriminate.
Qed.

(** ** History *)

Lemma PList_inj l l' : PList l = PList l' -> l = l'.
Proof. by intros [= ->]. Qed.

Lemma forallb_Forall {A} (f : A -> bool) (l : list A) :
  forallb f l = true <-> Forall (fun x => f x = true) l.
Proof.
  induction l as [|x l IH]; simpl; [by split|].
  rewrite andb_true_iff, Forall_cons, IH. tauto.
Qed.

Lemma is_entry_truthy h : is_entry h = true -> truthy h = true.
Proof. destruct h as [| | | | | |[|kv d]|]; done. Qed.

Lemma dict_get_dict_set_ne d k k' v :
  k ≠ k' -> dict_get (dict_set d k v) k' = dict_get d k'.
Proof.
  intros Hne. induction d as [|[k0 v0] d IH]; simpl.
  - by rewrite (proj2 (String.eqb_neq k k')).
  - destruct (String.eqb_spec k0 k) as [->|Hk]; simpl.
    + by rewrite (proj2 (String.eqb_neq k k')).
    + by rewrite IH.
Qed.

Lemma dict_set_serializable d k v :
  forallb (fun kv => json_serializable (snd kv)) d = true ->
  json_serializable v = true ->
  forallb (fun kv => json_serializable (snd kv)) (dict_set d k v) = true.
Proof.
  intros Hd Hv. induction d as [|[k0 v0] d IH]; simpl in *.
  - by rewrite Hv.
  - apply andb_true_iff in Hd as [H0 Hd].
    destruct (String.eqb k0 k); simpl.
    + by rewrite Hv, Hd.
    + by rewrite H0, IH.
Qed.

Lemma has_url_touch_entry url h title now :
  has_url url (touch_entry h title now) = has_url url h.
Proof.
  destruct h; try done. unfold has_url; simpl.
  by rewrite !dict_get_dict_set_ne.
Qed.

Lemma is_entry_touch_entry h title now :
  is_entry (touch_entry h title now) = is_entry h.
Proof.
  destruct h; try done. unfold is_entry; simpl.
  by rewrite !dict_get_dict_set_ne.
Qed.

Lemma touch_entry_serializable h title now :
  json_serializable h = true -> json_serializable (touch_entry h title now) = true.
Proof.
  destruct h; try done. simpl. intros H.
  by repeat apply dict_set_serializable.
Qed.

Lemma visited_ok l url title now :
  history_ok l = true -> history_ok (visited l url title now) = true.
Proof.
  unfold history_ok, visited. rewrite !andb_true_iff, !forallb_Forall.
  intros [He Hs].
  destruct (list_find _ l) as [[i h]|] eqn:Hf.
  - apply list_find_Some in Hf as (Hi & _).
    assert (is_entry h = true) by (by eapply Forall_lookup_1 in He).
    assert (json_serializable h = true) by (by eapply Forall_lookup_1 in Hs).
    split; apply Forall_take, Forall_insert; try done.
    + by rewrite is_entry_touch_entry.
    + by apply touch_entry_serializable.
  - split; apply Forall_take; by constructor.
Qed.

Lemma visited_nonempty l url title now : visited l url title now <> [].
Proof.
  unfold visited. destruct (list_find _ l) as [[i h]|] eqn:Hf; [|done].
  apply list_find_Some in Hf as (Hi & _).
  destruct l as [|x l]; [done|]. by destruct i.
Qed.

Lemma length_visited l url title now :
  (length (visited l url title now) <= 100)%nat.
Proof. unfold visited. rewrite length_take. lia. Qed.

Lemma record_visit_spec l url title now :
  forallb is_entry l = true ->
  record_visit (PList l) url title now = Ok (PList (visited l url title now)).
Proof.
  intros Hl. unfold record_visit, visited. simpl.
  rewrite find_url_index_spec by done.
  destruct (list_find _ l) as [[i h]|] eqn:Hf; simpl; [|done].
  apply list_find_Some in Hf as (Hi & _). rewrite Hi.
  rewrite is_entry_truthy; [done|].
  apply forallb_Forall in Hl. by eapply Forall_lookup_1 in Hl.
Qed.

(** [add_to_history] on a stored history the code can search and write
    back stores the visited list. *)
Lemma add_to_history_spec config l url title now w :
  stored_history (current_profile config) w = PList l ->
  history_ok l = true ->
  fst (add_to_history config url title now w) = Ok tt
  /\ stored_history (current_profile config)
       (snd (add_to_history config url title now w))
     = PList (visited l url title now).
Proof.
  intros Hst Hok. unfold add_to_history.
  destruct (load_history_spec (current_profile config) w) as [evs Hload].
  rewrite (bind_ok _ _ _ _ _ Hload). rewrite Hst.
  pose proof Hok as Hok'. unfold history_ok in Hok'.
  apply andb_true_iff in Hok' as [He Hs].
  rewrite (bind_ok _ _ _ _ (emit evs w) (f_equal (fun r => (r, emit evs w))
             (record_visit_spec l url title now He))).
  pose proof (visited_ok l url title now Hok) as Hv.
  unfold history_ok in Hv. apply andb_true_iff in Hv as [_ Hvs].
  rewrite save_history_given.
  - simpl. by rewrite stored_history_written.
  - pose proof (visited_nonempty l url title now).
    simpl. by destruct (visited l url title now).
  - done.
Qed.

Lemma take_app_take {A} (n : nat) (a b : list A) :
  take n (a ++ take n b) = take n (a ++ b).
Proof.
  rewrite !take_app, take_take. do 2 f_equal. lia.
Qed.

Lemma has_url_entry_of_visit url v :
  has_url url (entry_of_visit v) = String.eqb (visit_url v) url.
Proof. reflexivity. Qed.

Lemma visited_new l url title now :
  (forall h, h ∈ l -> has_url url h = false) ->
  visited l url title now = take 100 (new_history_entry url title now :: l).
Proof.
  intros Hnew. unfold visited.
  assert (list_find (fun h => has_url url h = true) l = None) as ->; [|done].
  apply list_find_None, Forall_forall. intros h Hh. by rewrite (Hnew h Hh).
Qed.

(** Visits to urls that are new and pairwise distinct pile up in front,
    newest first, and the first 100 are kept. *)
Lemma visited_all_distinct l v visits :
  NoDup (map visit_url (v :: visits)) ->
  (forall v' h, v' ∈ v :: visits -> h ∈ l -> has_url (visit_url v') h = false) ->
  visited_all l (v :: visits)
  = take 100 (rev (map entry_of_visit (v :: visits)) ++ l).
Proof.
  revert l v. induction visits as [|v2 rest IH]; intros l v Hnd Hnew.
  - unfold visited_all. simpl. apply visited_new.
    intros h Hh. apply (Hnew v h); [left|done].
  - change (visited_all l (v :: v2 :: rest))
      with (visited_all (visited l (fst (fst v)) (snd (fst v)) (snd v)) (v2 :: rest)).
    rewrite visited_new by (intros h Hh; apply (Hnew v h); [left|done]).
    change (map visit_url (v :: v2 :: rest))
      with (visit_url v :: map visit_url (v2 :: rest)) in Hnd.
    apply NoDup_cons in Hnd as [Hv Hnd].
    rewrite IH.
    + rewrite take_app_take.
      change (map entry_of_visit (v :: v2 :: rest))
        with (entry_of_visit v :: map entry_of_visit (v2 :: rest)).
      cbn [rev]. by rewrite <- app_assoc.
    + done.
    + intros v' h Hv' Hh.
      assert (h ∈ new_history_entry (fst (fst v)) (snd (fst v)) (snd v) :: l) as Hin.
      { rewrite <- (take_drop 100 (_ :: l)). apply elem_of_app. by left. }
      apply elem_of_cons in Hin as [->|Hin].
      * change (has_url (visit_url v') (entry_of_visit v) = false).
        rewrite has_url_entry_of_visit. apply String.eqb_neq.
        intros Heq. apply Hv. rewrite Heq.
        apply list_elem_of_In, in_map. by apply list_elem_of_In.
      * apply (Hnew v' h); [by right|done].
Qed.

Lemma add_all_to_history_spec config l visits w :
  stored_history (current_profile config) w = PList l ->
  history_ok l = true ->
  fst (add_all_to_history config visits w) = Ok tt
  /\ stored_history (current_profile config)
       (snd (add_all_to_history config visits w))
     = PList (visited_all l visits).
Proof.
  revert l w. induction visits as [|v rest IH]; intros l w Hst Hok; [done|].
  cbn [add_all_to_history].
  destruct (add_to_history_spec config l (fst (fst v)) (snd (fst v)) (snd v) w Hst Hok)
    as [Hfst Hstored].
  destruct (add_to_history config _ _ _ w) as [[[]|e] w1] eqn:E; [|done].
  rewrite (bind_ok _ _ _ _ _ E). simpl in Hstored.
  apply (IH _ w1 Hstored). by apply visited_ok.
Qed.

(** After 101 or more new, pairwise distinct visits only the last 100
    are left, newest first, whatever was stored before. *)
Lemma visited_all_keeps_last_100 l visits :
  (100 <= length visits)%nat ->
  take 100 (rev (map entry_of_visit visits) ++ l)
  = rev (map entry_of_visit (drop (length visits - 100) visits)).
Proof.
  intros Hlen. rewrite take_app_le by (rewrite length_rev, length_map; lia).
  rewrite firstn_rev, length_map. f_equal.
  by rewrite <- skipn_map.
Qed.

(** C5 (amended). Recording a visit on a stored history of entries: when
    an entry with the url exists, the first such entry gets the new time
    and title where it stands and the list does not grow; otherwise a new
    entry is put in front; what is stored never has more than 100
    entries; and after 101 visits to pairwise distinct urls none of which
    was stored before, exactly the 100 most recent are stored, newest
    first. *)
Theorem add_to_history_updates_inserts_and_caps (config : gmap string pyval)
    (l : list pyval) (url title now : string)
    (visits : list (string * string * string)) (w : world) :
  stored_history (current_profile config) w = PList l ->
  history_ok l = true ->
  NoDup (map visit_url visits) ->
  length visits = 101%nat ->
  (forall v h, v ∈ visits -> h ∈ l -> has_url (visit_url v) h = false) ->
  let stored_after :=
    stored_history (current_profile config)
      (snd (add_to_history config url title now w)) in
  (forall i h,
     l !! i = Some h -> has_url url h = true ->
     (forall j h', l !! j = Some h' -> has_url url h' = true -> (i <= j)%nat) ->
     stored_after = PList (take 100 (<[i := touch_entry h title now]> l))
     /\ (length (take 100 (<[i := touch_entry h title now]> l)) <= length l)%nat)
  /\ (forallb (fun h => negb (has_url url h)) l = true ->
      stored_after = PList (take 100 (new_history_entry url title now :: l)))
  /\ (exists l', stored_after = PList l' /\ (length l' <= 100)%nat)
  /\ stored_history (current_profile config)
       (snd (add_all_to_history config visits w))
     = PList (rev (map entry_of_visit (drop 1 visits))).
Proof.
  intros Hst Hok Hnd Hlen Hnew stored_after.
  destruct (add_to_history_spec config l url title now w Hst Hok) as [_ Hafter].
  fold stored_after in Hafter.
  split; [|split; [|split]].
  - intros i h Hi Hu Hfirst. split.
    + rewrite Hafter. unfold visited.
      assert (list_find (fun h => has_url url h = true) l = Some (i, h)) as ->; [|done].
      apply list_find_Some. split; [done|]. split; [done|].
      intros j y Hj Hlt Hy. specialize (Hfirst j y Hj Hy). lia.
    + rewrite length_take, length_insert. lia.
  - intros Hnone. rewrite Hafter. apply f_equal, visited_new.
    intros h Hh. rewrite forallb_forall in Hnone.
    specialize (Hnone h (proj1 (list_elem_of_In _ _) Hh)).
    by destruct (has_url url h).
  - exists (visited l url title now). split; [done|]. apply length_visited.
  - destruct (add_all_to_history_spec config l visits w Hst Hok) as [_ ->].
    destruct visits as [|v rest]; [done|].
    rewrite visited_all_distinct by done.
    rewrite visited_all_keeps_last_100 by (rewrite Hlen; lia).
    by rewrite Hlen.
Qed.

Lemma add_to_history_updates_inserts_and_caps_witness :
  stored_history "default"
    (snd (add_all_to_history config_new visits_101 world_with_history))
  = PList (rev (map entry_of_visit (drop 1 visits_101))).
Proof.
  apply (add_to_history_updates_inserts_and_caps config_new
           [example_entry "https://a.example" "A" "2024-01-01 10:00:00"]
           "https://a.example" "A, again" "2024-03-01 11:00:00"
           visits_101 world_with_history).
  - reflexivity.
  - reflexivity.
  - apply (bool_decide_unpack (NoDup (map visit_url visits_101))).
    vm_compute. exact I.
  - reflexivity.
  - intros v h Hv Hh. apply list_elem_of_singleton in Hh as ->.
    unfold visits_101 in Hv. apply list_elem_of_In, in_map_iff in Hv as (n & <- & _).
    reflexivity.
Defined.

(** An entry updated in place keeps its position: a page already stored,
    pushed to the end by 99 new pages and then visited again, is dropped
    by the next new page although it is the second most recent visit. *)
Lemma revisited_entry_is_dropped :
  NoDup (map visit_url visits_with_revisit)
  /\ length visits_with_revisit = 101%nat
  /\ ~ keeps_most_recent_100 config_new visits_with_revisit world_with_history.
Proof.
  split.
  { apply (bool_decide_unpack (NoDup (map visit_url visits_with_revisit))).
    vm_compute. exact I. }
  split; [reflexivity|].
  intros (l & Hl & Hurls).
  assert (stored_history (current_profile config_new)
            (snd (add_all_to_history config_new visits_with_revisit
                    world_with_history))
          = PList (visited_all
                     [example_entry "https://a.example" "A" "2024-01-01 10:00:00"]
                     visits_with_revisit)) as Hst.
  { by apply add_all_to_history_spec. }
  rewrite Hst in Hl. apply PList_inj in Hl. subst l.
  apply (f_equal (fun us => us !! 1%nat)) in Hurls.
  vm_compute in Hurls. discriminate Hurls.
Qed.

(** ** Deleting a profile *)

(** Deleting ["default"], even with the user ready to confirm, reports
    nothing: no exception, no log line, no message box. *)
Lemma delete_default_reports_no_error :
  ~ reports_error (delete_profile (Some "default") true) world_two_profiles.
Proof.
  intros [[e He]|Hev].
  - discriminate He.
  - by apply Hev.
Qed.

(** C7 (amended). [delete_profile] on ["default"] is a silent no-op: it
    returns normally, reports nothing and leaves every profile as it
    was.  For any other selected profile that exists, the directory is
    removed with everything in it once the user confirms, and left alone
    when the user declines; without a selection nothing happens. *)
Theorem delete_profile_spares_default (name : string) (confirm : bool)
    (w : world) :
  name <> "default" ->
  is_Some (profiles w !! name) ->
  delete_profile (Some "default") confirm w = (Ok tt, w)
  /\ delete_profile (Some name) true w
     = (Ok tt, set_profiles (delete name (profiles w)) w)
  /\ profiles (snd (delete_profile (Some name) true w)) !! name = None
  /\ (forall other, other <> name ->
        profiles (snd (delete_profile (Some name) true w)) !! other
        = profiles w !! other)
  /\ delete_profile (Some name) false w = (Ok tt, w)
  /\ delete_profile None confirm w = (Ok tt, w).
Proof.
  intros Hne [d Hd].
  assert (delete_profile (Some name) true w
          = (Ok tt, set_profiles (delete name (profiles w)) w)) as Hdel.
  { unfold delete_profile. rewrite (proj2 (String.eqb_neq _ _) Hne). simpl.
    apply try_ok. unfold rmtree. by rewrite Hd. }
  split; [reflexivity|]. split; [exact Hdel|].
  split; [rewrite Hdel; apply lookup_delete_eq|].
  split; [intros other Ho; rewrite Hdel; by apply lookup_delete_ne|].
  split; [|reflexivity].
  unfold delete_profile. by rewrite (proj2 (String.eqb_neq _ _) Hne).
Qed.

Lemma delete_profile_spares_default_witness :
  delete_profile (Some "default") true world_two_profiles
  = (Ok tt, world_two_profiles)
  /\ profiles (snd (delete_profile (Some "work") true world_two_profiles)) !! "work"
     = None.
Proof.
  destruct (delete_profile_spares_default "work" true world_two_profiles)
    as (H1 & _ & H3 & _).
  - discriminate.
  - vm_compute. eauto.
  - split; [exact H1 | exact H3].
Defined.

(** ** Encrypted profiles *)

Lemma read_file_dir_of name file c w :
  dir_of name w !! file = Some c -> read_file name file w = (Ok c, w).
Proof.
  unfold dir_of, read_file. destruct (profiles w !! name) as [d|]; simpl.
  - by intros ->.
  - by rewrite lookup_empty.
Qed.

Lemma default_config_data_not_serializable name :
  json_serializable (default_config_data name) = false.
Proof. reflexivity. Qed.

(** With the default [config_data] the call raises before it writes. *)
Lemma create_encrypted_profile_default kdf salt name password w :
  create_encrypted_profile kdf salt name password None w = (Raise TypeError, w).
Proof.
  unfold create_encrypted_profile, json_dumps.
  by rewrite default_config_data_not_serializable.
Qed.

(** With a [config_data] that [json.dumps] accepts the two files are
    written. *)
Lemma create_encrypted_profile_given kdf salt name password config_data w :
  json_serializable config_data = true ->
  create_encrypted_profile kdf salt name password (Some config_data) w
  = (Ok tt,
     with_dir name
       (<["config.enc" := FToken (kdf password salt) (FJson config_data)]>
          (<["profile.meta" := FBytes ("ENCRYPTED:" +:+ salt)]> (dir_of name w)))
       w).
Proof.
  intros Hser. unfold create_encrypted_profile, json_dumps. rewrite Hser.
  erewrite bind_ok by reflexivity.
  rewrite (bind_ok _ _ _ _ _ (mkdir_spec _ _)).
  rewrite (bind_ok _ _ _ _ _ (write_file_spec _ _ _ _ _)).
  apply write_file_spec.
Qed.

Lemma marker_prefix salt :
  starts_with_marker (FBytes ("ENCRYPTED:" +:+ salt)) = true
  /\ meta_salt (FBytes ("ENCRYPTED:" +:+ salt)) = salt.
Proof. split; [|reflexivity]. simpl. by destruct salt. Qed.

(** On ordinary names the loop stores every item. *)
Lemma setattr_loop_ordinary d : forall c : gmap string pyval,
  forallb (fun kv => ordinary_attribute (fst kv)) d = true ->
  setattr_loop c d = Ok (fold_left (fun c kv => setattr c (fst kv) (snd kv)) d c).
Proof.
  induction d as [|[k v] d IH]; intros c Hd; [done|].
  cbn [forallb fst] in Hd. apply andb_true_iff in Hd as [Hk Hd].
  cbn [setattr_loop fold_left fst snd]. unfold setattr_named.
  unfold ordinary_attribute in Hk.
  apply andb_true_iff in Hk as [Hk H3]. apply andb_true_iff in Hk as [H1 H2].
  apply negb_true_iff in H1, H2, H3. rewrite H1, H2, H3.
  cbn [and_then]. by apply IH.
Qed.

(** Loading with the password whose key made the token returns a fresh
    [Config] with every stored item set on it, and reports nothing. *)
Lemma load_encrypted_profile_right_key kdf name password salt d w :
  forallb (fun kv => ordinary_attribute (fst kv)) d = true ->
  dir_of name w !! "profile.meta" = Some (FBytes ("ENCRYPTED:" +:+ salt)) ->
  dir_of name w !! "config.enc"
  = Some (FToken (kdf password salt) (FJson (PDict d))) ->
  load_encrypted_profile kdf name password w
  = (Ok (Some (fold_left (fun c kv => setattr c (fst kv) (snd kv)) d config_new)),
     w).
Proof.
  intros Hord Hmeta Henc. unfold load_encrypted_profile. apply try_ok.
  rewrite (bind_ok _ _ _ _ _ (read_file_dir_of _ _ _ _ Hmeta)).
  destruct (marker_prefix salt) as [-> ->].
  erewrite bind_ok by reflexivity.
  rewrite (bind_ok _ _ _ _ _ (read_file_dir_of _ _ _ _ Henc)).
  unfold fernet_decrypt. rewrite String.eqb_refl.
  erewrite bind_ok by reflexivity.
  erewrite bind_ok by reflexivity.
  unfold bind, lift, setattr_items. by rewrite setattr_loop_ordinary.
Qed.


(** Without [profile.meta] the generic handler runs. *)
Lemma load_encrypted_profile_no_meta kdf name password w :
  dir_of name w !! "profile.meta" = None ->
  load_encrypted_profile kdf name password w
  = (Ok None,
     emit [LogError "PROFILE" (FileNotFoundError (path_of name "profile.meta"));
           profile_error_box] w).
Proof.
  intros Hmeta. unfold load_encrypted_profile.
  rewrite (try_raise _ _ _ (FileNotFoundError (path_of name "profile.meta")) w);
    [reflexivity|].
  apply bind_raise. unfold read_file, dir_of in *.
  destruct (profiles w !! name) as [dir|]; simpl in *; [by rewrite Hmeta|done].
Qed.

(** Serialize, encrypt, decrypt with the key of the same password and
    salt, deserialize: every item of a [config_data] that [json.dumps]
    accepts comes back on the loaded [Config]. *)
Lemma encrypted_profile_roundtrip kdf salt name password d w :
  forallb (fun kv => ordinary_attribute (fst kv)) d = true ->
  json_serializable (PDict d) = true ->
  fst (load_encrypted_profile kdf name password
         (snd (create_encrypted_profile kdf salt name password (Some (PDict d)) w)))
  = Ok (Some (fold_left (fun c kv => setattr c (fst kv) (snd kv)) d config_new)).
Proof.
  intros Hord Hser. rewrite create_encrypted_profile_given by done. cbn [snd].
  rewrite (load_encrypted_profile_right_key kdf name password salt d); [done|done| |].
  - rewrite dir_of_with_dir. rewrite lookup_insert_ne by done. apply lookup_insert_eq.
  - rewrite dir_of_with_dir. apply lookup_insert_eq.
Qed.

(** C1. [create_encrypted_profile(name, P)] as [ProfileDialog] calls it
    (no [config_data]) raises [TypeError] inside [json.dumps], because
    the default [WINDOW_SIZE] is a [QSize]; nothing is written, and
    [load_encrypted_profile(name, P)] afterwards finds no profile and
    returns [None]. *)
Theorem create_encrypted_profile_default_raises
    (kdf : string -> string -> string) (salt name password : string)
    (w : world) :
  json_serializable (attr config_new "WINDOW_SIZE") = false
  /\ create_encrypted_profile kdf salt name password None w
     = (Raise TypeError, w)
  /\ fst (load_encrypted_profile kdf name password
            (snd (create_encrypted_profile kdf salt name password None
                    empty_world)))
     = Ok None.
Proof.
  split; [reflexivity|]. split; [apply create_encrypted_profile_default|].
  rewrite create_encrypted_profile_default. cbn [snd].
  by rewrite load_encrypted_profile_no_meta.
Qed.




(** ** Saving a Config that came from an encrypted profile *)


(** The flag is a dataclass field like any other: a loaded [Config] has
    it set only if the stored [config_data] says so. *)
Lemma loaded_flag_comes_from_config_data kdf name password salt d w :
  forallb (fun kv => ordinary_attribute (fst kv)) d = true ->
  dir_of name w !! "profile.meta" = Some (FBytes ("ENCRYPTED:" +:+ salt)) ->
  dir_of name w !! "config.enc"
  = Some (FToken (kdf password salt) (FJson (PDict d))) ->
  dict_get d "PROFILE_ENCRYPTED" = None ->
  exists c, fst (load_encrypted_profile kdf name password w) = Ok (Some c)
            /\ attr c "PROFILE_ENCRYPTED" = PBool false.
Proof.
  intros Hord Hmeta Henc Hd.
  rewrite (load_encrypted_profile_right_key kdf name password salt d w Hord Hmeta Henc).
  eexists. split; [reflexivity|].
  assert (forall c : gmap string pyval,
            attr c "PROFILE_ENCRYPTED" = PBool false ->
            attr (fold_left (fun c kv => setattr c (fst kv) (snd kv)) d c)
                 "PROFILE_ENCRYPTED" = PBool false) as Hfold.
  { clear Hmeta Henc Hord. induction d as [|[k v] d IH]; intros c Hc; simpl; [done|].
    simpl in Hd. destruct (String.eqb_spec k "PROFILE_ENCRYPTED") as [->|Hk]; [done|].
    apply IH; [done|]. unfold attr, setattr. by rewrite lookup_insert_ne. }
  by apply Hfold.
Qed.

(** C3. The profile ["work"] carries the metadata marker, loading it with
    the right password returns a [Config], and that [Config] has
    [PROFILE_ENCRYPTED] false (nothing ever sets it), so [save] does not
    stop at its guard: it creates [bookmarks.json], [pinned_tabs.json]
    and [apps.json] in the profile directory and writes the settings in
    plaintext to the settings store. *)
Theorem save_after_encrypted_load_writes :
  is_encrypted "work" world_encrypted = true
  /\ fst (load_encrypted_profile example_kdf "work" "correct horse"
            world_encrypted) = Ok (Some loaded_config)
  /\ attr loaded_config "PROFILE_ENCRYPTED" = PBool false
  /\ file_exists "work" "bookmarks.json" world_encrypted = false
  /\ file_exists "work" "bookmarks.json" (snd (save loaded_config world_encrypted))
     = true
  /\ file_exists "work" "pinned_tabs.json" (snd (save loaded_config world_encrypted))
     = true
  /\ file_exists "work" "apps.json" (snd (save loaded_config world_encrypted))
     = true
  /\ value (settings_app "work") "HOME_PAGE" world_encrypted = None
  /\ value (settings_app "work") "HOME_PAGE"
       (snd (save loaded_config world_encrypted))
     = Some (QObj (PStr "https://duckduckgo.com")).
Proof. repeat split; vm_compute; reflexivity. Qed.

(** ** The session *)

Lemma tabs_setCurrentIndex i self : tabs (setCurrentIndex i self) = tabs self.
Proof. unfold setCurrentIndex. by destruct (_ && _). Qed.

Lemma config_setCurrentIndex i self : config (setCurrentIndex i self) = config self.
Proof. unfold setCurrentIndex. by destruct (_ && _). Qed.

Lemma setCurrentIndex_in_range i self :
  0 <= i < Z.of_nat (length (tabs self)) ->
  currentIndex (setCurrentIndex i self) = i.
Proof.
  intros [H0 H1]. unfold setCurrentIndex.
  by rewrite (proj2 (Z.leb_le _ _) H0), (proj2 (Z.ltb_lt _ _) H1).
Qed.

(** An index that names no tab leaves the current index alone. *)
Lemma setCurrentIndex_out_of_range i self :
  ~ (0 <= i < Z.of_nat (length (tabs self))) ->
  setCurrentIndex i self = self.
Proof.
  intros H. unfold setCurrentIndex.
  destruct (Z.leb_spec 0 i), (Z.ltb_spec i (Z.of_nat (length (tabs self))));
    simpl; try done. lia.
Qed.

Lemma emit_emit evs1 evs2 w : emit evs2 (emit evs1 w) = emit (evs1 ++ evs2) w.
Proof. destruct w. unfold emit; simpl. by rewrite app_assoc. Qed.

(** The constructor of a tab stops at line 880, whatever its arguments. *)
Lemma WebTab_init_raises c private custom pinned_flag :
  WebTab_init c private custom pinned_flag = Raise (NameError "QSizePolicy").
Proof. reflexivity. Qed.

Section SessionProperties.
Variable reselect : list tab -> Z -> Z.

(** [new_tab] adds no tab: it reports the failed construction and leaves
    the window as it is. *)
Lemma new_tab_reports self url private custom pinned_flag w :
  new_tab reselect self url private custom pinned_flag w
  = (Ok self, emit ui_error_report w).
Proof. unfold new_tab. rewrite WebTab_init_raises. reflexivity. Qed.

(** The loop of [load_session] over entries that have a url goes through
    all of them and opens none. *)
Lemma open_tabs_app entries rest self w :
  forallb is_entry entries = true ->
  open_tabs reselect self (entries ++ rest) w
  = open_tabs reselect self rest (emit (ui_error_reports entries) w).
Proof.
  revert w. induction entries as [|t entries IH]; intros w Hent.
  - by rewrite emit_nil.
  - cbn [forallb] in Hent. apply andb_true_iff in Hent as [Ht Hent].
    destruct t as [| | | | | |d|]; try discriminate Ht.
    unfold is_entry in Ht. cbn [app open_tabs dict_get_default].
    destruct (getitem (PDict d) "url") as [u|]; [|discriminate Ht].
    rewrite (bind_ok _ _ _ _ _ (new_tab_reports _ _ _ _ _ _)).
    rewrite IH by done. rewrite emit_emit. reflexivity.
Qed.

Lemma open_tabs_entries entries self w :
  forallb is_entry entries = true ->
  open_tabs reselect self entries w
  = (Ok (self, None), emit (ui_error_reports entries) w).
Proof.
  intros Hent. rewrite <- (app_nil_r entries) at 1.
  by rewrite open_tabs_app.
Qed.

Lemma is_entry_tab_entry ts : forallb is_entry (map tab_entry ts) = true.
Proof. induction ts as [|t ts IH]; [done|]. simpl. exact IH. Qed.

Lemma ui_error_reports_map {A B} (f : A -> B) (l : list A) :
  ui_error_reports (map f l) = ui_error_reports l.
Proof. unfold ui_error_reports. by rewrite map_map. Qed.

(** What [save_session] leaves under the ["session"] key. *)
Lemma save_session_stores saved w :
  truthy (attr (config saved) "SAVE_SESSION") = true ->
  json_serializable (capture saved) = true ->
  value (settings_app (current_profile (config saved))) "session"
    (snd (save_session saved w))
  = Some (QJsonStr (capture saved))
  /\ profiles (snd (save_session saved w)) = profiles w.
Proof.
  intros Hs Hser. unfold save_session. rewrite Hs, Hser. simpl.
  unfold value. simpl. by rewrite !lookup_insert_eq.
Qed.

(** C9 (code bug). Restoring a captured session opens none of the
    captured tabs: [WebTab.__init__] names [QSizePolicy], which no import
    binds, so for every captured tab [new_tab] catches the [NameError],
    shows one "UI Error" box and adds nothing.  [load_session] itself
    returns normally with the tabs the window already had; the saved
    [current_index] is handed to [setCurrentIndex] as it is, so a window
    without tabs keeps its index and nothing falls back to 0. *)
Theorem load_session_opens_no_tab (saved self : window) (w : world) :
  truthy (attr (config saved) "SAVE_SESSION") = true ->
  json_serializable (capture saved) = true ->
  current_profile (config self) = current_profile (config saved) ->
  let w' := snd (save_session saved w) in
  exists restored,
    load_session reselect self w'
    = (Ok restored, emit (ui_error_reports (tabs saved)) w')
    /\ tabs restored = tabs self
    /\ currentIndex restored
       = currentIndex (setCurrentIndex (currentIndex saved) self)
    /\ (tabs self = [] -> currentIndex restored = currentIndex self).
Proof.
  intros Hs Hser Hp w'.
  destruct (save_session_stores saved w Hs Hser) as [Hv _]. fold w' in Hv.
  set (self1 := setCurrentIndex (currentIndex saved) self).
  set (restored :=
         if truthy (attr (config saved) "DARK_THEME")
         then Window (setattr (config self1) "DARK_THEME" (PBool true))
                     (tabs self1) (currentIndex self1)
         else self1).
  assert (tabs restored = tabs self) as Htr.
  { unfold restored.
    destruct (truthy (attr (config saved) "DARK_THEME")); simpl;
      apply tabs_setCurrentIndex. }
  assert (currentIndex restored = currentIndex self1) as Hir.
  { unfold restored. by destruct (truthy (attr (config saved) "DARK_THEME")). }
  exists restored.
  split.
  { unfold load_session, gets. erewrite bind_ok by reflexivity.
    rewrite Hp, Hv. cbn [qvalue_truthy json_loads_qvalue].
    change (getitem (capture saved) "tabs")
      with (Ok (PList (map tab_entry (tabs saved)))).
    cbn [iterate].
    erewrite bind_ok by (apply open_tabs_entries, is_entry_tab_entry).
    rewrite ui_error_reports_map.
    unfold restore_selection, capture. cbn [dict_get String.eqb Ascii.eqb Bool.eqb].
    fold self1. unfold restored, ret.
    by destruct (truthy (attr (config saved) "DARK_THEME")). }
  split; [exact Htr|]. split; [exact Hir|].
  intros Hnone. rewrite Hir. unfold self1.
  rewrite setCurrentIndex_out_of_range; [done|]. rewrite Hnone. simpl. lia.
Qed.

End SessionProperties.

Lemma load_session_opens_no_tab_witness :
  exists restored,
    fst (load_session reselect_first window_empty
           (snd (save_session window_three_tabs empty_world)))
    = Ok restored
    /\ tabs restored = []
    /\ currentIndex restored = -1.
Proof.
  destruct (load_session_opens_no_tab reselect_first window_three_tabs
              window_empty empty_world)
    as (restored & Hload & Htabs & _ & Hindex).
  - reflexivity.
  - reflexivity.
  - reflexivity.
  - exists restored. split; [by rewrite Hload|].
    split; [exact Htabs|]. by apply Hindex.
Defined.

(** * Properties of the rest of the store *)

(** ** Loading and saving the collections *)

Lemma current_profile_setattr self field v :
  field <> "CURRENT_PROFILE" ->
  current_profile (setattr self field v) = current_profile self.
Proof.
  intros H. unfold current_profile, attr, setattr. by rewrite lookup_insert_ne.
Qed.

Lemma file_exists_dir_of name file w :
  file_exists name file w
  = match dir_of name w !! file with Some _ => true | None => false end.
Proof.
  unfold file_exists, dir_of. destruct (profiles w !! name); simpl; [done|].
  by rewrite lookup_empty.
Qed.

Lemma load_collection_missing field file fallback self name w :
  dir_of name w !! file = None ->
  load_collection field file fallback self name w = (Ok self, w).
Proof.
  intros H. unfold load_collection, try_except.
  by rewrite file_exists_dir_of, H.
Qed.

Lemma load_collection_json field file fallback self name v w :
  dir_of name w !! file = Some (FJson v) ->
  load_collection field file fallback self name w
  = (Ok (setattr self field v), w).
Proof.
  intros H. unfold load_collection, try_except.
  rewrite file_exists_dir_of, H.
  by rewrite (bind_ok _ _ _ _ _ (read_file_dir_of _ _ _ _ H)).
Qed.

Lemma load_collection_malformed field file fallback self name c w :
  dir_of name w !! file = Some c ->
  json_load c = Raise JSONDecodeError ->
  load_collection field file fallback self name w
  = (Ok (setattr self field fallback), emit [LogError "FILE" JSONDecodeError] w).
Proof.
  intros H Hc. unfold load_collection, try_except.
  rewrite file_exists_dir_of, H.
  rewrite (bind_ok _ _ _ _ _ (read_file_dir_of _ _ _ _ H)).
  unfold lift, bind. by rewrite Hc.
Qed.

(** X1. [clear_bookmarks] reports success, empties the list in the
    [Config] and writes the empty list to [bookmarks.json], so that a
    later [load_bookmarks] finds no bookmark. *)
Theorem clear_bookmarks_persists_empty_list (self : gmap string pyval)
    (w : world) :
  let name := current_profile self in
  let w' := snd (clear_bookmarks self w) in
  fst (clear_bookmarks self w) = Ok (true, setattr self "BOOKMARKS" (PList []))
  /\ dir_of name w' !! "bookmarks.json" = Some (FJson (PList []))
  /\ dir_of name w' !! "bookmarks_temp.json" = None
  /\ load_bookmarks self name w' = (Ok (setattr self "BOOKMARKS" (PList [])), w').
Proof.
  intros name w'.
  assert (clear_bookmarks self w
          = (Ok (true, setattr self "BOOKMARKS" (PList [])),
             with_dir name (<["bookmarks.json" := FJson (PList [])]>
                              (delete "bookmarks_temp.json" (dir_of name w))) w))
    as Hc.
  { unfold clear_bookmarks. apply try_ok.
    rewrite current_profile_setattr by done. fold name.
    unfold save_bookmarks.
    erewrite bind_ok;
      [|apply save_collection_ok; [done|by rewrite attr_setattr]].
    by rewrite attr_setattr. }
  unfold w'. rewrite Hc. cbn [fst snd].
  assert (dir_of name (with_dir name (<["bookmarks.json" := FJson (PList [])]>
                         (delete "bookmarks_temp.json" (dir_of name w))) w)
            !! "bookmarks.json" = Some (FJson (PList []))) as Hb
    by (rewrite dir_of_with_dir; apply lookup_insert_eq).
  split; [done|]. split; [exact Hb|]. split.
  - rewrite dir_of_with_dir, lookup_insert_ne by done. apply lookup_delete_eq.
  - unfold load_bookmarks. by apply load_collection_json.
Qed.

(** X2. What [save_bookmarks], [save_pinned_tabs] and [save_apps] write,
    [load_bookmarks], [load_pinned_tabs] and [load_apps] read back into
    any [Config], reporting nothing, as long as [json.dump] accepts the
    value. *)
Theorem save_then_load_collection (self other : gmap string pyval)
    (name : string) (w : world) :
  json_serializable (attr self "BOOKMARKS") = true ->
  json_serializable (attr self "PINNED_TABS") = true ->
  json_serializable (attr self "APPS") = true ->
  load_bookmarks other name (snd (save_bookmarks self name w))
  = (Ok (setattr other "BOOKMARKS" (attr self "BOOKMARKS")),
     snd (save_bookmarks self name w))
  /\ load_pinned_tabs other name (snd (save_pinned_tabs self name w))
     = (Ok (setattr other "PINNED_TABS" (attr self "PINNED_TABS")),
        snd (save_pinned_tabs self name w))
  /\ load_apps other name (snd (save_apps self name w))
     = (Ok (setattr other "APPS" (attr self "APPS")),
        snd (save_apps self name w)).
Proof.
  intros Hb Hp Ha.
  unfold save_bookmarks, save_pinned_tabs, save_apps,
    load_bookmarks, load_pinned_tabs, load_apps.
  rewrite !save_collection_ok by done. cbn [snd].
  repeat split; apply load_collection_json;
    rewrite dir_of_with_dir; apply lookup_insert_eq.
Qed.

Lemma save_then_load_collection_witness :
  fst (load_bookmarks config_new "default"
         (snd (save_bookmarks config_two_bookmarks "default" empty_world)))
  = Ok (setattr config_new "BOOKMARKS" (attr config_two_bookmarks "BOOKMARKS")).
Proof.
  destruct (save_then_load_collection config_two_bookmarks config_new "default"
              empty_world) as (H & _).
  - reflexivity.
  - reflexivity.
  - reflexivity.
  - rewrite H. reflexivity.
Defined.

(** X3. A collection file that is missing leaves the attribute as it is
    and reports nothing; a file that is not a JSON document is logged
    once, without a message box, and resets the attribute: bookmarks and
    pinned tabs to the empty list, apps to the three built-in apps. *)
Theorem load_collection_missing_or_malformed (self : gmap string pyval)
    (name : string) (c : fdata) (w : world) :
  json_load c = Raise JSONDecodeError ->
  (dir_of name w !! "bookmarks.json" = None ->
   load_bookmarks self name w = (Ok self, w))
  /\ (dir_of name w !! "apps.json" = None ->
      load_apps self name w = (Ok self, w))
  /\ (dir_of name w !! "bookmarks.json" = Some c ->
      load_bookmarks self name w
      = (Ok (setattr self "BOOKMARKS" (PList [])),
         emit [LogError "FILE" JSONDecodeError] w))
  /\ (dir_of name w !! "pinned_tabs.json" = Some c ->
      load_pinned_tabs self name w
      = (Ok (setattr self "PINNED_TABS" (PList [])),
         emit [LogError "FILE" JSONDecodeError] w))
  /\ (dir_of name w !! "apps.json" = Some c ->
      load_apps self name w
      = (Ok (setattr self "APPS" default_APPS),
         emit [LogError "FILE" JSONDecodeError] w)).
Proof.
  intros Hc. unfold load_bookmarks, load_pinned_tabs, load_apps.
  repeat split; intros H.
  - by apply load_collection_missing.
  - by apply load_collection_missing.
  - by apply (load_collection_malformed _ _ _ _ _ c).
  - by apply (load_collection_malformed _ _ _ _ _ c).
  - by apply (load_collection_malformed _ _ _ _ _ c).
Qed.

Lemma load_collection_missing_or_malformed_witness :
  load_bookmarks config_one_bookmark "default" world_broken_apps
  = (Ok config_one_bookmark, world_broken_apps)
  /\ fst (load_apps (setattr config_new "APPS" (PList [])) "default"
            world_broken_apps)
     = Ok (setattr (setattr config_new "APPS" (PList [])) "APPS" default_APPS).
Proof.
  destruct (load_collection_missing_or_malformed config_one_bookmark "default"
              FTruncated world_broken_apps eq_refl) as (H1 & _).
  destruct (load_collection_missing_or_malformed
              (setattr config_new "APPS" (PList [])) "default"
              FTruncated world_broken_apps eq_refl) as (_ & _ & _ & _ & H5).
  split.
  - apply H1. reflexivity.
  - rewrite H5; reflexivity.
Defined.

Lemma save_collection_frame field temp dest self name w :
  temp <> dest ->
  let w' := snd (save_collection field temp dest self name w) in
  (forall file, file <> dest -> file <> temp ->
     dir_of name w' !! file = dir_of name w !! file)
  /\ (forall other, other <> name -> profiles w' !! other = profiles w !! other)
  /\ qsettings w' = qsettings w.
Proof.
  intros Hne w'. unfold w'.
  destruct (json_serializable (attr self field)) eqn:Hser.
  - rewrite save_collection_ok by done. cbn [snd].
    split; [|split; [|done]].
    + intros file H1 H2. rewrite dir_of_with_dir.
      by rewrite lookup_insert_ne, lookup_delete_ne.
    + intros other Ho. unfold with_dir; simpl. by rewrite lookup_insert_ne.
  - rewrite save_collection_fail by done. cbn [snd].
    split; [|split; [|done]].
    + intros file H1 H2.
      change (dir_of name (emit _ ?x)) with (dir_of name x).
      rewrite dir_of_with_dir. by rewrite lookup_insert_ne.
    + intros other Ho. unfold with_dir; simpl. by rewrite lookup_insert_ne.
Qed.

(** X4. [save_bookmarks] touches two files only: every other file of the
    profile, every other profile and the settings store are as they
    were, whether or not the write succeeds; after a successful write no
    temporary file is left. *)
Theorem save_bookmarks_touches_only_its_files (self : gmap string pyval)
    (name : string) (w : world) :
  let w' := snd (save_bookmarks self name w) in
  (forall file, file <> "bookmarks.json" -> file <> "bookmarks_temp.json" ->
     dir_of name w' !! file = dir_of name w !! file)
  /\ (forall other, other <> name -> profiles w' !! other = profiles w !! other)
  /\ qsettings w' = qsettings w
  /\ (json_serializable (attr self "BOOKMARKS") = true ->
      dir_of name w' !! "bookmarks_temp.json" = None
      /\ dir_of name w' !! "bookmarks.json" = Some (FJson (attr self "BOOKMARKS"))).
Proof.
  intros w'.
  destruct (save_collection_frame "BOOKMARKS" "bookmarks_temp.json"
              "bookmarks.json" self name w ltac:(discriminate)) as (H1 & H2 & H3).
  split; [exact H1|]. split; [exact H2|]. split; [exact H3|].
  intros Hser. unfold w', save_bookmarks. rewrite save_collection_ok by done.
  cbn [snd]. rewrite dir_of_with_dir. split.
  - rewrite lookup_insert_ne by done. apply lookup_delete_eq.
  - apply lookup_insert_eq.
Qed.

Lemma save_bookmarks_touches_only_its_files_witness :
  dir_of "work" (snd (save_bookmarks config_two_bookmarks "work" world_two_profiles))
    !! "history.json"
  = dir_of "work" world_two_profiles !! "history.json"
  /\ profiles (snd (save_bookmarks config_two_bookmarks "work" world_two_profiles))
       !! "default"
     = profiles world_two_profiles !! "default".
Proof.
  destruct (save_bookmarks_touches_only_its_files config_two_bookmarks "work"
              world_two_profiles) as (H1 & H2 & _).
  split.
  - apply H1; discriminate.
  - apply H2; discriminate.
Defined.

Lemma delete_by_indices_not_selected {A} (xs : list A) (indices : list Z) :
  NoDup indices -> delete_by_indices xs indices = not_selected indices 0 xs.
Proof.
  intros Hnd. unfold delete_by_indices.
  rewrite pops_not_selected by (by apply strict_desc_sorted_reverse).
  apply not_selected_ext. intros i. apply elem_of_sorted_reverse.
Qed.

Lemma Forall_not_selected {A} (P : A -> Prop) indices n (xs : list A) :
  Forall P xs -> Forall P (not_selected indices n xs).
Proof.
  intros H. revert n. induction H as [|x xs Hx H IH]; intros n; simpl; [done|].
  destruct (bool_decide _); [apply IH|constructor; [done|apply IH]].
Qed.

Lemma not_selected_serializable indices (l : list pyval) :
  json_serializable (PList l) = true ->
  json_serializable (PList (not_selected indices 0 l)) = true.
Proof.
  simpl. rewrite !forallb_Forall. apply Forall_not_selected.
Qed.

(** X5. [delete_bookmarks] with a set of indices reports success and
    stores exactly the bookmarks that were not selected, in the [Config]
    and in [bookmarks.json] -- also when none is left. *)
Theorem delete_bookmarks_persists_remaining (self : gmap string pyval)
    (l : list pyval) (indices : list Z) (w : world) :
  attr self "BOOKMARKS" = PList l ->
  json_serializable (PList l) = true ->
  NoDup indices ->
  fst (delete_bookmarks self indices w)
  = Ok (true, setattr self "BOOKMARKS" (PList (not_selected indices 0 l)))
  /\ dir_of (current_profile self) (snd (delete_bookmarks self indices w))
       !! "bookmarks.json"
     = Some (FJson (PList (not_selected indices 0 l))).
Proof.
  intros Hb Hser Hnd.
  assert (delete_bookmarks self indices w
          = (Ok (true, setattr self "BOOKMARKS" (PList (not_selected indices 0 l))),
             with_dir (current_profile self)
               (<["bookmarks.json" := FJson (PList (not_selected indices 0 l))]>
                  (delete "bookmarks_temp.json" (dir_of (current_profile self) w)))
               w)) as Hd.
  { unfold delete_bookmarks. apply try_ok. rewrite Hb. cbn [pop_loop].
    rewrite delete_by_indices_not_selected by done.
    erewrite bind_ok by reflexivity.
    rewrite current_profile_setattr by done. unfold save_bookmarks.
    erewrite bind_ok;
      [|apply save_collection_ok;
        [done|rewrite attr_setattr; by apply not_selected_serializable]].
    by rewrite attr_setattr. }
  rewrite Hd. cbn [fst snd]. split; [done|].
  rewrite dir_of_with_dir. apply lookup_insert_eq.
Qed.

Lemma delete_bookmarks_persists_remaining_witness :
  dir_of "default" (snd (delete_bookmarks config_one_bookmark [0] world_with_bookmarks))
    !! "bookmarks.json"
  = Some (FJson (PList [])).
Proof.
  destruct (delete_bookmarks_persists_remaining config_one_bookmark
              [example_bookmark "A" "https://a.example" "2024-01-01 10:00:00"]
              [0] world_with_bookmarks) as (_ & H).
  - reflexivity.
  - reflexivity.
  - apply (bool_decide_unpack (NoDup [0])). vm_compute. exact I.
  - exact H.
Defined.

(** X6. [delete_history_items] with a set of indices reports success;
    when some entry is left, the entries that were not selected are
    stored, but when every entry was selected the stored history stays as
    it was: the empty remainder is never written. *)
Theorem delete_history_items_cannot_delete_all (name : string)
    (l : list pyval) (indices : list Z) (w : world) :
  stored_history name w = PList l ->
  json_serializable (PList l) = true ->
  NoDup indices ->
  fst (delete_history_items name indices w) = Ok true
  /\ stored_history name (snd (delete_history_items name indices w))
     = PList (match not_selected indices 0 l with
              | [] => l
              | remaining => remaining
              end).
Proof.
  intros Hst Hser Hnd. unfold delete_history_items.
  destruct (load_history_spec name w) as [evs Hload].
  set (r := not_selected indices 0 l).
  assert (forall w1 : world,
            (history <- load_history name ;;
             history' <- lift (pop_loop history indices) ;;
             save_history name (Some history') ;;; ret true) w
            = (Ok true, snd (save_history name (Some (PList r)) (emit evs w))))
    as Hbody.
  { intros _. rewrite (bind_ok _ _ _ _ _ Hload), Hst. cbn [pop_loop].
    rewrite delete_by_indices_not_selected by done. fold r.
    erewrite bind_ok by reflexivity.
    pose proof (save_history_total name (Some (PList r)) (emit evs w)) as Ht.
    destruct (save_history name (Some (PList r)) (emit evs w)) as [[[]|e] w2] eqn:E;
      [|done].
    by rewrite (bind_ok _ _ _ _ _ E). }
  rewrite (try_ok _ _ _ _ _ (Hbody w)). cbn [fst snd]. split; [done|].
  destruct r as [|x r'] eqn:Hr.
  - rewrite stored_history_reload by done. by rewrite stored_history_emit.
  - rewrite save_history_given.
    + cbn [snd]. by rewrite stored_history_written.
    + done.
    + unfold r in Hr. rewrite <- Hr. by apply not_selected_serializable.
Qed.

Lemma delete_history_items_cannot_delete_all_witness :
  stored_history "default"
    (snd (delete_history_items "default" [0] world_with_history))
  = PList [example_entry "https://a.example" "A" "2024-01-01 10:00:00"].
Proof.
  destruct (delete_history_items_cannot_delete_all "default"
              [example_entry "https://a.example" "A" "2024-01-01 10:00:00"]
              [0] world_with_history) as (_ & H).
  - reflexivity.
  - reflexivity.
  - apply (bool_decide_unpack (NoDup [0])). vm_compute. exact I.
  - exact H.
Defined.

(** What a successful [delete_bookmarks] returns and leaves on disk. *)
Lemma delete_bookmarks_run self l indices w :
  attr self "BOOKMARKS" = PList l ->
  json_serializable (PList l) = true ->
  NoDup indices ->
  delete_bookmarks self indices w
  = (Ok (true, setattr self "BOOKMARKS" (PList (not_selected indices 0 l))),
     with_dir (current_profile self)
       (<["bookmarks.json" := FJson (PList (not_selected indices 0 l))]>
          (delete "bookmarks_temp.json" (dir_of (current_profile self) w)))
       w).
Proof.
  intros Hb Hser Hnd.
  unfold delete_bookmarks. apply try_ok. rewrite Hb. cbn [pop_loop].
  rewrite delete_by_indices_not_selected by done.
  erewrite bind_ok by reflexivity.
  rewrite current_profile_setattr by done. unfold save_bookmarks.
  erewrite bind_ok;
    [|apply save_collection_ok;
      [done|rewrite attr_setattr; by apply not_selected_serializable]].
  by rewrite attr_setattr.
Qed.





(** ** Encrypted profiles, continued *)

Lemma read_file_pure name file w : snd (read_file name file w) = w.
Proof.
  unfold read_file. destruct (profiles w !! name) as [d|]; [|done].
  by destruct (d !! file).
Qed.

(** The [try] block of [load_encrypted_profile] only reads. *)
Lemma load_encrypted_profile_body_pure (kdf : string -> string -> string)
    (name password : string) (w : world) :
  snd ((data <- read_file name "profile.meta" ;;
        (if starts_with_marker data then ret tt
         else raise (ValueError "Not an encrypted profile")) ;;;
        let salt := meta_salt data in
        let key := kdf password salt in
        token <- read_file name "config.enc" ;;
        decrypted <- lift (fernet_decrypt key token) ;;
        config_data <- lift (json_load decrypted) ;;
        config <- lift (setattr_items config_new config_data) ;;
        ret (Some config)) w) = w.
Proof.
  unfold bind at 1. pose proof (read_file_pure name "profile.meta" w) as H1.
  destruct (read_file name "profile.meta" w) as [[data|e] w1]; simpl in H1;
    subst w1; [|done].
  unfold bind at 1. destruct (starts_with_marker data); [|done].
  unfold ret at 1. unfold bind at 1.
  pose proof (read_file_pure name "config.enc" w) as H2.
  destruct (read_file name "config.enc" w) as [[token|e] w2]; simpl in H2;
    subst w2; [|done].
  unfold bind, lift, ret.
  destruct (fernet_decrypt _ token); [|done].
  destruct (json_load a); [|done].
  by destruct (setattr_items config_new a0).
Qed.

(** X7. [load_encrypted_profile] never raises and never writes: whatever
    the password and the files, the profile directories and the settings
    store are as before; it either returns a [Config] and reports
    nothing, or returns [None] after exactly one log line under the
    profile error type and one "Profile Error" box. *)
Theorem load_encrypted_profile_never_writes
    (kdf : string -> string -> string) (name password : string) (w : world) :
  let r := load_encrypted_profile kdf name password w in
  profiles (snd r) = profiles w
  /\ qsettings (snd r) = qsettings w
  /\ ((exists c, r = (Ok (Some c), w))
      \/ (exists e, r = (Ok None, emit [LogError "PROFILE" e; profile_error_box] w))).
Proof.
  intros r. unfold r, load_encrypted_profile, try_except.
  pose proof (load_encrypted_profile_body_pure kdf name password w) as Hpure.
  match goal with
  | |- context [match ?body with _ => _ end] =>
      destruct body as [[[c|]|e] w1] eqn:E
  end; simpl in Hpure; subst w1.
  - split; [done|]. split; [done|]. left. by exists c.
  - exfalso. revert E. unfold bind, lift, ret, raise.
    destruct (read_file name "profile.meta" w) as [[data|e] w1]; [|done].
    destruct (starts_with_marker data); [|done].
    destruct (read_file name "config.enc" w1) as [[token|e] w2]; [|done].
    destruct (fernet_decrypt _ token); [|done].
    destruct (json_load a); [|done].
    by destruct (setattr_items config_new a0).
  - destruct e; (split; [done|]; split; [done|]; right; eexists; reflexivity).
Qed.

Lemma dict_get_not_key d k :
  k ∉ map fst d -> dict_get d k = None.
Proof.
  induction d as [|[k0 v0] d IH]; simpl; [done|]. intros H.
  rewrite not_elem_of_cons in H. destruct H as [H1 H2].
  rewrite (proj2 (String.eqb_neq k0 k)) by congruence. by apply IH.
Qed.

(** Setting the items of a dict with distinct keys on an object. *)
Lemma attr_setattr_items d : forall (c : gmap string pyval) k,
  NoDup (map fst d) ->
  attr (fold_left (fun c kv => setattr c (fst kv) (snd kv)) d c) k
  = match dict_get d k with Some v => v | None => attr c k end.
Proof.
  induction d as [|[k0 v0] d IH]; intros c k Hnd; simpl; [done|].
  apply NoDup_cons in Hnd as [Hk0 Hnd]. rewrite IH by done.
  destruct (String.eqb_spec k0 k) as [->|Hne].
  - rewrite dict_get_not_key by done. apply attr_setattr.
  - destruct (dict_get d k); [done|].
    unfold attr, setattr. by rewrite lookup_insert_ne.
Qed.

(** X8. Round trip: a profile created from a [config_data] that
    [json.dumps] accepts and whose keys are ordinary attribute names
    (none of [__class__], [__dict__], [__weakref__]) carries the marker,
    and loading it with the same password returns a [Config] on which
    every stored key has the stored value and every other attribute its
    default. *)
Theorem encrypted_profile_roundtrip_values
    (kdf : string -> string -> string) (salt name password : string)
    (d : list (string * pyval)) (w : world) :
  json_serializable (PDict d) = true ->
  NoDup (map fst d) ->
  forallb (fun kv => ordinary_attribute (fst kv)) d = true ->
  let w' := snd (create_encrypted_profile kdf salt name password (Some (PDict d)) w) in
  is_encrypted name w' = true
  /\ exists c,
       load_encrypted_profile kdf name password w' = (Ok (Some c), w')
       /\ forall k, attr c k
                    = match dict_get d k with
                      | Some v => v
                      | None => attr config_new k
                      end.
Proof.
  intros Hser Hnd Hord w'. unfold w'.
  rewrite create_encrypted_profile_given by done. cbn [snd].
  split.
  - unfold is_encrypted. rewrite with_dir_lookup.
    rewrite lookup_insert_ne by done. rewrite lookup_insert_eq.
    apply marker_prefix.
  - eexists. split.
    + apply (load_encrypted_profile_right_key kdf name password salt d).
      * exact Hord.
      * rewrite dir_of_with_dir, lookup_insert_ne by done. apply lookup_insert_eq.
      * rewrite dir_of_with_dir. apply lookup_insert_eq.
    + intros k. by apply attr_setattr_items.
Qed.

Lemma encrypted_profile_roundtrip_values_witness :
  exists c,
    load_encrypted_profile example_kdf "work" "correct horse" world_encrypted
    = (Ok (Some c), world_encrypted)
    /\ attr c "CURRENT_PROFILE" = PStr "work"
    /\ attr c "WINDOW_SIZE" = PList [PInt 1280; PInt 720].
Proof.
  destruct (encrypted_profile_roundtrip_values example_kdf "0123456789abcdef"
              "work" "correct horse"
              (match json_config_data "work" with PDict d => d | _ => [] end)
              empty_world) as (_ & c & Hload & Hattr).
  - reflexivity.
  - apply (bool_decide_unpack _). vm_compute. exact I.
  - reflexivity.
  - exists c. split; [exact Hload|]. split; rewrite Hattr; reflexivity.
Defined.

(** X9. What [load_encrypted_profile] logs tells the cause of a failure,
    although the caller gets [None] each time: a missing [profile.meta]
    or [config.enc] is a [FileNotFoundError] with its path, a
    [profile.meta] without the marker is the [ValueError] "Not an
    encrypted profile", a decrypted text that is not JSON is a decode
    error, and a JSON document that is not an object is an
    [AttributeError]. *)
Theorem load_encrypted_profile_reports_cause
    (kdf : string -> string -> string) (name password salt : string)
    (data plaintext : fdata) (v : pyval) (w : world) :
  starts_with_marker data = false ->
  json_load plaintext = Raise JSONDecodeError ->
  setattr_items config_new v = Raise AttributeError ->
  let failed e :=
    (Ok None, emit [LogError "PROFILE" e; profile_error_box] w)
    : res (option (gmap string pyval)) * world in
  let marked := FBytes ("ENCRYPTED:" +:+ salt) in
  (dir_of name w !! "profile.meta" = None ->
   load_encrypted_profile kdf name password w
   = failed (FileNotFoundError (path_of name "profile.meta")))
  /\ (dir_of name w !! "profile.meta" = Some data ->
      load_encrypted_profile kdf name password w
      = failed (ValueError "Not an encrypted profile"))
  /\ (dir_of name w !! "profile.meta" = Some marked ->
      dir_of name w !! "config.enc" = None ->
      load_encrypted_profile kdf name password w
      = failed (FileNotFoundError (path_of name "config.enc")))
  /\ (dir_of name w !! "profile.meta" = Some marked ->
      dir_of name w !! "config.enc"
      = Some (fernet_encrypt (kdf password salt) plaintext) ->
      load_encrypted_profile kdf name password w = failed JSONDecodeError)
  /\ (dir_of name w !! "profile.meta" = Some marked ->
      dir_of name w !! "config.enc"
      = Some (fernet_encrypt (kdf password salt) (FJson v)) ->
      load_encrypted_profile kdf name password w = failed AttributeError).
Proof.
  intros Hdata Hplain Hv failed marked.
  assert (forall file, dir_of name w !! file = None ->
            read_file name file w = (Raise (FileNotFoundError (path_of name file)), w))
    as Hmissing.
  { intros file H. unfold read_file, dir_of in *.
    destruct (profiles w !! name) as [dir|]; simpl in *; [by rewrite H|done]. }
  split; [|split; [|split; [|split]]].
  - intros Hmeta. by apply load_encrypted_profile_no_meta.
  - intros Hmeta. unfold load_encrypted_profile.
    rewrite (try_raise _ _ _ (ValueError "Not an encrypted profile") w);
      [reflexivity|].
    rewrite (bind_ok _ _ _ _ _ (read_file_dir_of _ _ _ _ Hmeta)).
    by rewrite Hdata.
  - intros Hmeta Henc. unfold load_encrypted_profile.
    rewrite (try_raise _ _ _ (FileNotFoundError (path_of name "config.enc")) w);
      [reflexivity|].
    rewrite (bind_ok _ _ _ _ _ (read_file_dir_of _ _ _ _ Hmeta)).
    unfold marked. destruct (marker_prefix salt) as [-> ->].
    erewrite bind_ok by reflexivity.
    apply bind_raise. by apply Hmissing.
  - intros Hmeta Henc. unfold load_encrypted_profile.
    rewrite (try_raise _ _ _ JSONDecodeError w); [reflexivity|].
    rewrite (bind_ok _ _ _ _ _ (read_file_dir_of _ _ _ _ Hmeta)).
    unfold marked. destruct (marker_prefix salt) as [-> ->].
    erewrite bind_ok by reflexivity.
    rewrite (bind_ok _ _ _ _ _ (read_file_dir_of _ _ _ _ Henc)).
    unfold fernet_encrypt, fernet_decrypt. rewrite String.eqb_refl.
    erewrite bind_ok by reflexivity.
    unfold bind, lift. by rewrite Hplain.
  - intros Hmeta Henc. unfold load_encrypted_profile.
    rewrite (try_raise _ _ _ AttributeError w); [reflexivity|].
    rewrite (bind_ok _ _ _ _ _ (read_file_dir_of _ _ _ _ Hmeta)).
    unfold marked. destruct (marker_prefix salt) as [-> ->].
    erewrite bind_ok by reflexivity.
    rewrite (bind_ok _ _ _ _ _ (read_file_dir_of _ _ _ _ Henc)).
    unfold fernet_encrypt, fernet_decrypt. rewrite String.eqb_refl.
    erewrite bind_ok by reflexivity.
    erewrite bind_ok by reflexivity.
    unfold bind, lift. by rewrite Hv.
Qed.

Lemma load_encrypted_profile_reports_cause_witness :
  load_encrypted_profile example_kdf "work" "correct horse" world_bad_meta
  = (Ok None,
     emit [LogError "PROFILE" (ValueError "Not an encrypted profile");
           profile_error_box] world_bad_meta).
Proof.
  destruct (load_encrypted_profile_reports_cause example_kdf "work"
              "correct horse" "0123456789abcdef" (FBytes "garbage") FTruncated
              (PList []) world_bad_meta) as (_ & H & _).
  - reflexivity.
  - reflexivity.
  - reflexivity.
  - apply H. reflexivity.
Defined.

(** The world [add_to_history] leaves. *)
Lemma add_to_history_world config l url title now w :
  stored_history (current_profile config) w = PList l ->
  history_ok l = true ->
  exists evs,
    add_to_history config url title now w
    = (Ok tt,
       with_dir (current_profile config)
         (<["history.json" := FJson (PList (visited l url title now))]>
            (delete "history_temp.json" (dir_of (current_profile config) w)))
         (emit evs w)).
Proof.
  intros Hst Hok. unfold add_to_history.
  destruct (load_history_spec (current_profile config) w) as [evs Hload].
  exists evs. rewrite (bind_ok _ _ _ _ _ Hload). rewrite Hst.
  pose proof Hok as Hok'. unfold history_ok in Hok'.
  apply andb_true_iff in Hok' as [He Hs].
  rewrite (bind_ok _ _ _ _ (emit evs w) (f_equal (fun r => (r, emit evs w))
             (record_visit_spec l url title now He))).
  pose proof (visited_ok l url title now Hok) as Hv.
  unfold history_ok in Hv. apply andb_true_iff in Hv as [_ Hvs].
  rewrite save_history_given; [done| |done].
  pose proof (visited_nonempty l url title now).
  simpl. by destruct (visited l url title now).
Qed.

(** X10. Browsing history is kept in plaintext also for an encrypted
    profile: [add_to_history] writes the visited list as a JSON document
    to [history.json], next to the marker and the token, which it leaves
    as they are. *)
Theorem add_to_history_plaintext_in_encrypted_profile
    (config : gmap string pyval) (l : list pyval) (url title now : string)
    (w : world) :
  is_encrypted (current_profile config) w = true ->
  stored_history (current_profile config) w = PList l ->
  history_ok l = true ->
  let w' := snd (add_to_history config url title now w) in
  dir_of (current_profile config) w' !! "history.json"
  = Some (FJson (PList (visited l url title now)))
  /\ is_encrypted (current_profile config) w' = true
  /\ dir_of (current_profile config) w' !! "config.enc"
     = dir_of (current_profile config) w !! "config.enc".
Proof.
  intros Henc Hst Hok w'. unfold w'.
  destruct (add_to_history_world config l url title now w Hst Hok) as [evs ->].
  cbn [snd]. rewrite dir_of_with_dir.
  split; [apply lookup_insert_eq|]. split.
  - unfold is_encrypted in *. rewrite with_dir_lookup.
    rewrite lookup_insert_ne, lookup_delete_ne by done.
    unfold dir_of. destruct (profiles w !! current_profile config); [done|].
    discriminate Henc.
  - by rewrite lookup_insert_ne, lookup_delete_ne.
Qed.

Lemma add_to_history_plaintext_in_encrypted_profile_witness :
  dir_of "work"
    (snd (add_to_history loaded_config "https://secret.example" "Secret"
            "2024-04-01 08:00:00" world_encrypted)) !! "history.json"
  = Some (FJson (PList [new_history_entry "https://secret.example" "Secret"
                          "2024-04-01 08:00:00"])).
Proof.
  destruct (add_to_history_plaintext_in_encrypted_profile loaded_config []
              "https://secret.example" "Secret" "2024-04-01 08:00:00"
              world_encrypted) as (H & _).
  - reflexivity.
  - reflexivity.
  - reflexivity.
  - exact H.
Defined.









(** X13. Deleting a profile removes its directory only: the settings
    store, where the settings and the saved session of the profile are
    kept, is never touched, and neither is the directory of any other
    profile. *)
Theorem delete_profile_keeps_settings (current : option string)
    (confirm : bool) (w : world) :
  let w' := snd (delete_profile current confirm w) in
  qsettings w' = qsettings w
  /\ (forall other, Some other <> current ->
        profiles w' !! other = profiles w !! other).
Proof.
  unfold delete_profile. destruct current as [name|]; [|done].
  destruct (negb (String.eqb name "default")); [|done].
  destruct confirm; [|done].
  unfold try_except, rmtree.
  destruct (profiles w !! name) eqn:Hname; cbn.
  - split; [done|]. intros other Hother.
    apply lookup_delete_ne. congruence.
  - done.
Qed.

Lemma delete_profile_keeps_settings_witness :
  profiles (snd (delete_profile (Some "work") true world_two_profiles))
    !! "default"
  = profiles world_two_profiles !! "default".
Proof.
  destruct (delete_profile_keeps_settings (Some "work") true
              world_two_profiles) as [_ H].
  apply H. discriminate.
Defined.

(** *** The list of profiles *)

Lemma insert_sorted_perm x l : insert_sorted x l ≡ₚ x :: l.
Proof.
  induction l as [|y l IH]; simpl; [done|].
  destruct (String.leb x y); [done|].
  rewrite IH. apply Permutation_swap.
Qed.

Lemma sorted_perm l : sorted l ≡ₚ l.
Proof.
  induction l as [|x l IH]; [done|].
  unfold sorted in *. simpl. rewrite insert_sorted_perm. by rewrite IH.
Qed.

Lemma HdRel_insert_sorted x y l :
  String.leb y x = true ->
  HdRel (fun a b => String.leb a b = true) y l ->
  HdRel (fun a b => String.leb a b = true) y (insert_sorted x l).
Proof.
  intros Hyx Hl. destruct l as [|z l]; simpl.
  - by constructor.
  - destruct (String.leb x z); constructor; [done|].
    by inversion Hl.
Qed.

Lemma Sorted_insert_sorted x l :
  Sorted (fun a b => String.leb a b = true) l ->
  Sorted (fun a b => String.leb a b = true) (insert_sorted x l).
Proof.
  induction 1 as [|y l Hs IH Hhd]; simpl.
  - by repeat constructor.
  - destruct (String.leb x y) eqn:Hxy.
    + constructor; [by constructor|by constructor].
    + constructor; [exact IH|].
      apply HdRel_insert_sorted; [|done].
      destruct (String.leb_total x y) as [H|H]; [congruence|done].
Qed.

Lemma Sorted_sorted l : Sorted (fun a b => String.leb a b = true) (sorted l).
Proof.
  induction l as [|x l IH]; [constructor|].
  by apply Sorted_insert_sorted.
Qed.

(** The names [get_available_profiles] returns. *)
Lemma elem_of_get_available_profiles name w :
  name ∈ get_available_profiles w
  <-> name = "default" \/ is_Some (profiles w !! name).
Proof.
  unfold get_available_profiles. rewrite sorted_perm.
  rewrite elem_of_cons, list_elem_of_In, filter_In, <- list_elem_of_In.
  change (map fst (map_to_list (profiles w)))
    with ((map_to_list (profiles w)).*1).
  rewrite list_elem_of_fmap.
  split.
  - intros [->|[([n d] & -> & Hin) _]]; [by left|right].
    apply elem_of_map_to_list in Hin. by exists d.
  - intros [->|[d Hd]]; [by left|].
    destruct (String.eqb_spec name "default") as [->|Hne]; [by left|right].
    split; [|done]. exists (name, d). split; [done|].
    by apply elem_of_map_to_list.
Qed.

(** X14. [get_available_profiles] returns the names in ascending order,
    each once: ["default"], whether or not its directory exists, and
    every profile that has a directory. *)
Theorem get_available_profiles_lists_directories (w : world) :
  let names := get_available_profiles w in
  Sorted (fun a b => String.leb a b = true) names
  /\ NoDup names
  /\ forall name, name ∈ names
       <-> name = "default" \/ is_Some (profiles w !! name).
Proof.
  split; [apply Sorted_sorted|]. split; [|intros name; apply elem_of_get_available_profiles].
  unfold get_available_profiles. rewrite sorted_perm.
  apply NoDup_cons. split.
  - rewrite list_elem_of_In, filter_In. intros [_ H]. discriminate H.
  - apply NoDup_ListNoDup, List.NoDup_filter, NoDup_ListNoDup.
    change (map fst (map_to_list (profiles w)))
      with ((map_to_list (profiles w)).*1).
    apply NoDup_fst_map_to_list.
Qed.

Lemma get_available_profiles_lists_directories_witness :
  "work" ∈ get_available_profiles world_two_profiles.
Proof.
  destruct (get_available_profiles_lists_directories world_two_profiles)
    as (_ & _ & H).
  apply H. right. eexists. reflexivity.
Defined.

(** X15. After [delete_profile] was confirmed for a profile other than
    ["default"], the profile is no longer offered by
    [get_available_profiles] and every other name still is. *)
Theorem delete_profile_delists (name : string) (w : world) :
  name <> "default" ->
  forall other,
    other ∈ get_available_profiles (snd (delete_profile (Some name) true w))
    <-> other ∈ get_available_profiles w /\ other <> name.
Proof.
  intros Hname other. rewrite !elem_of_get_available_profiles.
  assert (profiles (snd (delete_profile (Some name) true w))
          = delete name (profiles w)) as ->.
  { unfold delete_profile. apply String.eqb_neq in Hname. rewrite Hname.
    unfold try_except, rmtree. cbn [negb].
    destruct (profiles w !! name) eqn:Hp; cbn; [done|].
    symmetry. by apply delete_id. }
  destruct (decide (other = name)) as [->|Hother].
  - rewrite lookup_delete_eq. split.
    + intros [?|[? ?]]; done.
    + intros [_ ?]; done.
  - rewrite lookup_delete_ne by done. tauto.
Qed.

Lemma delete_profile_delists_witness :
  ("work" ∉ get_available_profiles
              (snd (delete_profile (Some "work") true world_two_profiles)))
  /\ ("default" ∈ get_available_profiles
                    (snd (delete_profile (Some "work") true world_two_profiles))).
Proof.
  split.
  - intros H.
    apply (delete_profile_delists "work" world_two_profiles) in H;
      [|discriminate].
    by destruct H.
  - apply (delete_profile_delists "work" world_two_profiles); [discriminate|].
    split; [|discriminate].
    apply (bool_decide_unpack
             ("default" ∈ get_available_profiles world_two_profiles)).
    vm_compute. exact I.
Defined.

(** *** The bookmark button and the bookmark manager *)

Lemma any_has_url_spec l url :
  forallb is_entry l = true ->
  any_has_url l url = Ok (existsb (has_url url) l).
Proof.
  induction l as [|b l IH]; [done|]. cbn [forallb any_has_url existsb].
  intros [Hb Hl]%andb_true_iff. unfold is_entry, has_url in *.
  destruct (getitem b "url") as [u|]; [|done].
  destruct (eq_str u url); [done|]. by apply IH.
Qed.

Lemma filter_nil_existsb {A} (f : A -> bool) l :
  List.filter f l = [] -> existsb f l = false.
Proof.
  induction l as [|x l IH]; [done|]. simpl.
  destruct (f x); [done|]. exact IH.
Qed.

(** Toggling flips whether the url is bookmarked, as long as the list
    holds the url at most once. *)
Lemma existsb_toggled l title url now :
  (length (List.filter (has_url url) l) <= 1)%nat ->
  existsb (has_url url) (toggled l title url now)
  = negb (existsb (has_url url) l).
Proof.
  unfold toggled. induction l as [|b l IH]; intros Hlen.
  - simpl. by rewrite has_url_new_bookmark.
  - cbn [list_find]. cbn [List.filter existsb] in *.
    destruct (decide (has_url url b = true)) as [Hb|Hb].
    + rewrite Hb in *. simpl in Hlen.
      change (delete 0%nat (b :: l)) with l. cbn [orb negb].
      apply filter_nil_existsb.
      destruct (List.filter (has_url url) l); [done|simpl in Hlen; lia].
    + apply not_true_is_false in Hb. rewrite Hb in *.
      specialize (IH Hlen).
      destruct (list_find (fun b0 => has_url url b0 = true) l) as [[i b']|];
        simpl in *; by rewrite Hb.
Qed.

Lemma menu_actions_bookmarks l :
  forallb is_bookmark l = true -> menu_actions l = Ok tt.
Proof.
  induction l as [|b l IH]; [done|]. cbn [forallb menu_actions].
  intros [Hb Hl]%andb_true_iff.
  destruct b as [| | | | | |d|]; try discriminate Hb.
  unfold is_bookmark in Hb. cbn [getitem].
  destruct (dict_get d "title") as [[| | | |t| | |]|]; try discriminate Hb.
  destruct (dict_get d "url") as [[| | | |u| | |]|]; try discriminate Hb.
  by apply IH.
Qed.

Lemma update_bookmarks_menu_bookmarks config l :
  attr config "BOOKMARKS" = PList l -> forallb is_bookmark l = true ->
  update_bookmarks_menu config = Ok tt.
Proof.
  intros Hb Hl.
  unfold update_bookmarks_menu, NavigationBar_update_bookmarks_menu.
  rewrite Hb. cbn [iterate and_then].
  rewrite (menu_actions_bookmarks l Hl).
  by destruct (negb (truthy (PList l))).
Qed.

(** Toggling keeps what holds of every entry and of a new bookmark. *)
Lemma forallb_toggled (f : pyval -> bool) l title url now :
  f (new_bookmark title url now) = true ->
  forallb f l = true -> forallb f (toggled l title url now) = true.
Proof.
  intros Hnew Hl. unfold toggled. destruct (list_find _ l) as [[i b]|].
  - rewrite forallb_forall in *. intros x Hx. apply Hl.
    apply list_elem_of_In. apply list_elem_of_In in Hx.
    rewrite delete_take_drop in Hx. apply elem_of_app in Hx as [Hx|Hx].
    + rewrite <- (take_drop i l). apply elem_of_app. by left.
    + rewrite <- (take_drop (S i) l). apply elem_of_app. by right.
  - rewrite forallb_app, Hl. simpl. by rewrite Hnew.
Qed.

(** On a list of bookmarks that can be written and shown, a toggle
    reports nothing. *)
Lemma toggle_bookmark_quiet config l title url now w :
  attr config "BOOKMARKS" = PList l ->
  forallb is_entry l = true ->
  forallb is_bookmark l = true ->
  json_serializable (PList l) = true ->
  events (snd (toggle_bookmark config title url now w)) = events w.
Proof.
  intros Hb Hl Hbm Hser. unfold toggle_bookmark.
  rewrite Hb. cbn [iterate as_list and_then].
  rewrite find_url_index_spec by done.
  assert (forallb is_bookmark (toggled l title url now) = true) as Hbm'
    by (by apply forallb_toggled).
  assert (json_serializable (PList (toggled l title url now)) = true) as Hser'.
  { change (forallb json_serializable (toggled l title url now) = true).
    apply forallb_toggled; [reflexivity|exact Hser]. }
  assert (forall config' : gmap string pyval,
            attr config' "BOOKMARKS" = PList (toggled l title url now) ->
            events (snd (try_except
                           (save_bookmarks config' (current_profile config') ;;;
                            lift (update_bookmarks_menu config') ;;;
                            ret config')
                           (fun e => handle "file" e true ;;; ret config') w))
            = events w) as Htry.
  { intros config' Hattr.
    rewrite (try_ok _ _ w config'
               (with_dir (current_profile config')
                  (<["bookmarks.json" := FJson (attr config' "BOOKMARKS")]>
                     (delete "bookmarks_temp.json"
                        (dir_of (current_profile config') w))) w));
      [reflexivity|].
    unfold save_bookmarks.
    erewrite bind_ok; [|apply save_collection_ok; [done|by rewrite Hattr]].
    unfold bind at 1, lift.
    by rewrite (update_bookmarks_menu_bookmarks config' _ Hattr Hbm'). }
  unfold toggled in Htry.
  destruct (list_find _ l) as [[i b]|]; cbn [fmap option_fmap option_map and_then];
    apply Htry, attr_setattr.
Qed.

(** X16. The bookmark button follows the toggle: when the list holds the
    url at most once, [update_bookmark_state] after [toggle_bookmark]
    gives the opposite of what it gave before.  [toggle_bookmark] leaves
    the toggled list in the [Config] also when saving it or rebuilding
    the menus fails; on a list of bookmarks that can be written and shown
    nothing fails and nothing is reported. *)
Theorem update_bookmark_state_follows_toggle (config : gmap string pyval)
    (l : list pyval) (title url now : string) (w : world) :
  attr config "BOOKMARKS" = PList l ->
  forallb is_entry l = true ->
  (length (List.filter (has_url url) l) <= 1)%nat ->
  (exists is_bookmarked config',
     update_bookmark_state config url = Ok is_bookmarked
     /\ fst (toggle_bookmark config title url now w) = Ok config'
     /\ update_bookmark_state config' url = Ok (negb is_bookmarked))
  /\ (forallb is_bookmark l = true ->
      json_serializable (PList l) = true ->
      events (snd (toggle_bookmark config title url now w)) = events w).
Proof.
  intros Hb Hl Hlen. split; [|by apply toggle_bookmark_quiet].
  exists (existsb (has_url url) l),
         (setattr config "BOOKMARKS" (PList (toggled l title url now))).
  split; [|split].
  - unfold update_bookmark_state. rewrite Hb. by apply any_has_url_spec.
  - by apply toggle_bookmark_spec.
  - unfold update_bookmark_state. rewrite attr_setattr. cbn [iterate].
    rewrite any_has_url_spec by (by apply forallb_is_entry_toggled).
    by rewrite existsb_toggled.
Qed.

Lemma update_bookmark_state_follows_toggle_witness :
  exists is_bookmarked config',
    update_bookmark_state config_one_bookmark "https://a.example"
    = Ok is_bookmarked
    /\ fst (toggle_bookmark config_one_bookmark "A" "https://a.example"
              "2024-02-01 09:00:00" world_with_bookmarks) = Ok config'
    /\ update_bookmark_state config' "https://a.example"
       = Ok (negb is_bookmarked).
Proof.
  destruct (update_bookmark_state_follows_toggle config_one_bookmark
              [example_bookmark "A" "https://a.example" "2024-01-01 10:00:00"]
              "A" "https://a.example" "2024-02-01 09:00:00"
              world_with_bookmarks) as [H _].
  - reflexivity.
  - reflexivity.
  - vm_compute. lia.
  - exact H.
Defined.

Lemma bookmark_of_row_serializable now rows :
  json_serializable (PList (map (bookmark_of_row now) rows)) = true.
Proof.
  simpl. apply forallb_Forall, Forall_forall.
  intros b Hb. apply list_elem_of_fmap in Hb as (row & -> & _). done.
Qed.

(** X17. Saving from the bookmark table replaces the list by the rows
    that have both a title and a url, in table order, and stores exactly
    that list in [bookmarks.json]; loading the bookmarks afterwards gives
    the same [Config].  A row without a title or without a url is
    dropped. *)
Theorem save_bookmarks_from_table_persists (config : gmap string pyval)
    (rows : list (string * string * string)) (now : string) (w : world) :
  let kept :=
    List.filter (fun row => negb (String.eqb (fst (fst row)) "")
                            && negb (String.eqb (snd (fst row)) "")) rows in
  let config' :=
    setattr config "BOOKMARKS" (PList (map (bookmark_of_row now) kept)) in
  let w' := snd (save_bookmarks_from_table config rows now w) in
  fst (save_bookmarks_from_table config rows now w) = Ok config'
  /\ dir_of (current_profile config) w' !! "bookmarks.json"
     = Some (FJson (PList (map (bookmark_of_row now) kept)))
  /\ fst (load_bookmarks config' (current_profile config) w') = Ok config'.
Proof.
  intros kept config' w'.
  set (bookmarks := PList (map (bookmark_of_row now) kept)) in *.
  assert (current_profile config' = current_profile config) as Hp
    by (by apply current_profile_setattr).
  assert (attr config' "BOOKMARKS" = bookmarks) as Hattr
    by apply attr_setattr.
  assert (save_bookmarks_from_table config rows now w
          = (Ok config',
             with_dir (current_profile config)
               (<["bookmarks.json" := FJson bookmarks]>
                  (delete "bookmarks_temp.json"
                     (dir_of (current_profile config) w))) w)) as Hsave.
  { unfold save_bookmarks_from_table.
    change (List.filter _ rows) with kept. fold bookmarks. fold config'.
    rewrite Hp. unfold save_bookmarks.
    erewrite bind_ok;
      [|apply save_collection_ok;
        [done|rewrite Hattr; apply bookmark_of_row_serializable]].
    by rewrite Hattr. }
  unfold w'. rewrite Hsave. cbn [fst snd]. split; [done|].
  rewrite dir_of_with_dir. split; [apply lookup_insert_eq|].
  unfold load_bookmarks.
  erewrite load_collection_json
    by (rewrite dir_of_with_dir; apply lookup_insert_eq).
  cbn [fst]. f_equal. unfold config', setattr. apply insert_insert_eq.
Qed.

Lemma save_bookmarks_from_table_persists_witness :
  dir_of "default"
    (snd (save_bookmarks_from_table config_one_bookmark
            [("A", "https://a.example", "2024-01-01 10:00:00");
             ("", "https://untitled.example", "2024-01-02 10:00:00");
             ("B", "https://b.example", "")]
            "2024-02-01 09:00:00" world_with_bookmarks))
    !! "bookmarks.json"
  = Some (FJson (PList [example_bookmark "A" "https://a.example"
                          "2024-01-01 10:00:00";
                        example_bookmark "B" "https://b.example"
                          "2024-02-01 09:00:00"])).
Proof.
  destruct (save_bookmarks_from_table_persists config_one_bookmark
              [("A", "https://a.example", "2024-01-01 10:00:00");
               ("", "https://untitled.example", "2024-01-02 10:00:00");
               ("B", "https://b.example", "")]
              "2024-02-01 09:00:00" world_with_bookmarks) as (_ & H & _).
  exact H.
Defined.

Lemma not_selected_last {A} (l : list A) (x : A) n :
  not_selected [n + Z.of_nat (length l)] n (l ++ [x]) = l.
Proof.
  revert n. induction l as [|y l IH]; intros n; cbn [app not_selected length].
  - rewrite bool_decide_eq_true_2; [done|].
    apply list_elem_of_singleton. simpl. lia.
  - rewrite bool_decide_eq_false_2.
    + f_equal. replace (n + Z.of_nat (S (length l)))
        with ((n + 1) + Z.of_nat (length l)) by lia.
      apply IH.
    + rewrite list_elem_of_singleton. lia.
Qed.

Section BookmarkManagerProperties.
Variable item_of_number : pyval -> res unit.

Lemma table_rows_bookmarks l :
  forallb is_bookmark l = true -> table_rows item_of_number l = Ok tt.
Proof.
  induction l as [|b l IH]; [done|]. cbn [forallb table_rows].
  intros [Hb Hl]%andb_true_iff. rewrite (IH Hl).
  destruct b as [| | | | | |d|]; try discriminate Hb.
  unfold is_bookmark in Hb. unfold table_row. cbn [getitem dict_get_default].
  destruct (dict_get d "title") as [[| | | |t| | |]|]; try discriminate Hb.
  destruct (dict_get d "url") as [[| | | |u| | |]|]; try discriminate Hb.
  destruct (dict_get d "date") as [[| | | |t'| | |]|]; try discriminate Hb;
    reflexivity.
Qed.

Lemma load_bookmarks_to_table_bookmarks config l :
  attr config "BOOKMARKS" = PList l -> forallb is_bookmark l = true ->
  load_bookmarks_to_table item_of_number config = Ok tt.
Proof.
  intros Hb Hl. unfold load_bookmarks_to_table. rewrite Hb.
  cbn [iterate and_then]. by apply table_rows_bookmarks.
Qed.

(** X18. On a list of bookmarks the table and the menus can show, a
    bookmark added in the bookmark manager goes to the end of the list
    in memory without an exception; removing the entry at that index
    again with [remove_selected_bookmarks], once confirmed, raises
    nothing either, gives back the list as it was and stores that list
    in [bookmarks.json]. *)
Theorem add_then_remove_bookmark_restores (config : gmap string pyval)
    (l : list pyval) (title url now : string) (w : world) :
  attr config "BOOKMARKS" = PList l ->
  forallb is_bookmark l = true ->
  json_serializable (PList l) = true ->
  title <> "" -> url <> "" ->
  exists config1,
    add_bookmark_from_manager item_of_number config title true url true now
    = (config1, None)
    /\ attr config1 "BOOKMARKS" = PList (l ++ [new_bookmark title url now])
    /\ fst (remove_selected_bookmarks item_of_number config1
              [Z.of_nat (length l)] true w)
       = Ok (setattr config "BOOKMARKS" (PList l), None)
    /\ dir_of (current_profile config)
         (snd (remove_selected_bookmarks item_of_number config1
                 [Z.of_nat (length l)] true w))
         !! "bookmarks.json"
       = Some (FJson (PList l)).
Proof.
  intros Hb Hbm Hser Ht Hu.
  set (config1 :=
         setattr config "BOOKMARKS" (PList (l ++ [new_bookmark title url now]))).
  assert (forallb is_bookmark (l ++ [new_bookmark title url now]) = true)
    as Hbm1 by (rewrite forallb_app, Hbm; reflexivity).
  exists config1.
  split.
  { unfold add_bookmark_from_manager. cbn [truthy andb].
    apply String.eqb_neq in Ht, Hu. rewrite Ht, Hu. cbn [negb].
    rewrite Hb. cbn [as_list]. fold config1.
    by rewrite (load_bookmarks_to_table_bookmarks config1 _ (attr_setattr _ _ _) Hbm1). }
  split; [apply attr_setattr|].
  unfold remove_selected_bookmarks.
  assert (json_serializable (PList (l ++ [new_bookmark title url now])) = true)
    as Hser'.
  { simpl in *. rewrite forallb_app, Hser. reflexivity. }
  erewrite bind_ok;
    [|apply (delete_bookmarks_run _ (l ++ [new_bookmark title url now]));
      [apply attr_setattr|exact Hser'|apply NoDup_singleton]].
  rewrite (not_selected_last l _ 0). cbn [fst snd].
  assert (setattr config1 "BOOKMARKS" (PList l)
          = setattr config "BOOKMARKS" (PList l)) as ->
    by (unfold config1, setattr; apply insert_insert_eq).
  rewrite (load_bookmarks_to_table_bookmarks _ l (attr_setattr _ _ _) Hbm).
  cbn [and_then].
  rewrite (update_bookmarks_menu_bookmarks _ l (attr_setattr _ _ _) Hbm).
  assert (current_profile config1 = current_profile config) as ->
    by (by apply current_profile_setattr).
  cbn [fst snd ret]. split; [done|].
  rewrite dir_of_with_dir. apply lookup_insert_eq.
Qed.

End BookmarkManagerProperties.

Lemma add_then_remove_bookmark_restores_witness :
  exists config1,
    add_bookmark_from_manager item_rejects_number config_one_bookmark "B" true
      "https://b.example" true "2024-02-01 09:00:00" = (config1, None)
    /\ fst (remove_selected_bookmarks item_rejects_number config1 [1] true
              world_with_bookmarks)
       = Ok (config_one_bookmark, None).
Proof.
  destruct (add_then_remove_bookmark_restores item_rejects_number
              config_one_bookmark
              [example_bookmark "A" "https://a.example" "2024-01-01 10:00:00"]
              "B" "https://b.example" "2024-02-01 09:00:00"
              world_with_bookmarks) as (config1 & H1 & _ & H2 & _).
  - reflexivity.
  - reflexivity.
  - reflexivity.
  - discriminate.
  - discriminate.
  - exists config1. split; [exact H1|].
    etransitivity; [exact H2|]. reflexivity.
Defined.

(** *** Demo2i3.py *)

(** X19. In [Demo2i3.py] a bookmark is the pair of title and url: toggling
    a pair that is not in the list appends it, also when the url is
    already bookmarked under another title, and toggling the same pair
    again gives back the list as it was.  Neither call raises, whatever
    happens to the file. *)
Theorem toggle_bookmark_pair_round_trip (bookmarks : list (list pyval))
    (name title url : string) (w w1 : world) :
  existsb (Demo2i3.tuple_eq title url) bookmarks = false ->
  fst (Demo2i3.toggle_bookmark bookmarks name title url w)
  = Ok (bookmarks ++ [[PStr title; PStr url]])
  /\ fst (Demo2i3.toggle_bookmark (bookmarks ++ [[PStr title; PStr url]])
            name title url w1)
     = Ok bookmarks.
Proof.
  intros Habsent. rewrite !Demo2i3_toggle_bookmark_result.
  rewrite Habsent. split; [done|].
  rewrite existsb_app. cbn [existsb].
  rewrite tuple_eq_refl, orb_true_r.
  by rewrite remove_first_appended.
Qed.

Lemma toggle_bookmark_pair_round_trip_witness :
  fst (Demo2i3.toggle_bookmark [[PStr "A"; PStr "https://a.example"]] "default"
         "A again" "https://a.example" empty_world)
  = Ok [[PStr "A"; PStr "https://a.example"];
        [PStr "A again"; PStr "https://a.example"]].
Proof.
  destruct (toggle_bookmark_pair_round_trip
              [[PStr "A"; PStr "https://a.example"]] "default" "A again"
              "https://a.example" empty_world empty_world) as [H _].
  - reflexivity.
  - exact H.
Defined.

Lemma tuples_of_lists bookmarks :
  Demo2i3.tuples_of (map PList bookmarks) = Ok bookmarks.
Proof.
  induction bookmarks as [|t bookmarks IH]; [done|].
  cbn [map Demo2i3.tuples_of iterate]. by rewrite IH.
Qed.

(** X20. Round trip in [Demo2i3.py]: the pairs [save_bookmarks] writes
    come back from [load_bookmarks] as the same list of tuples, whatever
    list was in memory before the load. *)
Theorem save_then_load_tuples (bookmarks other : list (list pyval))
    (name : string) (w : world) :
  json_serializable (Demo2i3.json_of_tuples bookmarks) = true ->
  fst (Demo2i3.load_bookmarks other name
         (snd (Demo2i3.save_bookmarks bookmarks name w)))
  = Ok bookmarks.
Proof.
  intros Hser. unfold Demo2i3.save_bookmarks.
  erewrite try_ok; [|by apply run_save_json_steps]. cbn [snd].
  unfold Demo2i3.load_bookmarks.
  erewrite try_ok; [done|].
  rewrite file_exists_with_dir, lookup_insert_eq.
  erewrite bind_ok;
    [|apply read_file_with_dir; apply lookup_insert_eq].
  erewrite bind_ok by reflexivity.
  erewrite bind_ok by reflexivity.
  unfold lift. by rewrite tuples_of_lists.
Qed.

Lemma save_then_load_tuples_witness :
  fst (Demo2i3.load_bookmarks [] "default"
         (snd (Demo2i3.save_bookmarks [[PStr "A"; PStr "https://a.example"]]
                 "default" empty_world)))
  = Ok [[PStr "A"; PStr "https://a.example"]].
Proof.
  apply (save_then_load_tuples [[PStr "A"; PStr "https://a.example"]] []
           "default" empty_world).
  reflexivity.
Defined.

(** *** History, continued *)

Lemma load_history_unreadable name c w :
  dir_of name w !! "history.json" = Some c ->
  json_load c = Raise JSONDecodeError ->
  load_history name w
  = (Ok (PList []), emit [LogError "FILE" JSONDecodeError] w).
Proof.
  intros Hc Hload. unfold load_history.
  rewrite (try_raise _ _ _ JSONDecodeError w).
  - by rewrite (bind_ok _ _ _ _ _ (handle_file _ _)).
  - rewrite file_exists_dir_of, Hc.
    rewrite (bind_ok _ _ _ _ _ (read_file_dir_of _ _ _ _ Hc)).
    unfold lift. by rewrite Hload.
Qed.

Lemma load_history_json name h w :
  dir_of name w !! "history.json" = Some (FJson h) ->
  load_history name w = (Ok h, w).
Proof.
  intros Hc. unfold load_history. apply try_ok.
  rewrite file_exists_dir_of, Hc.
  by rewrite (bind_ok _ _ _ _ _ (read_file_dir_of _ _ _ _ Hc)).
Qed.

(** X21. A [history.json] that cannot be parsed is replaced on the next
    visit: [add_to_history] logs the decode error, does not raise, and
    writes a history that holds this visit only. *)
Theorem add_to_history_replaces_unreadable_history
    (config : gmap string pyval) (c : fdata) (url title now : string)
    (w : world) :
  dir_of (current_profile config) w !! "history.json" = Some c ->
  json_load c = Raise JSONDecodeError ->
  let w' := snd (add_to_history config url title now w) in
  fst (add_to_history config url title now w) = Ok tt
  /\ dir_of (current_profile config) w' !! "history.json"
     = Some (FJson (PList [new_history_entry url title now]))
  /\ events w' = events w ++ [LogError "FILE" JSONDecodeError].
Proof.
  intros Hc Hload w'. unfold w', add_to_history.
  rewrite (bind_ok _ _ _ _ _ (load_history_unreadable _ _ _ Hc Hload)).
  erewrite bind_ok by reflexivity.
  change (take 100 [new_history_entry url title now])
    with [new_history_entry url title now].
  rewrite save_history_given by done. cbn [fst snd].
  split; [done|]. rewrite dir_of_with_dir.
  split; [apply lookup_insert_eq|done].
Qed.

Lemma add_to_history_replaces_unreadable_history_witness :
  dir_of "default"
    (snd (add_to_history config_new "https://a.example" "A"
            "2024-02-01 09:00:00"
            world_broken_history))
    !! "history.json"
  = Some (FJson (PList [new_history_entry "https://a.example" "A"
                          "2024-02-01 09:00:00"])).
Proof.
  destruct (add_to_history_replaces_unreadable_history config_new FTruncated
              "https://a.example" "A" "2024-02-01 09:00:00"
              world_broken_history)
    as (_ & H & _).
  - reflexivity.
  - reflexivity.
  - exact H.
Defined.

Lemma record_visit_not_a_list h url title now :
  (forall l, h <> PList l) -> exists e, record_visit h url title now = Raise e.
Proof.
  intros Hh. unfold record_visit.
  destruct h as [| | | |s|l|d|]; cbn [iterate];
    try (eexists; reflexivity).
  - destruct s as [|a s]; simpl; eexists; reflexivity.
  - by destruct (Hh l).
  - destruct d as [|[k v] d]; simpl; eexists; reflexivity.
Qed.

(** X22. When [history.json] holds a JSON document that is not a list,
    [add_to_history] raises to its caller and writes nothing. *)
Theorem add_to_history_raises_on_non_list (config : gmap string pyval)
    (h : pyval) (url title now : string) (w : world) :
  dir_of (current_profile config) w !! "history.json" = Some (FJson h) ->
  (forall l, h <> PList l) ->
  exists e, add_to_history config url title now w = (Raise e, w).
Proof.
  intros Hc Hh. destruct (record_visit_not_a_list h url title now Hh) as [e He].
  exists e. unfold add_to_history.
  rewrite (bind_ok _ _ _ _ _ (load_history_json _ _ _ Hc)).
  apply bind_raise. unfold lift. by rewrite He.
Qed.

Lemma add_to_history_raises_on_non_list_witness :
  exists e,
    add_to_history config_new "https://a.example" "A" "2024-02-01 09:00:00"
      world_history_object
    = (Raise e, world_history_object).
Proof.
  apply (add_to_history_raises_on_non_list config_new (PDict [])).
  - reflexivity.
  - discriminate.
Defined.

(** *** Session, continued *)

Section SessionErrors.
Variable reselect : list tab -> Z -> Z.

(** X23. A saved session with an entry that has no ["url"] is read up to
    that entry only.  [load_session] does not raise and leaves the
    window as it was: for each entry before the bad one [new_tab]
    reports one UI error and adds no tab, the bad entry is logged as a
    file error, the entries after it are not looked at, and neither the
    saved index nor the saved theme is applied.  No file and no setting
    is touched. *)
Theorem load_session_stops_at_entry_without_url (self : window)
    (session bad : pyval) (entries rest : list pyval) (e : exn) (w : world) :
  value (settings_app (current_profile (config self))) "session" w
  = Some (QJsonStr session) ->
  getitem session "tabs" = Ok (PList (entries ++ bad :: rest)) ->
  forallb is_entry entries = true ->
  getitem bad "url" = Raise e ->
  load_session reselect self w
  = (Ok self, emit (ui_error_reports entries ++ [LogError "FILE" e]) w).
Proof.
  intros Hv Htabs Hent Hbad. unfold load_session.
  erewrite bind_ok by reflexivity. rewrite Hv.
  cbn [qvalue_truthy json_loads_qvalue]. rewrite Htabs. cbn [iterate].
  assert (open_tabs reselect self (entries ++ bad :: rest) w
          = (Ok (self, Some e), emit (ui_error_reports entries) w)) as Ho.
  { rewrite open_tabs_app by done. cbn [open_tabs]. by rewrite Hbad. }
  rewrite (bind_ok _ _ _ _ _ Ho).
  rewrite (bind_ok _ _ _ _ _ (handle_file _ _)).
  by rewrite emit_emit.
Qed.

End SessionErrors.

Lemma load_session_stops_at_entry_without_url_witness :
  load_session reselect_first window_empty world_session_without_url
  = (Ok window_empty,
     emit (ui_error_report ++ [LogError "FILE" (KeyError "url")])
       world_session_without_url).
Proof.
  apply (load_session_stops_at_entry_without_url reselect_first window_empty
           session_without_url (PDict [("private", PBool false)])
           [tab_entry (Tab "https://a.example" (PBool false) (PStr "Mail")
                         (PBool false))]
           [tab_entry (Tab "https://b.example" (PBool false) (PStr "News")
                         (PBool false))]
           (KeyError "url") world_session_without_url).
  - reflexivity.
  - reflexivity.
  - reflexivity.
  - reflexivity.
Defined.

(** *** Encrypted profiles and the list of profiles *)

(** X24. Creating an encrypted profile under a name that is one path
    component writes [profile.meta] and [config.enc] only: the profile is
    then listed by [get_available_profiles] and recognised as encrypted,
    while every other file of its directory, such as the bookmarks and
    the history, stays as it was, in plaintext, and no other profile
    changes. *)
Theorem create_encrypted_profile_keeps_other_files
    (kdf : string -> string -> string) (salt name password : string)
    (config_data : pyval) (w : world) :
  path_component name = true ->
  json_serializable config_data = true ->
  let w' := snd (create_encrypted_profile kdf salt name password
                   (Some config_data) w) in
  is_encrypted name w' = true
  /\ name ∈ get_available_profiles w'
  /\ (forall file, file <> "profile.meta" -> file <> "config.enc" ->
        dir_of name w' !! file = dir_of name w !! file)
  /\ (forall other, other <> name ->
        profiles w' !! other = profiles w !! other).
Proof.
  intros _ Hser w'. unfold w'.
  rewrite create_encrypted_profile_given by done. cbn [snd].
  split; [|split; [|split]].
  - unfold is_encrypted. rewrite with_dir_lookup.
    rewrite lookup_insert_ne, lookup_insert_eq by done.
    by destruct (marker_prefix salt).
  - apply elem_of_get_available_profiles. right.
    rewrite with_dir_lookup. by eexists.
  - intros file H1 H2. rewrite dir_of_with_dir.
    by rewrite !lookup_insert_ne.
  - intros other Hother. unfold with_dir, set_profiles. cbn.
    by rewrite lookup_insert_ne.
Qed.

Lemma create_encrypted_profile_keeps_other_files_witness :
  dir_of "work"
    (snd (create_encrypted_profile example_kdf "0123456789abcdef" "work"
            "correct horse" (Some (json_config_data "work"))
            world_two_profiles)) !! "history.json"
  = dir_of "work" world_two_profiles !! "history.json".
Proof.
  destruct (create_encrypted_profile_keeps_other_files example_kdf
              "0123456789abcdef" "work" "correct horse"
              (json_config_data "work") world_two_profiles) as (_ & _ & H & _).
  - reflexivity.
  - reflexivity.
  - apply H; discriminate.
Defined.
